(** * scrapy.http.request: the Request class, embedded and verified

    A shallow embedding of [scrapy/http/request/__init__.py]: the Python
    values the constructor receives, the instance dictionary it fills, the
    heap on which instances live, and the methods [__init__], [_set_url],
    [_set_body], the [meta] and [cb_kwargs] accessors, [replace], [copy],
    [from_curl], [to_dict] and the helper [_find_method].

    Statements run in a state-and-exception monad whose state survives a
    raised exception, as it does in Python.  Functions of other modules
    (w3lib's [safe_url_string], scrapy's [escape_ajax], [Headers],
    [curl_to_request_kwargs], the codecs) are a class of collaborators
    over which everything is parametric.

    The properties follow the model: the constructor (C4, C5, C7, C9,
    C10), the accessors (C8), serialisation (C1, C2, C3), and
    [replace]/[copy] (C6). *)

From Stdlib Require Import ZArith Ascii String Strings.Byte.
From stdpp Require Import base option list strings gmap fin_maps pretty.

Local Open Scope string_scope.
Set Warnings "-register-all".

(** ** Python values *)

(** A class object is known by its module and its name
    ([cls.__module__], [cls.__name__]). *)
Record classref := ClassRef { cls_module : string; cls_name : string }.

#[global] Instance classref_eq_dec : EqDecision classref.
Proof. solve_decision. Defined.

#[global] Instance byte_eq_dec : EqDecision byte := Byte.byte_eq_dec.

(** Heap addresses of Request instances: object identity. *)
Abbreviation loc := nat.

(** The values that reach the constructor's parameters.  A function object
    is known by a label that stands for its identity ([is]); a bound method
    carries the identity of [__self__] and the label of [__func__].  A
    [Headers] object holds its normalised items: name, list of values. *)
Inductive pyval :=
| PNone
| PBool (b : bool)
| PInt (n : Z)
| PStr (s : string)
| PBytes (b : list byte)
| PList (l : list pyval)
| PDict (items : list (pyval * pyval))
| PFunction (f : string)
| PMethod (self : nat) (f : string)
| PClass (c : classref)
| PHeaders (items : list (list byte * list (list byte)))
| PObject (l : loc).

Inductive exn :=
| TypeError (msg : string)
| ValueError (msg : string)
| AttributeError (msg : string)
| RuntimeError (msg : string)
| LookupError (msg : string)
| UnicodeError (msg : string).

Inductive outcome (A : Type) :=
| Ret (a : A)
| Raise (e : exn).
Arguments Ret {A} a.
Arguments Raise {A} e.

(** ** Builtins *)

(** [bool(v)]. *)
Definition truthy (v : pyval) : bool :=
  match v with
  | PNone => false
  | PBool b => b
  | PInt n => negb (n =? 0)%Z
  | PStr s => negb (String.eqb s EmptyString)
  | PBytes b => match b with [] => false | _ => true end
  | PList l => match l with [] => false | _ => true end
  | PDict d => match d with [] => false | _ => true end
  | PHeaders h => match h with [] => false | _ => true end
  | PFunction _ | PMethod _ _ | PClass _ | PObject _ => true
  end.

(** [a or b]. *)
Definition py_or (a b : pyval) : pyval := if truthy a then a else b.

(** [callable(v)]. *)
Definition callable (v : pyval) : bool :=
  match v with
  | PFunction _ | PMethod _ _ | PClass _ => true
  | _ => false
  end.

Definition is_none (v : pyval) : bool :=
  match v with PNone => true | _ => false end.

(** [isinstance(v, int)]; [bool] is a subclass of [int]. *)
Definition isinstance_int (v : pyval) : bool :=
  match v with PInt _ | PBool _ => true | _ => false end.

(** [isinstance(v, str)]. *)
Definition isinstance_str (v : pyval) : bool :=
  match v with PStr _ => true | _ => false end.

(** [hasattr(v, "__func__")]: only instance methods contain [__func__]. *)
Definition has_func (v : pyval) : bool :=
  match v with PMethod _ _ => true | _ => false end.

(** [inspect.ismethod(v)]: [v] is a bound method. *)
Definition ismethod (v : pyval) : bool :=
  match v with PMethod _ _ => true | _ => false end.

(** [type(v).__name__]. *)
Definition type_name (v : pyval) : string :=
  match v with
  | PNone => "NoneType"
  | PBool _ => "bool"
  | PInt _ => "int"
  | PStr _ => "str"
  | PBytes _ => "bytes"
  | PList _ => "list"
  | PDict _ => "dict"
  | PFunction _ => "function"
  | PMethod _ _ => "method"
  | PClass _ => "type"
  | PHeaders _ => "Headers"
  | PObject _ => "Request"
  end.

(** [str.upper].  A string is a sequence of 8-bit characters, of which the
    ASCII letters have an upper case. *)
Definition upper_ascii (c : ascii) : ascii :=
  let n := nat_of_ascii c in
  if (97 <=? n)%nat && (n <=? 122)%nat then ascii_of_nat (n - 32) else c.

Fixpoint upper (s : string) : string :=
  match s with
  | EmptyString => EmptyString
  | String c r => String (upper_ascii c) (upper r)
  end.

(** [s.startswith(p)]. *)
Definition startswith (p s : string) : bool := String.prefix p s.

(** [p in s] for strings. *)
Fixpoint str_contains (p s : string) : bool :=
  String.prefix p s ||
  match s with
  | EmptyString => false
  | String _ r => str_contains p r
  end.

(** Hashable values, the ones a [dict] accepts as keys. *)
Definition hashable (v : pyval) : bool :=
  match v with
  | PList _ | PDict _ | PHeaders _ => false
  | _ => true
  end.

(** [==] on keys; [True == 1] and [False == 0]. *)
Definition key_eqb (a b : pyval) : bool :=
  match a, b with
  | PNone, PNone => true
  | PBool x, PBool y => Bool.eqb x y
  | PBool x, PInt n | PInt n, PBool x => (n =? (if x then 1 else 0))%Z
  | PInt n, PInt m => (n =? m)%Z
  | PStr s, PStr t => String.eqb s t
  | PBytes x, PBytes y => bool_decide (x = y)
  | PFunction f, PFunction g => String.eqb f g
  | PMethod o f, PMethod p g => (o =? p)%nat && String.eqb f g
  | PClass c, PClass d => bool_decide (c = d)
  | PObject l, PObject k => (l =? k)%nat
  | _, _ => false
  end.

(** [d[k] = v] on the items of a dict, which keeps insertion order. *)
Fixpoint dict_set (k v : pyval) (d : list (pyval * pyval)) : list (pyval * pyval) :=
  match d with
  | [] => [(k, v)]
  | (k', v') :: r => if key_eqb k' k then (k', v) :: r else (k', v') :: dict_set k v r
  end.

(** The items of [dict(h)] for a [Headers] object [h]. *)
Definition headers_items (h : list (list byte * list (list byte))) : list (pyval * pyval) :=
  map (fun kv => (PBytes kv.1, PList (map PBytes kv.2))) h.

Definition omap_outcome {A B} (f : A -> B) (o : outcome A) : outcome B :=
  match o with Ret a => Ret (f a) | Raise e => Raise e end.

(** The elements that iterating over [v] yields. *)
Definition py_iter (v : pyval) : outcome (list pyval) :=
  match v with
  | PList l => Ret l
  | PDict d => Ret (map fst d)
  | PHeaders h => Ret (map (fun kv => PBytes kv.1) h)
  | PStr s => Ret (map (fun c => PStr (String c EmptyString)) (list_ascii_of_string s))
  | PBytes b => Ret (map (fun x => PInt (Z.of_N (Byte.to_N x))) b)
  | _ => Raise (TypeError ("'" ++ type_name v ++ "' object is not iterable"))
  end.

(** [list(v)]. *)
Definition py_list (v : pyval) : outcome pyval := omap_outcome PList (py_iter v).

(** [dict(v)]: a copy of a mapping, or a dict built from an iterable whose
    elements are themselves sequences of length two. *)
Fixpoint dict_of_pairs (l : list pyval) (acc : list (pyval * pyval))
  : outcome (list (pyval * pyval)) :=
  match l with
  | [] => Ret acc
  | e :: r =>
      match py_iter e with
      | Ret [k; v] =>
          if hashable k then dict_of_pairs r (dict_set k v acc)
          else Raise (TypeError ("unhashable type: '" ++ type_name k ++ "'"))
      | Ret _ =>
          Raise (ValueError "dictionary update sequence element has the wrong length")
      | Raise _ =>
          Raise (TypeError "cannot convert dictionary update sequence element to a sequence")
      end
  end.

Definition py_dict (v : pyval) : outcome pyval :=
  match v with
  | PDict d => Ret (PDict d)
  | PHeaders h => Ret (PDict (headers_items h))
  | _ =>
      match py_iter v with
      | Ret l => omap_outcome PDict (dict_of_pairs l [])
      | Raise e => Raise e
      end
  end.

(** [repr(v)] and [str(v)].  The text of a container, a function or an
    object is the interpreter's business ([interp_repr] below). *)
Definition py_repr (interp_repr : pyval -> string) (v : pyval) : string :=
  match v with
  | PNone => "None"
  | PBool true => "True"
  | PBool false => "False"
  | PInt n => pretty n
  | _ => interp_repr v
  end.

Definition py_str (interp_repr : pyval -> string) (v : pyval) : string :=
  match v with
  | PStr s => s
  | _ => py_repr interp_repr v
  end.

(** ** Instances and the heap *)

(** A Request instance: its class and its [__dict__]. *)
Record instance := Instance { inst_class : classref; inst_attrs : gmap string pyval }.

Abbreviation heap := (gmap nat instance).

(** An object handed to [to_dict] as [spider]: its identity, its truth
    value, its [str()], and the pairs [(name, getattr(obj, name))] in the
    order in which [inspect.getmembers] lists them (sorted by name). *)
Record pyobject := PyObject {
  obj_id : nat;
  obj_truthy : bool;
  obj_str : string;
  obj_members : list (string * pyval)
}.

(** ** The monad: a state that outlives exceptions

    A method that only touches [self] runs on the instance dictionary
    ([Self]); instantiation runs on the heap ([M]).  As in Python, what was
    assigned before an exception stays assigned. *)

Definition St (S A : Type) : Type := S -> outcome A * S.

Definition ret {S A} (a : A) : St S A := fun s => (Ret a, s).

Definition raise {S A} (e : exn) : St S A := fun s => (Raise e, s).

Definition bind {S A B} (c : St S A) (k : A -> St S B) : St S B :=
  fun s =>
    match c s with
    | (Ret a, s') => k a s'
    | (Raise e, s') => (Raise e, s')
    end.

Definition lift {S A} (o : outcome A) : St S A := fun s => (o, s).

Abbreviation Self := (St (gmap string pyval)).
Abbreviation M := (St (gmap nat instance)).

Declare Scope py_scope.
Delimit Scope py_scope with py.
Notation "x <- c ;; k" := (bind c (fun x => k))
  (at level 100, c at next level, right associativity) : py_scope.
Notation "c ;; k" := (bind c (fun _ => k))
  (at level 100, right associativity) : py_scope.

Definition no_attribute (name : string) : exn :=
  AttributeError ("object has no attribute '" ++ name ++ "'").

(** [self.name] read from the instance dictionary. *)
Definition getfield (name : string) : Self pyval :=
  fun d =>
    match d !! name with
    | Some v => (Ret v, d)
    | None => (Raise (no_attribute name), d)
    end.

(** [self.name = v]. *)
Definition setfield (name : string) (v : pyval) : Self unit :=
  fun d => (Ret tt, <[name := v]> d).

(** A method of the instance at [self], run on the heap. *)
Definition on {A} (self : loc) (c : Self A) : M A :=
  fun h =>
    match h !! self with
    | Some inst =>
        let r := c (inst_attrs inst) in
        (r.1, <[self := Instance (inst_class inst) r.2]> h)
    | None => (Raise (no_attribute "__dict__"), h)
    end.

(** [self.__class__]. *)
Definition class_of (self : loc) : M classref :=
  fun h =>
    match h !! self with
    | Some inst => (Ret (inst_class inst), h)
    | None => (Raise (no_attribute "__class__"), h)
    end.

(** [object_ref.__new__(cls)]: a fresh instance with an empty dictionary. *)
Definition alloc (c : classref) : M loc :=
  fun h => let l := fresh (dom h) in (Ret l, <[l := Instance c ∅]> h).

(** ** Collaborators outside this module

    [safe_url_string] is w3lib's; [escape_ajax], [Headers] and
    [curl_to_request_kwargs] are scrapy's own but live in other modules;
    [str_encode] is [str.encode]; [interp_repr] is the interpreter's text
    for a value; [call_callable] is the call of a callable that is not a
    class of this module. *)
Class Collaborators := {
  safe_url_string : string -> pyval -> outcome string;
  escape_ajax : string -> string;
  str_encode : string -> pyval -> outcome (list byte);
  new_Headers : pyval -> pyval -> outcome (list (list byte * list (list byte)));
  curl_to_request_kwargs : string -> bool -> outcome (gmap string pyval);
  interp_repr : pyval -> string;
  call_callable : pyval -> list pyval -> gmap string pyval -> outcome pyval
}.

(** ** The module *)

(** [NO_CALLBACK] is a module-level function; calling it raises. *)
Definition NO_CALLBACK : pyval := PFunction "scrapy.http.request.NO_CALLBACK".

Definition NO_CALLBACK_call (args : list pyval) (kwargs : gmap string pyval) : outcome pyval :=
  Raise (RuntimeError
    ("The NO_CALLBACK callback has been called. This is a special callback " ++
     "value intended for requests whose callback is never meant to be " ++
     "called.")).

Definition Request : classref := ClassRef "scrapy.http.request" "Request".

(** [Request.attributes]. *)
Definition attributes : list string :=
  ["url"; "callback"; "method"; "headers"; "body"; "cookies"; "meta";
   "encoding"; "priority"; "dont_filter"; "errback"; "flags"; "cb_kwargs"].

(** The parameters of [__init__] after [self], in order. *)
Definition init_params : list string :=
  ["url"; "callback"; "method"; "headers"; "body"; "cookies"; "meta";
   "encoding"; "priority"; "dont_filter"; "errback"; "flags"; "cb_kwargs"].

Record init_args := InitArgs {
  a_url : pyval; a_callback : pyval; a_method : pyval; a_headers : pyval;
  a_body : pyval; a_cookies : pyval; a_meta : pyval; a_encoding : pyval;
  a_priority : pyval; a_dont_filter : pyval; a_errback : pyval;
  a_flags : pyval; a_cb_kwargs : pyval
}.

(** Python's binding of positional and keyword arguments to the
    parameters of [__init__], with the defaults of its signature. *)
Definition bind_args (args : list pyval) (kwargs : gmap string pyval) : outcome init_args :=
  let names := init_params in
  let pos : gmap string pyval := list_to_map (zip names args) in
  if decide (length names < length args) then
    Raise (TypeError "__init__() takes from 2 to 14 positional arguments")
  else if decide (map_Forall (fun k _ => k ∈ names) kwargs) then
    if decide (map_Forall (fun k _ => pos !! k = None) kwargs) then
      let given := pos ∪ kwargs in
      let arg (name : string) (dflt : pyval) := default dflt (given !! name) in
      match given !! "url" with
      | None =>
          Raise (TypeError "__init__() missing 1 required positional argument: 'url'")
      | Some u =>
          Ret (InitArgs u (arg "callback" PNone) (arg "method" (PStr "GET"))
                 (arg "headers" PNone) (arg "body" PNone) (arg "cookies" PNone)
                 (arg "meta" PNone) (arg "encoding" (PStr "utf-8"))
                 (arg "priority" (PInt 0)) (arg "dont_filter" (PBool false))
                 (arg "errback" PNone) (arg "flags" PNone) (arg "cb_kwargs" PNone))
      end
    else Raise (TypeError "__init__() got multiple values for an argument")
  else Raise (TypeError "__init__() got an unexpected keyword argument").

Section RequestClass.
Context {C : Collaborators}.
Local Open Scope py_scope.

(** Modelled from the spec: [scrapy.utils.python.to_bytes], which is not
    in this module.  Bytes are kept, a string is encoded with the request's
    encoding; no other input can become the body, a byte sequence. *)
Definition to_bytes (text : pyval) (encoding : pyval) : outcome (list byte) :=
  match text with
  | PBytes b => Ret b
  | PStr s => str_encode s encoding
  | _ =>
      Raise (TypeError ("to_bytes must receive a str or bytes object, got " ++ type_name text))
  end.

(** The [encoding] property. *)
Definition encoding : Self pyval := getfield "_encoding".

Definition _get_url : Self pyval := getfield "_url".

(** The scheme test of [_set_url]. *)
Definition has_scheme (u : string) : bool :=
  str_contains "://" u || startswith "about:" u || startswith "data:" u.

Definition _set_url (url : pyval) : Self unit :=
  match url with
  | PStr u =>
      enc <- encoding ;;
      s <- lift (safe_url_string u enc) ;;
      setfield "_url" (PStr (escape_ajax s)) ;;
      if negb (str_contains "://" (escape_ajax s))
         && negb (startswith "about:" (escape_ajax s))
         && negb (startswith "data:" (escape_ajax s))
      then raise (ValueError ("Missing scheme in request url: " ++ escape_ajax s))
      else ret tt
  | _ => raise (TypeError ("Request url must be str, got " ++ type_name url))
  end.

Definition _get_body : Self pyval := getfield "_body".

Definition _set_body (body : pyval) : Self unit :=
  if is_none body then setfield "_body" (PBytes [])
  else
    enc <- encoding ;;
    b <- lift (to_bytes body enc) ;;
    setfield "_body" (PBytes b).

(** [Request.__init__]. *)
Definition __init__ (a : init_args) : Self unit :=
  setfield "_encoding" (a_encoding a) ;;
  setfield "method" (PStr (upper (py_str interp_repr (a_method a)))) ;;
  _set_url (a_url a) ;;
  _set_body (a_body a) ;;
  (if negb (isinstance_int (a_priority a))
   then raise (TypeError ("Request priority not an integer: "
                            ++ py_repr interp_repr (a_priority a)))
   else ret tt) ;;
  setfield "priority" (a_priority a) ;;
  (if negb (callable (a_callback a) || is_none (a_callback a))
   then raise (TypeError ("callback must be a callable, got " ++ type_name (a_callback a)))
   else ret tt) ;;
  (if negb (callable (a_errback a) || is_none (a_errback a))
   then raise (TypeError ("errback must be a callable, got " ++ type_name (a_errback a)))
   else ret tt) ;;
  setfield "callback" (a_callback a) ;;
  setfield "errback" (a_errback a) ;;
  setfield "cookies" (py_or (a_cookies a) (PDict [])) ;;
  hs <- lift (new_Headers (py_or (a_headers a) (PDict [])) (a_encoding a)) ;;
  setfield "headers" (PHeaders hs) ;;
  setfield "dont_filter" (a_dont_filter a) ;;
  m <- (if truthy (a_meta a) then lift (py_dict (a_meta a)) else ret PNone) ;;
  setfield "_meta" m ;;
  k <- (if truthy (a_cb_kwargs a) then lift (py_dict (a_cb_kwargs a)) else ret PNone) ;;
  setfield "_cb_kwargs" k ;;
  f <- (if is_none (a_flags a) then ret (PList []) else lift (py_list (a_flags a))) ;;
  setfield "flags" f.

(** The [cb_kwargs] property. *)
Definition cb_kwargs : Self pyval :=
  k <- getfield "_cb_kwargs" ;;
  (if is_none k then setfield "_cb_kwargs" (PDict []) else ret tt) ;;
  getfield "_cb_kwargs".

(** The [meta] property. *)
Definition meta : Self pyval :=
  m <- getfield "_meta" ;;
  (if is_none m then setfield "_meta" (PDict []) else ret tt) ;;
  getfield "_meta".

(** [getattr(self, name)]: the properties first, then the dictionary. *)
Definition getattr (name : string) : Self pyval :=
  if String.eqb name "url" then _get_url
  else if String.eqb name "body" then _get_body
  else if String.eqb name "encoding" then encoding
  else if String.eqb name "meta" then meta
  else if String.eqb name "cb_kwargs" then cb_kwargs
  else getfield name.

(** [Request.__repr__]: the f-string formats both attributes with
    [str()]. *)
Definition __repr__ : Self string :=
  m <- getfield "method" ;;
  u <- _get_url ;;
  ret ("<" ++ py_str interp_repr m ++ " " ++ py_str interp_repr u ++ ">").

(** Instantiating [cls], which is [Request] or a class that inherits its
    constructor, with positional arguments [args] and keyword arguments
    [kwargs]. *)
Definition construct (cls : classref) (args : list pyval) (kwargs : gmap string pyval) : M loc :=
  self <- alloc cls ;;
  a <- lift (bind_args args kwargs) ;;
  on self (__init__ a) ;;
  ret self.

(** Calling an arbitrary value [f] with [args] and [kwargs]. *)
Definition call (f : pyval) (args : list pyval) (kwargs : gmap string pyval) : M pyval :=
  match f with
  | PClass cls => self <- construct cls args kwargs ;; ret (PObject self)
  | _ =>
      if callable f then lift (call_callable f args kwargs)
      else raise (TypeError ("'" ++ type_name f ++ "' object is not callable"))
  end.

(** [kwargs.setdefault(x, v)]. *)
Definition setdefault (x : string) (v : pyval) (kwargs : gmap string pyval) : gmap string pyval :=
  match kwargs !! x with
  | Some _ => kwargs
  | None => <[x := v]> kwargs
  end.

(** [for x in names: kwargs.setdefault(x, getattr(self, x))]. *)
Fixpoint setdefault_attrs (names : list string) (kwargs : gmap string pyval)
  : Self (gmap string pyval) :=
  match names with
  | [] => ret kwargs
  | x :: r =>
      v <- getattr x ;;
      setdefault_attrs r (setdefault x v kwargs)
  end.

(** [Request.replace]. *)
Definition replace (self : loc) (args : list pyval) (kwargs : gmap string pyval) : M pyval :=
  kwargs' <- on self (setdefault_attrs attributes kwargs) ;;
  own <- class_of self ;;
  call (default (PClass own) (kwargs' !! "cls")) args (delete "cls" kwargs').

(** [Request.copy]. *)
Definition copy (self : loc) : M pyval := replace self [] ∅.

(** [Request.from_curl], a class method. *)
Definition from_curl (cls : classref) (curl_command : string)
    (ignore_unknown_options : bool) (kwargs : gmap string pyval) : M loc :=
  request_kwargs <- lift (curl_to_request_kwargs curl_command ignore_unknown_options) ;;
  construct cls [] (kwargs ∪ request_kwargs).

(** [inspect.getmembers(obj, predicate=inspect.ismethod)]. *)
Definition getmembers_ismethod (obj : pyobject) : list (string * pyval) :=
  List.filter (fun nv => ismethod nv.2) (obj_members obj).

(** [a.__func__ is b.__func__] for two instance methods. *)
Definition same_func (a b : pyval) : bool :=
  match a, b with
  | PMethod _ f, PMethod _ g => String.eqb f g
  | _, _ => false
  end.

(** The loop of [_find_method]: the first name whose method has the
    function of [func]. *)
Fixpoint first_member (members : list (string * pyval)) (func : pyval) : option string :=
  match members with
  | [] => None
  | (name, obj_func) :: r =>
      if same_func obj_func func then Some name else first_member r func
  end.

(** The text of [obj] in an f-string. *)
Definition owner_str (obj : option pyobject) : string :=
  match obj with
  | None => "None"
  | Some o => obj_str o
  end.

Definition not_an_instance_method (obj : option pyobject) (func : pyval) : exn :=
  ValueError ("Function " ++ py_str interp_repr func
              ++ " is not an instance method in: " ++ owner_str obj).

(** [_find_method(obj, func)]. *)
Definition _find_method (obj : option pyobject) (func : pyval) : outcome string :=
  match obj with
  | Some o =>
      if obj_truthy o && has_func func then
        match first_member (getmembers_ismethod o) func with
        | Some name => Ret name
        | None => Raise (not_an_instance_method obj func)
        end
      else Raise (not_an_instance_method obj func)
  | None => Raise (not_an_instance_method obj func)
  end.

(** The value stored for [callback] and for [errback]:
    [_find_method(spider, f) if callable(f) else f]. *)
Definition resolve (spider : option pyobject) (f : pyval) : outcome pyval :=
  if callable f then omap_outcome PStr (_find_method spider f) else Ret f.

(** The first four entries of the dict that [to_dict] builds. *)
Definition to_dict_head (spider : option pyobject) : Self (gmap string pyval) :=
  url <- getattr "url" ;;
  cb <- getattr "callback" ;;
  cb' <- lift (resolve spider cb) ;;
  eb <- getattr "errback" ;;
  eb' <- lift (resolve spider eb) ;;
  hs <- getattr "headers" ;;
  hd <- lift (py_dict hs) ;;
  ret (<["headers" := hd]> (<["errback" := eb']> (<["callback" := cb']> {["url" := url]}))).

(** [if type(self) is not Request: d["_class"] = module + "." + name]. *)
Definition to_dict_class_tag (c : classref) (d : gmap string pyval) : gmap string pyval :=
  if decide (c = Request) then d
  else <["_class" := PStr (cls_module c ++ "." ++ cls_name c)]> d.

(** [Request.to_dict]. *)
Definition to_dict (self : loc) (spider : option pyobject) : M (gmap string pyval) :=
  d <- on self (d0 <- to_dict_head spider ;; setdefault_attrs attributes d0) ;;
  c <- class_of self ;;
  ret (to_dict_class_tag c d).

End RequestClass.

(** * Specification vocabulary *)

Section Vocabulary.
Context {C : Collaborators}.
Local Open Scope py_scope.

(** The values that [__init__] computes before it stores them: the body,
    the copies kept for [meta] and [cb_kwargs], and the list of flags. *)
Definition body_bytes (body enc : pyval) : outcome (list byte) :=
  if is_none body then Ret [] else to_bytes body enc.

Definition lazy_dict (v : pyval) : outcome pyval :=
  if truthy v then py_dict v else Ret PNone.

Definition flags_list (v : pyval) : outcome pyval :=
  if is_none v then Ret (PList []) else py_list v.

(** The instance dictionary after [__init__] has stored its first two,
    three, four and five fields, and all of them. *)
Definition fields_to_method (a : init_args) (d : gmap string pyval) : gmap string pyval :=
  <["method" := PStr (upper (py_str interp_repr (a_method a)))]>
    (<["_encoding" := a_encoding a]> d).

Definition fields_to_url (a : init_args) (u : string) (d : gmap string pyval)
  : gmap string pyval :=
  <["_url" := PStr u]> (fields_to_method a d).

Definition fields_to_body (a : init_args) (u : string) (b : list byte)
    (d : gmap string pyval) : gmap string pyval :=
  <["_body" := PBytes b]> (fields_to_url a u d).

Definition fields_to_priority (a : init_args) (u : string) (b : list byte)
    (d : gmap string pyval) : gmap string pyval :=
  <["priority" := a_priority a]> (fields_to_body a u b d).

Definition init_fields (a : init_args) (u : string) (b : list byte)
    (hs : list (list byte * list (list byte))) (m k f : pyval)
    (d : gmap string pyval) : gmap string pyval :=
  <["flags" := f]> (<["_cb_kwargs" := k]> (<["_meta" := m]>
  (<["dont_filter" := a_dont_filter a]> (<["headers" := PHeaders hs]>
  (<["cookies" := py_or (a_cookies a) (PDict [])]>
  (<["errback" := a_errback a]> (<["callback" := a_callback a]>
  (fields_to_priority a u b d)))))))).

(** The url that [_set_url] stores for the arguments [a]. *)
Definition url_normalises (a : init_args) (u : string) : Prop :=
  exists x s, a_url a = PStr x /\ safe_url_string x (a_encoding a) = Ret s
              /\ u = escape_ajax s.

(** Every check and every conversion of [__init__] goes through. *)
Record init_accepts (a : init_args) (u : string) (b : list byte)
    (hs : list (list byte * list (list byte))) (m k f : pyval) : Prop := {
  acc_url : url_normalises a u;
  acc_scheme : has_scheme u = true;
  acc_body : body_bytes (a_body a) (a_encoding a) = Ret b;
  acc_priority : isinstance_int (a_priority a) = true;
  acc_callback : callable (a_callback a) || is_none (a_callback a) = true;
  acc_errback : callable (a_errback a) || is_none (a_errback a) = true;
  acc_headers : new_Headers (py_or (a_headers a) (PDict [])) (a_encoding a) = Ret hs;
  acc_meta : lazy_dict (a_meta a) = Ret m;
  acc_cb_kwargs : lazy_dict (a_cb_kwargs a) = Ret k;
  acc_flags : flags_list (a_flags a) = Ret f
}.

(** What "the url has a scheme" means: it contains [://], or it starts
    with [about:] or with [data:]. *)
Definition scheme_present (u : string) : Prop :=
  (exists p q, u = p +:+ "://" +:+ q)
  \/ (exists q, u = "about:" +:+ q)
  \/ (exists q, u = "data:" +:+ q).

(** The outcome of [__init__] as a function of its arguments alone: the
    checks in the order in which the constructor runs them. *)
Definition init_verdict (a : init_args) : outcome unit :=
  match a_url a with
  | PStr x =>
      match safe_url_string x (a_encoding a) with
      | Raise e => Raise e
      | Ret s =>
          if negb (has_scheme (escape_ajax s)) then
            Raise (ValueError ("Missing scheme in request url: " ++ escape_ajax s))
          else match body_bytes (a_body a) (a_encoding a) with
          | Raise e => Raise e
          | Ret _ =>
              if negb (isinstance_int (a_priority a)) then
                Raise (TypeError ("Request priority not an integer: "
                                    ++ py_repr interp_repr (a_priority a)))
              else if negb (callable (a_callback a) || is_none (a_callback a)) then
                Raise (TypeError ("callback must be a callable, got "
                                    ++ type_name (a_callback a)))
              else if negb (callable (a_errback a) || is_none (a_errback a)) then
                Raise (TypeError ("errback must be a callable, got "
                                    ++ type_name (a_errback a)))
              else match new_Headers (py_or (a_headers a) (PDict [])) (a_encoding a) with
              | Raise e => Raise e
              | Ret _ =>
                  match lazy_dict (a_meta a) with
                  | Raise e => Raise e
                  | Ret _ =>
                      match lazy_dict (a_cb_kwargs a) with
                      | Raise e => Raise e
                      | Ret _ =>
                          match flags_list (a_flags a) with
                          | Raise e => Raise e
                          | Ret _ => Ret tt
                          end
                      end
                  end
              end
          end
      end
  | _ => Raise (TypeError ("Request url must be str, got " ++ type_name (a_url a)))
  end.

(** The arguments [a] with [method] replaced. *)
Definition with_method (v : pyval) (a : init_args) : init_args :=
  InitArgs (a_url a) (a_callback a) v (a_headers a) (a_body a) (a_cookies a)
           (a_meta a) (a_encoding a) (a_priority a) (a_dont_filter a)
           (a_errback a) (a_flags a) (a_cb_kwargs a).

(** The arguments [a] with [callback] replaced. *)
Definition with_callback (v : pyval) (a : init_args) : init_args :=
  InitArgs (a_url a) v (a_method a) (a_headers a) (a_body a) (a_cookies a)
           (a_meta a) (a_encoding a) (a_priority a) (a_dont_filter a)
           (a_errback a) (a_flags a) (a_cb_kwargs a).

(** The argument bound to the parameter [name]. *)
Definition arg_of (a : init_args) (name : string) : option pyval :=
  if String.eqb name "url" then Some (a_url a)
  else if String.eqb name "callback" then Some (a_callback a)
  else if String.eqb name "method" then Some (a_method a)
  else if String.eqb name "headers" then Some (a_headers a)
  else if String.eqb name "body" then Some (a_body a)
  else if String.eqb name "cookies" then Some (a_cookies a)
  else if String.eqb name "meta" then Some (a_meta a)
  else if String.eqb name "encoding" then Some (a_encoding a)
  else if String.eqb name "priority" then Some (a_priority a)
  else if String.eqb name "dont_filter" then Some (a_dont_filter a)
  else if String.eqb name "errback" then Some (a_errback a)
  else if String.eqb name "flags" then Some (a_flags a)
  else if String.eqb name "cb_kwargs" then Some (a_cb_kwargs a)
  else None.

(** *** What a Request holds *)

(** The thirteen fields of an instance dictionary, as values. *)
Record fields := Fields {
  f_encoding : pyval;
  f_method : string;
  f_url : string;
  f_body : list byte;
  f_priority : pyval;
  f_callback : pyval;
  f_errback : pyval;
  f_cookies : pyval;
  f_headers : list (list byte * list (list byte));
  f_dont_filter : pyval;
  f_meta : pyval;
  f_cb_kwargs : pyval;
  f_flags : list pyval
}.

Definition none_or_dict (v : pyval) : Prop :=
  v = PNone \/ exists items, v = PDict items.

(** The invariant of a Request: what [__init__] establishes and the
    methods of the class keep. *)
Record request_inv (d : gmap string pyval) (r : fields) : Prop := {
  inv_encoding : d !! "_encoding" = Some (f_encoding r);
  inv_method : d !! "method" = Some (PStr (f_method r));
  inv_method_upper : upper (f_method r) = f_method r;
  inv_url : d !! "_url" = Some (PStr (f_url r));
  inv_scheme : has_scheme (f_url r) = true;
  inv_body : d !! "_body" = Some (PBytes (f_body r));
  inv_priority : d !! "priority" = Some (f_priority r);
  inv_priority_int : isinstance_int (f_priority r) = true;
  inv_callback : d !! "callback" = Some (f_callback r);
  inv_callback_ok : callable (f_callback r) || is_none (f_callback r) = true;
  inv_errback : d !! "errback" = Some (f_errback r);
  inv_errback_ok : callable (f_errback r) || is_none (f_errback r) = true;
  inv_cookies : d !! "cookies" = Some (f_cookies r);
  inv_cookies_or : py_or (f_cookies r) (PDict []) = f_cookies r;
  inv_headers : d !! "headers" = Some (PHeaders (f_headers r));
  inv_dont_filter : d !! "dont_filter" = Some (f_dont_filter r);
  inv_meta : d !! "_meta" = Some (f_meta r);
  inv_meta_shape : none_or_dict (f_meta r);
  inv_cb_kwargs : d !! "_cb_kwargs" = Some (f_cb_kwargs r);
  inv_cb_kwargs_shape : none_or_dict (f_cb_kwargs r);
  inv_flags : d !! "flags" = Some (PList (f_flags r))
}.

(** The fields that a successful [__init__] stores. *)
Definition fields_of_init (a : init_args) (u : string) (b : list byte)
    (hs : list (list byte * list (list byte))) (m k : pyval) (fl : list pyval) : fields :=
  Fields (a_encoding a) (upper (py_str interp_repr (a_method a))) u b
         (a_priority a) (a_callback a) (a_errback a)
         (py_or (a_cookies a) (PDict [])) hs (a_dont_filter a) m k fl.

(** What the accessors [meta] and [cb_kwargs] return for a stored value,
    and what they leave in the field. *)
Definition materialised (v : pyval) : pyval := if is_none v then PDict [] else v.

Definition touch (name : string) (v : pyval) (d : gmap string pyval) : gmap string pyval :=
  if is_none v then <[name := PDict []]> d else d.

(** The instance dictionary once both accessors have been read. *)
Definition touched (r : fields) (d : gmap string pyval) : gmap string pyval :=
  touch "_cb_kwargs" (f_cb_kwargs r) (touch "_meta" (f_meta r) d).

(** [getattr(self, x)] for every [x] of [Request.attributes], in order. *)
Definition observe (r : fields) : list (string * pyval) :=
  [("url", PStr (f_url r)); ("callback", f_callback r);
   ("method", PStr (f_method r)); ("headers", PHeaders (f_headers r));
   ("body", PBytes (f_body r)); ("cookies", f_cookies r);
   ("meta", materialised (f_meta r)); ("encoding", f_encoding r);
   ("priority", f_priority r); ("dont_filter", f_dont_filter r);
   ("errback", f_errback r); ("flags", PList (f_flags r));
   ("cb_kwargs", materialised (f_cb_kwargs r))].

(** The [setdefault] loop over observed values. *)
Definition setdefaults (l : list (string * pyval)) (kwargs : gmap string pyval)
  : gmap string pyval :=
  foldl (fun kw p => setdefault p.1 p.2 kw) kwargs l.

(** The collaborators give back the request's own url and headers when
    they are handed them again. *)
Record renormalises (r : fields) : Prop := {
  stable_url : exists s, safe_url_string (f_url r) (f_encoding r) = Ret s
                         /\ escape_ajax s = f_url r;
  stable_headers :
    new_Headers (py_or (PHeaders (f_headers r)) (PDict [])) (f_encoding r)
      = Ret (f_headers r)
}.

(** *** Uses of a Request after construction *)

(** [d[k] = v] on the dict that an accessor returned. *)
Definition setitem (field : string) (acc : Self pyval) (k v : pyval) : Self unit :=
  m <- acc ;;
  match m with
  | PDict items =>
      if hashable k then setfield field (PDict (dict_set k v items))
      else raise (TypeError ("unhashable type: '" ++ type_name k ++ "'"))
  | _ => raise (TypeError "object does not support item assignment")
  end.

Inductive request_op :=
| OpMeta
| OpCbKwargs
| OpMetaSet (k v : pyval)
| OpCbKwargsSet (k v : pyval)
| OpGetattr (name : string)
| OpToDict (spider : option pyobject)
| OpReplaceArgs (kwargs : gmap string pyval).

(** One use: reading an accessor, storing an item through it, reading an
    attribute, and the parts of [to_dict] and [replace] that run on the
    instance. *)
Definition run_op (op : request_op) : Self unit :=
  match op with
  | OpMeta => meta ;; ret tt
  | OpCbKwargs => cb_kwargs ;; ret tt
  | OpMetaSet k v => setitem "_meta" meta k v
  | OpCbKwargsSet k v => setitem "_cb_kwargs" cb_kwargs k v
  | OpGetattr name => getattr name ;; ret tt
  | OpToDict spider =>
      (d0 <- to_dict_head spider ;; setdefault_attrs attributes d0) ;; ret tt
  | OpReplaceArgs kwargs => setdefault_attrs attributes kwargs ;; ret tt
  end.

(** The instance dictionary after a sequence of uses; a use that raises
    leaves what it had stored. *)
Definition run_ops (ops : list request_op) (d : gmap string pyval) : gmap string pyval :=
  foldl (fun d op => (run_op op d).2) d ops.

(** The two lazily created fields hold None or a dict. *)
Definition lazy_fields_inv (d : gmap string pyval) : Prop :=
  (exists m, d !! "_meta" = Some m /\ none_or_dict m)
  /\ (exists k, d !! "_cb_kwargs" = Some k /\ none_or_dict k).

(** The first value that a list of pairs gives for a name. *)
Fixpoint assoc_first (x : string) (l : list (string * pyval)) : option pyval :=
  match l with
  | [] => None
  | (y, v) :: r => if String.eqb y x then Some v else assoc_first x r
  end.

(** The fields once both accessors have been read. *)
Definition fields_touched (r : fields) : fields :=
  Fields (f_encoding r) (f_method r) (f_url r) (f_body r) (f_priority r)
         (f_callback r) (f_errback r) (f_cookies r) (f_headers r)
         (f_dont_filter r) (materialised (f_meta r))
         (materialised (f_cb_kwargs r)) (f_flags r).

(** The keyword arguments that [replace] hands to the constructor: the
    overrides, and for the rest what [getattr] returned. *)
Definition replace_args (kw : gmap string pyval) (r : fields) : init_args :=
  let arg (name : string) (v : pyval) := default v (kw !! name) in
  InitArgs (arg "url" (PStr (f_url r))) (arg "callback" (f_callback r))
           (arg "method" (PStr (f_method r))) (arg "headers" (PHeaders (f_headers r)))
           (arg "body" (PBytes (f_body r))) (arg "cookies" (f_cookies r))
           (arg "meta" (materialised (f_meta r))) (arg "encoding" (f_encoding r))
           (arg "priority" (f_priority r)) (arg "dont_filter" (f_dont_filter r))
           (arg "errback" (f_errback r)) (arg "flags" (PList (f_flags r)))
           (arg "cb_kwargs" (materialised (f_cb_kwargs r))).

(** What [__init__] stores for a [meta] or [cb_kwargs] argument that
    was read from an accessor. *)
Definition relazy (v : pyval) : pyval :=
  if truthy (materialised v) then materialised v else PNone.

(** The fields [r] with another method. *)
Definition fields_with_method (m : string) (r : fields) : fields :=
  Fields (f_encoding r) m (f_url r) (f_body r) (f_priority r)
         (f_callback r) (f_errback r) (f_cookies r) (f_headers r)
         (f_dont_filter r) (f_meta r) (f_cb_kwargs r) (f_flags r).

(** The first four entries of the dict of [to_dict]. *)
Definition head_dict (r : fields) (cb eb : pyval) : gmap string pyval :=
  <["headers" := PDict (headers_items (f_headers r))]>
    (<["errback" := eb]> (<["callback" := cb]> {["url" := PStr (f_url r)]})).

(** A method keeps a property of the instance dictionary. *)
Definition keeps (P : gmap string pyval -> Prop) {A} (c : Self A) : Prop :=
  forall d, P d -> P (c d).2.

(** A property that survives storing a dict in [_meta] or [_cb_kwargs],
    the only stores of a Request after construction. *)
Definition lazy_stable (P : gmap string pyval -> Prop) : Prop :=
  forall d items,
    P d -> P (<["_meta" := PDict items]> d) /\ P (<["_cb_kwargs" := PDict items]> d).

(** Some fields satisfy the invariant on this instance dictionary. *)
Definition is_request (d : gmap string pyval) : Prop := exists r, request_inv d r.

End Vocabulary.

(** ** A concrete set of collaborators, for running the model

    Urls that are already safe and have no fragment come back unchanged;
    text is encoded byte for byte; headers are taken when they are already
    normalised or empty. *)
Definition demo_repr (v : pyval) : string :=
  match v with
  | PStr s => "'" ++ s ++ "'"
  | PFunction f => "<function " ++ f ++ ">"
  | PMethod _ f => "<bound method " ++ f ++ ">"
  | _ => "<object>"
  end.

Definition demo_Headers (v enc : pyval) : outcome (list (list byte * list (list byte))) :=
  match v with
  | PHeaders h => Ret h
  | PDict [] => Ret []
  | _ => Raise (TypeError "Unsupported value type")
  end.

Definition demo_curl (cmd : string) (ignore_unknown_options : bool)
  : outcome (gmap string pyval) :=
  if String.prefix "curl " cmd then
    Ret {[ "url" := PStr (substring 5 (String.length cmd - 5) cmd);
           "method" := PStr "GET" ]}
  else Raise (ValueError "A curl command must start with curl").

Definition demo : Collaborators := {|
  safe_url_string := fun u _ => Ret u;
  escape_ajax := fun u => u;
  str_encode := fun s _ => Ret (list_byte_of_string s);
  new_Headers := demo_Headers;
  curl_to_request_kwargs := demo_curl;
  interp_repr := demo_repr;
  call_callable := fun _ _ _ => Raise (TypeError "not callable here")
|}.

(** A spider: four methods and a plain attribute, listed by name. *)
Definition demo_spider : pyobject :=
  PyObject 7 true "<MySpider 'demo' at 0x7f>"
    [("close", PMethod 7 "Spider.close");
     ("name", PStr "demo");
     ("parse", PMethod 7 "MySpider.parse");
     ("parse_item", PMethod 7 "MySpider.parse_item");
     ("start_requests", PMethod 7 "Spider.start_requests")].

(** The Request that [Request("http://example.com", callback=cb,
    errback=eb)] builds with these collaborators: its fields, its instance
    dictionary, and a heap that holds it at address 0. *)
Definition demo_fields (cb eb : pyval) : fields :=
  Fields (PStr "utf-8") "GET" "http://example.com" [] (PInt 0) cb eb
         (PDict []) [] (PBool false) PNone PNone [].

Definition demo_attrs (cb eb : pyval) : gmap string pyval :=
  list_to_map
    [("_encoding", PStr "utf-8"); ("method", PStr "GET");
     ("_url", PStr "http://example.com"); ("_body", PBytes []);
     ("priority", PInt 0); ("callback", cb); ("errback", eb);
     ("cookies", PDict []); ("headers", PHeaders []);
     ("dont_filter", PBool false); ("_meta", PNone); ("_cb_kwargs", PNone);
     ("flags", PList [])].

Definition demo_heap (cb eb : pyval) : gmap nat instance :=
  {[0 := Instance Request (demo_attrs cb eb)]}.

(** A lower-case ASCII letter. *)
Definition is_lower (c : ascii) : bool :=
  (97 <=? nat_of_ascii c)%nat && (nat_of_ascii c <=? 122)%nat.

(** A subclass of [Request] that inherits the constructor. *)
Definition demo_subclass : classref := ClassRef "myproject.http" "ApiRequest".

(** A spider whose class defines [__len__] and which is empty: it counts
    as false, and has the methods of [demo_spider]. *)
Definition demo_empty_spider : pyobject :=
  PyObject 8 false "<QueueSpider 'empty' at 0x80>" (obj_members demo_spider).

(** The arguments that [Request("http://example.com", callback=cb,
    errback=eb)] binds. *)
Definition demo_args (cb eb : pyval) : init_args :=
  InitArgs (PStr "http://example.com") cb (PStr "GET") PNone PNone PNone PNone
           (PStr "utf-8") (PInt 0) (PBool false) eb PNone PNone.

(** The same Request as an instance of the subclass. *)
Definition demo_sub_heap : gmap nat instance :=
  {[0 := Instance demo_subclass (demo_attrs PNone PNone)]}.

(** * Properties *)

(** ** Running the monad *)

Lemma bind_Ret_inv {S A B} (c : St S A) (k : A -> St S B) s b s' :
  bind c k s = (Ret b, s') ->
  exists a s1, c s = (Ret a, s1) /\ k a s1 = (Ret b, s').
Proof.
  unfold bind. destruct (c s) as [[a|e] s1]; intros H; [eauto | discriminate].
Qed.

Lemma bind_run {S A B} (c : St S A) (k : A -> St S B) s a s1 :
  c s = (Ret a, s1) -> bind c k s = k a s1.
Proof. unfold bind. now intros ->. Qed.

Lemma bind_raise {S A B} (c : St S A) (k : A -> St S B) s e s1 :
  c s = (Raise e, s1) -> bind c k s = (Raise e, s1).
Proof. unfold bind. now intros ->. Qed.

Lemma setfield_inv n v (d d' : gmap string pyval) x :
  setfield n v d = (Ret x, d') -> d' = <[n := v]> d.
Proof. unfold setfield. now intros [= _ <-]. Qed.

Lemma lift_inv {S A} (o : outcome A) (s s' : S) x :
  lift o s = (Ret x, s') -> o = Ret x /\ s' = s.
Proof. unfold lift. now intros [= -> <-]. Qed.

Lemma check_inv {S} (c : bool) (e : exn) (s s' : S) x :
  (if negb c then raise e else ret tt) s = (Ret x, s') -> c = true /\ s' = s.
Proof. destruct c; cbn; [now intros [= _ <-] | discriminate]. Qed.

Ltac run :=
  cbv beta iota zeta delta [bind setfield getfield ret raise lift encoding
                            _get_url _get_body].
Ltac run_in H :=
  cbv beta iota zeta delta [bind setfield getfield ret raise lift encoding
                            _get_url _get_body] in H.
Ltac lookup_fields :=
  repeat (rewrite lookup_insert_ne by done); rewrite ?lookup_insert_eq.

Section Constructor.
Context {C : Collaborators}.
Local Open Scope py_scope.

Lemma scheme_test u :
  negb (str_contains "://" u) && negb (startswith "about:" u)
    && negb (startswith "data:" u) = negb (has_scheme u).
Proof. unfold has_scheme. now rewrite !negb_orb. Qed.

(** *** The statements of [__init__], one at a time *)

Lemma set_url_inv url (d d' : gmap string pyval) enc x :
  d !! "_encoding" = Some enc ->
  _set_url url d = (Ret x, d') ->
  exists u s, url = PStr u /\ safe_url_string u enc = Ret s
              /\ has_scheme (escape_ajax s) = true
              /\ d' = <["_url" := PStr (escape_ajax s)]> d.
Proof.
  intros Henc H. unfold _set_url in H.
  destruct url as [| | |u| | | | | | | |]; try discriminate H.
  run_in H. rewrite Henc in H.
  destruct (safe_url_string u enc) as [s|] eqn:Hs; [|discriminate H].
  rewrite scheme_test in H.
  destruct (has_scheme (escape_ajax s)) eqn:Hsch; [|discriminate H].
  injection H as <-. eauto 10.
Qed.

Lemma set_body_inv body (d d' : gmap string pyval) enc x :
  d !! "_encoding" = Some enc ->
  _set_body body d = (Ret x, d') ->
  exists b, body_bytes body enc = Ret b /\ d' = <["_body" := PBytes b]> d.
Proof.
  intros Henc H. unfold _set_body, body_bytes in *.
  destruct (is_none body).
  - apply setfield_inv in H. eauto.
  - run_in H. rewrite Henc in H.
    destruct (to_bytes body enc) as [b|]; [|discriminate H].
    injection H as <-. eauto.
Qed.

Lemma lazy_dict_inv v (d d' : gmap string pyval) m :
  (if truthy v then lift (py_dict v) else ret PNone) d = (Ret m, d') ->
  lazy_dict v = Ret m /\ d' = d.
Proof.
  unfold lazy_dict. destruct (truthy v); [apply lift_inv|].
  unfold ret. now intros [= -> <-].
Qed.

Lemma flags_list_inv v (d d' : gmap string pyval) f :
  (if is_none v then ret (PList []) else lift (py_list v)) d = (Ret f, d') ->
  flags_list v = Ret f /\ d' = d.
Proof.
  unfold flags_list. destruct (is_none v); [|apply lift_inv].
  unfold ret. now intros [= -> <-].
Qed.

Ltac step H :=
  let H1 := fresh "Hstep" in
  apply bind_Ret_inv in H as (? & ? & H1 & H);
  first
    [ apply setfield_inv in H1
    | apply check_inv in H1 as [H1 ->]
    | apply lazy_dict_inv in H1 as [H1 ->]
    | apply flags_list_inv in H1 as [H1 ->]
    | apply lift_inv in H1 as [H1 ->]
    | idtac ].

(** *** [__init__] as a whole *)

(** When every check passes, [__init__] stores the thirteen fields. *)
Lemma init_run a u b hs m k f d :
  init_accepts a u b hs m k f ->
  __init__ a d = (Ret tt, init_fields a u b hs m k f d).
Proof.
  intros [(x & s & Hu & Hs & ->) Hsch Hb Hp Hcb Heb Hh Hm Hk Hf].
  unfold __init__, _set_url, _set_body. rewrite Hu. run.
  lookup_fields. rewrite Hs, scheme_test, Hsch.
  unfold body_bytes in Hb. rewrite Hp, Hcb, Heb. cbv beta iota delta [negb].
  unfold lazy_dict in Hm, Hk. unfold flags_list in Hf.
  destruct (is_none (a_body a)).
  - injection Hb as <-. rewrite Hh.
    destruct (truthy (a_meta a)), (truthy (a_cb_kwargs a)), (is_none (a_flags a));
      rewrite ?Hm, ?Hk, ?Hf; simplify_eq; reflexivity.
  - lookup_fields. rewrite Hb, Hh.
    destruct (truthy (a_meta a)), (truthy (a_cb_kwargs a)), (is_none (a_flags a));
      rewrite ?Hm, ?Hk, ?Hf; simplify_eq; reflexivity.
Qed.

(** A finished [__init__] passed every check. *)
Lemma init_inv a d d' :
  __init__ a d = (Ret tt, d') ->
  exists u b hs m k f,
    init_accepts a u b hs m k f /\ d' = init_fields a u b hs m k f d.
Proof.
  unfold __init__. intros H.
  step H. step H. subst. step H.
  apply set_url_inv with (enc := a_encoding a) in Hstep
    as (ux & su & Hu & Hs & Hsch & ->); [|by lookup_fields].
  step H.
  apply set_body_inv with (enc := a_encoding a) in Hstep as (bb & Hb & ->);
    [|by lookup_fields].
  do 15 step H. apply setfield_inv in H. subst.
  eexists (escape_ajax su), bb, _, _, _, _. split; [|reflexivity].
  split; try done. exists ux, su. done.
Qed.

(** *** Where [__init__] raises, and what it has stored by then *)

Lemma init_url_not_str a d :
  isinstance_str (a_url a) = false ->
  __init__ a d =
    (Raise (TypeError ("Request url must be str, got " ++ type_name (a_url a))),
     fields_to_method a d).
Proof.
  intros Hu. unfold __init__, _set_url.
  destruct (a_url a); try discriminate Hu; reflexivity.
Qed.

Lemma init_missing_scheme a d x s :
  a_url a = PStr x ->
  safe_url_string x (a_encoding a) = Ret s ->
  has_scheme (escape_ajax s) = false ->
  __init__ a d =
    (Raise (ValueError ("Missing scheme in request url: " ++ escape_ajax s)),
     fields_to_url a (escape_ajax s) d).
Proof.
  intros Hu Hs Hsch. unfold __init__, _set_url. rewrite Hu. run.
  lookup_fields. rewrite Hs, scheme_test, Hsch. reflexivity.
Qed.

Lemma init_to_body a d u b :
  url_normalises a u -> has_scheme u = true ->
  body_bytes (a_body a) (a_encoding a) = Ret b ->
  forall k : unit -> Self unit,
    (setfield "_encoding" (a_encoding a) ;;
     setfield "method" (PStr (upper (py_str interp_repr (a_method a)))) ;;
     _set_url (a_url a) ;;
     x <- _set_body (a_body a) ;; k x) d
    = k tt (fields_to_body a u b d).
Proof.
  intros (x & s & Hu & Hs & ->) Hsch Hb k.
  unfold _set_url, _set_body. rewrite Hu. run.
  lookup_fields. rewrite Hs, scheme_test, Hsch. cbv beta iota delta [negb].
  unfold body_bytes in Hb. destruct (is_none (a_body a)).
  - injection Hb as <-. reflexivity.
  - lookup_fields. rewrite Hb. reflexivity.
Qed.

Lemma init_priority_not_int a d u b :
  url_normalises a u -> has_scheme u = true ->
  body_bytes (a_body a) (a_encoding a) = Ret b ->
  isinstance_int (a_priority a) = false ->
  __init__ a d =
    (Raise (TypeError ("Request priority not an integer: "
                         ++ py_repr interp_repr (a_priority a))),
     fields_to_body a u b d).
Proof.
  intros Hu Hsch Hb Hp. unfold __init__.
  rewrite (init_to_body a d u b Hu Hsch Hb). rewrite Hp. reflexivity.
Qed.

Lemma init_callback_not_callable a d u b :
  url_normalises a u -> has_scheme u = true ->
  body_bytes (a_body a) (a_encoding a) = Ret b ->
  isinstance_int (a_priority a) = true ->
  callable (a_callback a) || is_none (a_callback a) = false ->
  __init__ a d =
    (Raise (TypeError ("callback must be a callable, got " ++ type_name (a_callback a))),
     fields_to_priority a u b d).
Proof.
  intros Hu Hsch Hb Hp Hcb. unfold __init__.
  rewrite (init_to_body a d u b Hu Hsch Hb). rewrite Hp. run.
  rewrite Hcb. reflexivity.
Qed.

Lemma init_errback_not_callable a d u b :
  url_normalises a u -> has_scheme u = true ->
  body_bytes (a_body a) (a_encoding a) = Ret b ->
  isinstance_int (a_priority a) = true ->
  callable (a_callback a) || is_none (a_callback a) = true ->
  callable (a_errback a) || is_none (a_errback a) = false ->
  __init__ a d =
    (Raise (TypeError ("errback must be a callable, got " ++ type_name (a_errback a))),
     fields_to_priority a u b d).
Proof.
  intros Hu Hsch Hb Hp Hcb Heb. unfold __init__.
  rewrite (init_to_body a d u b Hu Hsch Hb). rewrite Hp. run.
  rewrite Hcb, Heb. reflexivity.
Qed.

(** The outcome of [__init__] depends on its arguments only, and on them
    as [init_verdict] says. *)
Lemma init_verdict_eq a d : (__init__ a d).1 = init_verdict a.
Proof.
  unfold init_verdict.
  destruct (a_url a) as [| | |x| | | | | | | |] eqn:Hu;
    try (rewrite init_url_not_str by (rewrite Hu; reflexivity); now rewrite Hu).
  destruct (safe_url_string x (a_encoding a)) as [s|e] eqn:Hs.
  2:{ unfold __init__, _set_url. rewrite Hu. run. lookup_fields. now rewrite Hs. }
  destruct (has_scheme (escape_ajax s)) eqn:Hsch; cbn [negb].
  2:{ now rewrite (init_missing_scheme a d x s). }
  assert (url_normalises a (escape_ajax s)) as Hn by (exists x, s; done).
  destruct (body_bytes (a_body a) (a_encoding a)) as [b|e] eqn:Hb.
  2:{ unfold __init__, _set_url, _set_body. rewrite Hu. run. lookup_fields.
      rewrite Hs, scheme_test, Hsch. cbv beta iota delta [negb].
      unfold body_bytes in Hb. destruct (is_none (a_body a)); [discriminate|].
      lookup_fields. now rewrite Hb. }
  destruct (isinstance_int (a_priority a)) eqn:Hp; cbn [negb].
  2:{ now rewrite (init_priority_not_int a d (escape_ajax s) b). }
  destruct (callable (a_callback a) || is_none (a_callback a)) eqn:Hcb; cbn [negb].
  2:{ now rewrite (init_callback_not_callable a d (escape_ajax s) b). }
  destruct (callable (a_errback a) || is_none (a_errback a)) eqn:Heb; cbn [negb].
  2:{ now rewrite (init_errback_not_callable a d (escape_ajax s) b). }
  destruct (new_Headers _ _) as [hs|e] eqn:Hh.
  2:{ unfold __init__. rewrite (init_to_body a d _ b Hn Hsch Hb). rewrite Hp. run.
      rewrite Hcb, Heb. cbv beta iota delta [negb]. now rewrite Hh. }
  destruct (lazy_dict (a_meta a)) as [m|e] eqn:Hm.
  2:{ unfold __init__. rewrite (init_to_body a d _ b Hn Hsch Hb). rewrite Hp. run.
      rewrite Hcb, Heb. cbv beta iota delta [negb]. rewrite Hh.
      unfold lazy_dict in Hm. destruct (truthy (a_meta a)); [|discriminate].
      now rewrite Hm. }
  destruct (lazy_dict (a_cb_kwargs a)) as [k|e] eqn:Hk.
  2:{ unfold __init__. rewrite (init_to_body a d _ b Hn Hsch Hb). rewrite Hp. run.
      rewrite Hcb, Heb. cbv beta iota delta [negb]. rewrite Hh.
      unfold lazy_dict in Hm, Hk.
      destruct (truthy (a_cb_kwargs a)); [|discriminate].
      destruct (truthy (a_meta a)); rewrite ?Hm, Hk; simplify_eq; reflexivity. }
  destruct (flags_list (a_flags a)) as [f|e] eqn:Hf.
  2:{ unfold __init__. rewrite (init_to_body a d _ b Hn Hsch Hb). rewrite Hp. run.
      rewrite Hcb, Heb. cbv beta iota delta [negb]. rewrite Hh.
      unfold lazy_dict in Hm, Hk. unfold flags_list in Hf.
      destruct (is_none (a_flags a)); [discriminate|].
      destruct (truthy (a_meta a)), (truthy (a_cb_kwargs a));
        rewrite ?Hm, ?Hk, Hf; simplify_eq; reflexivity. }
  now rewrite (init_run a (escape_ajax s) b hs m k f d).
Qed.

(** *** Instantiation *)

Lemma construct_eq cls args kwargs (h : gmap nat instance) :
  construct cls args kwargs h =
    let l := fresh (dom h) in
    match bind_args args kwargs with
    | Raise e => (Raise e, <[l := Instance cls ∅]> h)
    | Ret a =>
        (match (__init__ a ∅).1 with Ret _ => Ret l | Raise e => Raise e end,
         <[l := Instance cls (__init__ a ∅).2]> h)
    end.
Proof.
  unfold construct, alloc, on. run. cbv zeta.
  destruct (bind_args args kwargs) as [a|e]; [|reflexivity].
  rewrite lookup_insert_eq. cbn [inst_attrs inst_class].
  rewrite insert_insert_eq.
  destruct (__init__ a ∅) as [[[]|e] d']; reflexivity.
Qed.

Lemma fresh_loc_unused (h : gmap nat instance) : h !! fresh (dom h) = None.
Proof. apply not_elem_of_dom, is_fresh. Qed.

(** A finished instantiation: the arguments were bound, every check
    passed, and the new instance sits at an address that was free. *)
Lemma construct_inv cls args kwargs (h h' : gmap nat instance) l :
  construct cls args kwargs h = (Ret l, h') ->
  exists a u b hs m k f,
    bind_args args kwargs = Ret a /\ init_accepts a u b hs m k f /\
    h !! l = None /\
    h' = <[l := Instance cls (init_fields a u b hs m k f ∅)]> h.
Proof.
  rewrite construct_eq. cbv zeta.
  destruct (bind_args args kwargs) as [a|e]; [|discriminate].
  destruct (__init__ a ∅) as [[[]|e] d'] eqn:Hinit; [|discriminate].
  cbn [fst snd]. intros [= <- <-].
  apply init_inv in Hinit as (u & b & hs & m & k & f & Hacc & ->).
  exists a, u, b, hs, m, k, f. auto using fresh_loc_unused.
Qed.

Lemma construct_run cls args kwargs (h : gmap nat instance) a u b hs m k f :
  bind_args args kwargs = Ret a -> init_accepts a u b hs m k f ->
  construct cls args kwargs h =
    (Ret (fresh (dom h)),
     <[fresh (dom h) := Instance cls (init_fields a u b hs m k f ∅)]> h).
Proof.
  intros Ha Hacc. rewrite construct_eq, Ha. cbv zeta.
  now rewrite (init_run _ _ _ _ _ _ _ _ Hacc).
Qed.

End Constructor.

(** ** Strings *)

Lemma append_cons c (p r : string) : String c p +:+ r = String c (p +:+ r).
Proof. reflexivity. Qed.

Lemma append_nil (r : string) : EmptyString +:+ r = r.
Proof. reflexivity. Qed.

Lemma prefix_spec p s : String.prefix p s = true <-> exists r, s = p +:+ r.
Proof.
  revert s. induction p as [|c p IH]; intros s.
  - destruct s; cbn; split; eauto.
  - destruct s as [|c' s]; cbn.
    + split; [discriminate | intros [r Hr]; discriminate Hr].
    + destruct (Ascii.ascii_dec c c') as [->|Hne].
      * rewrite IH. split; intros [r Hr]; exists r;
          rewrite append_cons in *; congruence.
      * split; [discriminate | intros [r Hr]; rewrite append_cons in Hr; congruence].
Qed.

Lemma str_contains_spec p s :
  str_contains p s = true <-> exists a b, s = a +:+ p +:+ b.
Proof.
  split.
  - induction s as [|c s IH]; cbn [str_contains]; rewrite orb_true_iff; intros [H|H].
    + apply prefix_spec in H as [r ->]. by exists EmptyString, r.
    + discriminate.
    + apply prefix_spec in H as [r Hr]. by exists EmptyString, r.
    + destruct (IH H) as (a & b & ->). by exists (String c a), b.
  - intros (a & b & ->). induction a as [|c a IH].
    + rewrite append_nil. destruct (p +:+ b) eqn:E; cbn [str_contains];
        apply orb_true_iff; left; apply prefix_spec; exists b; by rewrite E.
    + rewrite append_cons. cbn [str_contains]. rewrite IH. apply orb_true_r.
Qed.

Section ConstructorFacts.
Context {C : Collaborators}.
Local Open Scope py_scope.

Lemma has_scheme_spec u : has_scheme u = true <-> scheme_present u.
Proof.
  unfold has_scheme, scheme_present, startswith.
  rewrite !orb_true_iff, str_contains_spec, !prefix_spec. tauto.
Qed.

Lemma construct_raises cls args kwargs (h : gmap nat instance) a e d' :
  bind_args args kwargs = Ret a -> __init__ a ∅ = (Raise e, d') ->
  construct cls args kwargs h = (Raise e, <[fresh (dom h) := Instance cls d']> h).
Proof. intros Ha Hi. rewrite construct_eq, Ha. cbv zeta. now rewrite Hi. Qed.

(** *** The shape of what [__init__] stores *)

Lemma lazy_dict_shape v x : lazy_dict v = Ret x -> none_or_dict x.
Proof.
  unfold lazy_dict, py_dict, omap_outcome.
  destruct (truthy v); [|intros [= <-]; by left].
  intros E. repeat case_match; simplify_eq; right; eauto.
Qed.

Lemma flags_list_shape v x : flags_list v = Ret x -> exists fl, x = PList fl.
Proof.
  unfold flags_list, py_list, omap_outcome.
  destruct (is_none v); [intros [= <-]; eauto|].
  destruct (py_iter v); intros E; simplify_eq; eauto.
Qed.

(** *** Binding of keyword arguments *)

Lemma bind_args_keyword kwargs a name v :
  bind_args [] kwargs = Ret a -> kwargs !! name = Some v -> arg_of a name = Some v.
Proof.
  unfold bind_args, init_params. cbv zeta.
  change (list_to_map (zip _ (@nil pyval))) with (∅ : gmap string pyval).
  rewrite (left_id_L ∅ (∪)).
  destruct (decide _) as [|_]; [cbn in *; lia|].
  destruct (decide _) as [Hnames|]; [|discriminate].
  destruct (decide _) as [_|]; [|discriminate].
  destruct (kwargs !! "url") as [u|] eqn:Hurl; [|discriminate].
  intros [= <-] Hv. pose proof (Hnames _ _ Hv) as Hin.
  unfold init_params in Hin.
  repeat (apply elem_of_cons in Hin as [->|Hin]);
    try (cbn; rewrite Hv; reflexivity); try (cbn; congruence).
  by apply elem_of_nil in Hin.
Qed.

Lemma bind_args_body_absent args kwargs a :
  bind_args args kwargs = Ret a ->
  kwargs !! "body" = None -> length args <= 4 -> a_body a = PNone.
Proof.
  unfold bind_args.
  destruct (decide _) as [|_]; [discriminate|].
  destruct (decide _) as [_|]; [|discriminate].
  destruct (decide _) as [_|]; [|discriminate].
  destruct (_ !! "url") as [u|]; [|discriminate].
  intros [= <-] Hk Hlen. cbn [a_body].
  rewrite lookup_union, Hk.
  destruct args as [|? [|? [|? [|? [|? ?]]]]]; cbn in Hlen; try lia; reflexivity.
Qed.

End ConstructorFacts.

(** ** The constructor: url, body, method, type checks, from_curl *)

Section ConstructorTheorems.
Context {C : Collaborators}.
Local Open Scope py_scope.

(** What a finished instantiation leaves under the name [name]. *)
Lemma constructed_field cls args kwargs (h h' : gmap nat instance) l :
  construct cls args kwargs h = (Ret l, h') ->
  exists a u b hs m k f,
    bind_args args kwargs = Ret a /\ init_accepts a u b hs m k f /\
    forall name,
      (on l (getfield name) h').1
        = (getfield name (init_fields a u b hs m k f ∅)).1.
Proof.
  intros H. apply construct_inv in H as (a & u & b & hs & m & k & f & Ha & Hacc & _ & ->).
  exists a, u, b, hs, m, k, f. split; [done|]. split; [done|].
  intros name. unfold on. now rewrite lookup_insert_eq.
Qed.

(** C4: the url of every constructed Request, which is the safety-encoded
    and ajax-escaped input, contains [://] or starts with [about:] or
    [data:]; and when the normalised form of a string input has none of
    the three, construction raises the ValueError "Missing scheme". *)
Theorem constructed_url_has_scheme cls args kwargs (h : gmap nat instance) :
  (forall l h', construct cls args kwargs h = (Ret l, h') ->
     exists a u, bind_args args kwargs = Ret a /\ url_normalises a u /\
                 (on l (getattr "url") h').1 = Ret (PStr u) /\ scheme_present u)
  /\ (forall a x s, bind_args args kwargs = Ret a -> a_url a = PStr x ->
        safe_url_string x (a_encoding a) = Ret s ->
        ~ scheme_present (escape_ajax s) ->
        (construct cls args kwargs h).1
          = Raise (ValueError ("Missing scheme in request url: " +:+ escape_ajax s))).
Proof.
  split.
  - intros l h' H.
    apply constructed_field in H as (a & u & b & hs & m & k & f & Ha & Hacc & Hget).
    exists a, u. repeat split; [done | apply Hacc | | apply has_scheme_spec, Hacc].
    change (getattr "url") with (getfield "_url"). rewrite Hget.
    unfold getfield, init_fields, fields_to_priority, fields_to_body, fields_to_url.
    by lookup_fields.
  - intros a x s Ha Hu Hs Hno.
    assert (has_scheme (escape_ajax s) = false) as Hsch.
    { destruct (has_scheme (escape_ajax s)) eqn:E; [|done].
      by apply has_scheme_spec in E. }
    by rewrite (construct_raises _ _ _ _ _ _ _ Ha (init_missing_scheme a ∅ x s Hu Hs Hsch)).
Qed.

(** C7: the body of every constructed Request is a byte sequence: empty
    for a body that is None or absent, the bytes themselves for a bytes
    input, and for a string input its encoding under the request's
    encoding. *)
Theorem constructed_body_is_bytes cls args kwargs (h h' : gmap nat instance) l :
  construct cls args kwargs h = (Ret l, h') ->
  exists a b, bind_args args kwargs = Ret a /\
    (on l (getattr "body") h').1 = Ret (PBytes b) /\
    (on l (getattr "encoding") h').1 = Ret (a_encoding a) /\
    (a_body a = PNone -> b = []) /\
    (kwargs !! "body" = None -> length args <= 4 -> b = []) /\
    (forall x, a_body a = PBytes x -> b = x) /\
    (forall s, a_body a = PStr s -> str_encode s (a_encoding a) = Ret b).
Proof.
  intros H.
  apply constructed_field in H as (a & u & b & hs & m & k & f & Ha & Hacc & Hget).
  exists a, b. split; [done|].
  change (getattr "body") with (getfield "_body").
  change (getattr "encoding") with (getfield "_encoding").
  rewrite !Hget.
  unfold getfield, init_fields, fields_to_priority, fields_to_body, fields_to_url,
    fields_to_method.
  lookup_fields. repeat split; try done.
  - intros Hb. pose proof (acc_body _ _ _ _ _ _ _ Hacc) as E.
    rewrite Hb in E. by injection E.
  - intros Hk Hlen. pose proof (acc_body _ _ _ _ _ _ _ Hacc) as E.
    rewrite (bind_args_body_absent _ _ _ Ha Hk Hlen) in E. by injection E.
  - intros x Hb. pose proof (acc_body _ _ _ _ _ _ _ Hacc) as E.
    rewrite Hb in E. by injection E.
  - intros s Hb. pose proof (acc_body _ _ _ _ _ _ _ Hacc) as E.
    by rewrite Hb in E.
Qed.

(** C10: the method field is never type-checked: the stored method is
    [str(method).upper()] whatever value was passed, and whether and how
    construction fails does not depend on the method argument. *)
Theorem method_is_coerced_not_checked :
  (forall cls args kwargs (h h' : gmap nat instance) l,
     construct cls args kwargs h = (Ret l, h') ->
     exists a, bind_args args kwargs = Ret a /\
       (on l (getattr "method") h').1
         = Ret (PStr (upper (py_str interp_repr (a_method a)))))
  /\ (forall a v d, (__init__ (with_method v a) d).1 = (__init__ a d).1).
Proof.
  split.
  - intros cls args kwargs h h' l H.
    apply constructed_field in H as (a & u & b & hs & m & k & f & Ha & Hacc & Hget).
    exists a. split; [done|].
    change (getattr "method") with (getfield "method"). rewrite Hget.
    unfold getfield, init_fields, fields_to_priority, fields_to_body, fields_to_url,
      fields_to_method.
    by lookup_fields.
  - intros a v d. by rewrite !init_verdict_eq.
Qed.

(** C5 (as the constructor has it): each type check raises its TypeError
    once the checks before it have passed, and by then the fields before
    it are stored: a url that is not a string fails after the encoding and
    the method are stored; a priority that is not an integer fails after
    url and body are stored; a callback or errback that is neither callable
    nor None fails after the priority is stored. *)
Theorem type_errors_in_constructor_order cls args kwargs (h : gmap nat instance) a :
  bind_args args kwargs = Ret a ->
  (isinstance_str (a_url a) = false ->
     construct cls args kwargs h =
       (Raise (TypeError ("Request url must be str, got " +:+ type_name (a_url a))),
        <[fresh (dom h) := Instance cls (fields_to_method a ∅)]> h))
  /\ (forall u b,
        url_normalises a u -> has_scheme u = true ->
        body_bytes (a_body a) (a_encoding a) = Ret b ->
        (isinstance_int (a_priority a) = false ->
           construct cls args kwargs h =
             (Raise (TypeError ("Request priority not an integer: "
                                  +:+ py_repr interp_repr (a_priority a))),
              <[fresh (dom h) := Instance cls (fields_to_body a u b ∅)]> h))
        /\ (isinstance_int (a_priority a) = true ->
            callable (a_callback a) || is_none (a_callback a) = false ->
            construct cls args kwargs h =
              (Raise (TypeError ("callback must be a callable, got "
                                   +:+ type_name (a_callback a))),
               <[fresh (dom h) := Instance cls (fields_to_priority a u b ∅)]> h))
        /\ (isinstance_int (a_priority a) = true ->
            callable (a_callback a) || is_none (a_callback a) = true ->
            callable (a_errback a) || is_none (a_errback a) = false ->
            construct cls args kwargs h =
              (Raise (TypeError ("errback must be a callable, got "
                                   +:+ type_name (a_errback a))),
               <[fresh (dom h) := Instance cls (fields_to_priority a u b ∅)]> h))).
Proof.
  intros Ha. split; [|intros u b Hu Hsch Hb; repeat split]; intros.
  - eapply construct_raises; [done|]. by apply init_url_not_str.
  - eapply construct_raises; [done|]. by apply init_priority_not_int.
  - eapply construct_raises; [done|]. by apply init_callback_not_callable.
  - eapply construct_raises; [done|]. by apply init_errback_not_callable.
Qed.

(** C9: [from_curl] instantiates the class with the parser's mapping
    updated by the explicit keyword arguments, so the constructor runs as
    in a direct call; an argument passed explicitly is the one bound, and
    a parsed one is bound where none was passed. *)
Theorem from_curl_explicit_kwargs_win cls cmd ign kwargs (h : gmap nat instance) :
  from_curl cls cmd ign kwargs h =
    match curl_to_request_kwargs cmd ign with
    | Raise e => (Raise e, h)
    | Ret parsed => construct cls [] (kwargs ∪ parsed) h
    end
  /\ (forall parsed a name v,
        curl_to_request_kwargs cmd ign = Ret parsed ->
        bind_args [] (kwargs ∪ parsed) = Ret a ->
        (kwargs !! name = Some v -> arg_of a name = Some v)
        /\ (kwargs !! name = None -> parsed !! name = Some v ->
            arg_of a name = Some v)).
Proof.
  split.
  - unfold from_curl. run. by destruct (curl_to_request_kwargs cmd ign).
  - intros parsed a name v _ Ha. split.
    + intros Hk. apply (bind_args_keyword _ _ _ _ Ha).
      by apply lookup_union_Some_l.
    + intros Hk Hp. apply (bind_args_keyword _ _ _ _ Ha).
      rewrite lookup_union_r; done.
Qed.

End ConstructorTheorems.

(** ** The constructor on concrete inputs *)

Lemma constructed_url_has_scheme_witness :
  (exists a u,
     bind_args [PStr "http://example.com"] ∅ = Ret a /\
     url_normalises (C := demo) a u /\
     (on 0 (getattr "url")
        (construct (C := demo) Request [PStr "http://example.com"] ∅ ∅).2).1
       = Ret (PStr u) /\
     scheme_present u)
  /\ (construct (C := demo) Request [PStr "not-a-url"] ∅ ∅).1
       = Raise (ValueError "Missing scheme in request url: not-a-url").
Proof.
  split.
  - apply (proj1 (@constructed_url_has_scheme demo Request
                    [PStr "http://example.com"] ∅ ∅) 0).
    vm_compute. reflexivity.
  - eapply (proj2 (@constructed_url_has_scheme demo Request
                     [PStr "not-a-url"] ∅ ∅)).
    + vm_compute. reflexivity.
    + reflexivity.
    + reflexivity.
    + intros Hp. apply has_scheme_spec in Hp.
      vm_compute in Hp. discriminate Hp.
Defined.

Lemma constructed_body_is_bytes_witness :
  exists a b,
    bind_args [PStr "http://example.com"] {["body" := PStr "abc"]} = Ret a /\
    (on 0 (getattr "body")
       (construct (C := demo) Request [PStr "http://example.com"]
          {["body" := PStr "abc"]} ∅).2).1 = Ret (PBytes b) /\
    (on 0 (getattr "encoding")
       (construct (C := demo) Request [PStr "http://example.com"]
          {["body" := PStr "abc"]} ∅).2).1 = Ret (a_encoding a) /\
    (a_body a = PNone -> b = []) /\
    (({["body" := PStr "abc"]} : gmap string pyval) !! "body" = None ->
       length [PStr "http://example.com"] <= 4 -> b = []) /\
    (forall x, a_body a = PBytes x -> b = x) /\
    (forall s, a_body a = PStr s ->
       str_encode (Collaborators := demo) s (a_encoding a) = Ret b).
Proof.
  apply (@constructed_body_is_bytes demo Request [PStr "http://example.com"]
           {["body" := PStr "abc"]} ∅ _ 0).
  vm_compute. reflexivity.
Defined.

Lemma method_is_coerced_not_checked_witness :
  exists a,
    bind_args [PStr "http://example.com"] {["method" := PInt 5]} = Ret a /\
    (on 0 (getattr "method")
       (construct (C := demo) Request [PStr "http://example.com"]
          {["method" := PInt 5]} ∅).2).1
      = Ret (PStr (upper (py_str demo_repr (a_method a)))).
Proof.
  apply (proj1 (@method_is_coerced_not_checked demo) Request
           [PStr "http://example.com"] {["method" := PInt 5]} ∅ _ 0).
  vm_compute. reflexivity.
Defined.

(** The checks of the constructor on the inputs of the documentation:
    a url without scheme is refused, [about:blank] is accepted. *)
Example about_blank_accepted :
  (construct (C := demo) Request [PStr "about:blank"] ∅ ∅).1 = Ret 0
  /\ (construct (C := demo) Request [PStr "not-a-url"] ∅ ∅).1
     = Raise (ValueError "Missing scheme in request url: not-a-url")
  /\ (construct (C := demo) Request [PStr "http://example.com"]
        {["method" := PStr "post"]} ∅).2 !! 0
     = Some (Instance Request (<["method" := PStr "POST"]> (demo_attrs PNone PNone))).
Proof. repeat split; vm_compute; reflexivity. Qed.

Lemma type_errors_in_constructor_order_witness :
  (construct (C := demo) Request [PInt 5] ∅ ∅).1
    = Raise (TypeError "Request url must be str, got int")
  /\ (construct (C := demo) Request [PStr "http://example.com"]
        {["priority" := PStr "1"]} ∅).1
       = Raise (TypeError "Request priority not an integer: '1'")
  /\ (construct (C := demo) Request [PStr "http://example.com"]
        {["callback" := PInt 3]} ∅).1
       = Raise (TypeError "callback must be a callable, got int")
  /\ (construct (C := demo) Request [PStr "http://example.com"]
        {["errback" := PStr "parse"]} ∅).1
       = Raise (TypeError "errback must be a callable, got str").
Proof.
  split; [|split; [|split]].
  - edestruct (@type_errors_in_constructor_order demo Request [PInt 5] ∅ ∅)
      as [H _]; [vm_compute; reflexivity|].
    rewrite H by reflexivity. reflexivity.
  - edestruct (@type_errors_in_constructor_order demo Request
                 [PStr "http://example.com"] {["priority" := PStr "1"]} ∅)
      as [_ H]; [vm_compute; reflexivity|].
    edestruct (H "http://example.com" []) as [H1 _];
      [by exists "http://example.com", "http://example.com"
      | reflexivity | reflexivity |].
    rewrite H1 by reflexivity. reflexivity.
  - edestruct (@type_errors_in_constructor_order demo Request
                 [PStr "http://example.com"] {["callback" := PInt 3]} ∅)
      as [_ H]; [vm_compute; reflexivity|].
    edestruct (H "http://example.com" []) as (_ & H1 & _);
      [by exists "http://example.com", "http://example.com"
      | reflexivity | reflexivity |].
    rewrite H1 by reflexivity. reflexivity.
  - edestruct (@type_errors_in_constructor_order demo Request
                 [PStr "http://example.com"] {["errback" := PStr "parse"]} ∅)
      as [_ H]; [vm_compute; reflexivity|].
    edestruct (H "http://example.com" []) as (_ & _ & H1);
      [by exists "http://example.com", "http://example.com"
      | reflexivity | reflexivity |].
    rewrite H1 by reflexivity. reflexivity.
Defined.

(** Counterexample to C5 as stated: with a valid url and [priority="1"] the
    TypeError comes after the encoding, the method, the url and the body
    have been processed and stored; and with a url that lacks a scheme the
    same priority never gets its TypeError, the url's ValueError comes
    first. *)
Lemma type_error_before_any_field_counterexample :
  construct (C := demo) Request [PStr "http://example.com"]
    {["priority" := PStr "1"]} ∅
  = (Raise (TypeError "Request priority not an integer: '1'"),
     {[0 := Instance Request
              (<["_body" := PBytes []]>
                (<["_url" := PStr "http://example.com"]>
                  (<["method" := PStr "GET"]>
                    {["_encoding" := PStr "utf-8"]})))]})
  /\ (construct (C := demo) Request [PStr "not-a-url"]
        {["priority" := PStr "1"]} ∅).1
     = Raise (ValueError "Missing scheme in request url: not-a-url").
Proof. split; vm_compute; reflexivity. Qed.

Lemma from_curl_explicit_kwargs_win_witness :
  exists a,
    bind_args [] ({["method" := PStr "post"]}
                  ∪ {["url" := PStr "http://example.com"; "method" := PStr "GET"]})
      = Ret a /\
    arg_of a "method" = Some (PStr "post") /\
    arg_of a "url" = Some (PStr "http://example.com").
Proof.
  eexists. split; [vm_compute; reflexivity|].
  split.
  - eapply (proj1 (proj2 (@from_curl_explicit_kwargs_win demo Request
                            "curl http://example.com" true
                            {["method" := PStr "post"]} ∅)
                     _ _ "method" (PStr "post") eq_refl _)).
    reflexivity.
  - eapply (proj2 (proj2 (@from_curl_explicit_kwargs_win demo Request
                            "curl http://example.com" true
                            {["method" := PStr "post"]} ∅)
                     _ _ "url" (PStr "http://example.com") eq_refl _)).
    + reflexivity.
    + reflexivity.
  Unshelve. all: vm_compute; reflexivity.
Defined.

(** ** The accessors [meta] and [cb_kwargs] *)

(** *** What every use of a Request keeps *)

Section Uses.
Context {C : Collaborators}.
Variable P : gmap string pyval -> Prop.
Hypothesis P_stable : lazy_stable P.
Local Open Scope py_scope.

Lemma keeps_ret {A} (a : A) : keeps P (ret a).
Proof. by intros d. Qed.

Lemma keeps_raise {A} e : keeps P (@raise _ A e).
Proof. by intros d. Qed.

Lemma keeps_lift {A} (o : outcome A) : keeps P (lift o).
Proof. by intros d. Qed.

Lemma keeps_getfield name : keeps P (getfield name).
Proof. intros d Hd. unfold getfield. by destruct (d !! name). Qed.

Lemma keeps_bind {A B} (c : Self A) (k : A -> Self B) :
  keeps P c -> (forall a, keeps P (k a)) -> keeps P (bind c k).
Proof.
  intros Hc Hk d Hd. unfold bind. specialize (Hc d Hd).
  destruct (c d) as [[a|e] d1]; [by apply Hk | done].
Qed.

Lemma keeps_meta_store items : keeps P (setfield "_meta" (PDict items)).
Proof. intros d Hd. by apply P_stable. Qed.

Lemma keeps_cb_kwargs_store items : keeps P (setfield "_cb_kwargs" (PDict items)).
Proof. intros d Hd. by apply P_stable. Qed.

Lemma keeps_meta : keeps P meta.
Proof.
  apply keeps_bind; [apply keeps_getfield|]. intros v.
  apply keeps_bind; [|intros _; apply keeps_getfield].
  destruct (is_none v); [apply keeps_meta_store | apply keeps_ret].
Qed.

Lemma keeps_cb_kwargs : keeps P cb_kwargs.
Proof.
  apply keeps_bind; [apply keeps_getfield|]. intros v.
  apply keeps_bind; [|intros _; apply keeps_getfield].
  destruct (is_none v); [apply keeps_cb_kwargs_store | apply keeps_ret].
Qed.

Lemma keeps_getattr name : keeps P (getattr name).
Proof.
  unfold getattr.
  repeat (destruct (String.eqb name _);
          [first [apply keeps_meta | apply keeps_cb_kwargs | apply keeps_getfield]|]).
  apply keeps_getfield.
Qed.

Lemma keeps_setdefault_attrs names kwargs : keeps P (setdefault_attrs names kwargs).
Proof.
  revert kwargs. induction names as [|x names IH]; intros kwargs; cbn [setdefault_attrs].
  - apply keeps_ret.
  - apply keeps_bind; [apply keeps_getattr | intros v; apply IH].
Qed.

Lemma keeps_to_dict_head spider : keeps P (to_dict_head spider).
Proof.
  unfold to_dict_head.
  repeat (apply keeps_bind; [first [apply keeps_getattr | apply keeps_lift]|intros ?]).
  apply keeps_ret.
Qed.

Lemma keeps_setitem field acc k v :
  keeps P acc -> (forall items, keeps P (setfield field (PDict items))) ->
  keeps P (setitem field acc k v).
Proof.
  intros Hacc Hstore. unfold setitem. apply keeps_bind; [done|].
  intros [ ]; try apply keeps_raise.
  destruct (hashable k); [apply Hstore | apply keeps_raise].
Qed.

Lemma keeps_run_op op : keeps P (run_op op).
Proof.
  destruct op; cbn [run_op].
  - apply keeps_bind; [apply keeps_meta | intros ?; apply keeps_ret].
  - apply keeps_bind; [apply keeps_cb_kwargs | intros ?; apply keeps_ret].
  - apply keeps_setitem; [apply keeps_meta | apply keeps_meta_store].
  - apply keeps_setitem; [apply keeps_cb_kwargs | apply keeps_cb_kwargs_store].
  - apply keeps_bind; [apply keeps_getattr | intros ?; apply keeps_ret].
  - apply keeps_bind; [|intros ?; apply keeps_ret].
    apply keeps_bind; [apply keeps_to_dict_head | intros ?; apply keeps_setdefault_attrs].
  - apply keeps_bind; [apply keeps_setdefault_attrs | intros ?; apply keeps_ret].
Qed.

Lemma run_ops_keeps ops d : P d -> P (run_ops ops d).
Proof.
  revert d. induction ops as [|op ops IH]; intros d Hd; cbn; [done|].
  apply IH. by apply keeps_run_op.
Qed.

End Uses.

Section Accessors.
Context {C : Collaborators}.
Local Open Scope py_scope.

Lemma lazy_fields_stable : lazy_stable lazy_fields_inv.
Proof.
  intros d items [(m & Hm & Sm) (k & Hk & Sk)]. split; split.
  - exists (PDict items). rewrite lookup_insert_eq. split; [done|right; eauto].
  - exists k. by rewrite lookup_insert_ne.
  - exists m. by rewrite lookup_insert_ne.
  - exists (PDict items). rewrite lookup_insert_eq. split; [done|right; eauto].
Qed.

(** Reading through an accessor: a dict comes back, it is the one now
    stored, and the next read returns it again. *)
Lemma accessor_reads_dict name (d : gmap string pyval) v :
  d !! name = Some v -> none_or_dict v ->
  let acc := (x <- getfield name ;;
              (if is_none x then setfield name (PDict []) else ret tt) ;;
              getfield name) in
  exists items,
    acc d = (Ret (PDict items), touch name v d)
    /\ touch name v d !! name = Some (PDict items)
    /\ acc (touch name v d) = (Ret (PDict items), touch name v d)
    /\ materialised v = PDict items.
Proof.
  intros Hv [->|[items ->]]; cbv zeta; unfold touch, materialised; cbn [is_none].
  - exists []. run. rewrite Hv. cbn [is_none]. rewrite !lookup_insert_eq.
    cbn [is_none]. by rewrite lookup_insert_eq.
  - exists items. run. rewrite Hv. cbn [is_none]. by rewrite Hv.
Qed.

Lemma init_lazy_fields a u b hs m k f d :
  init_accepts a u b hs m k f -> lazy_fields_inv (init_fields a u b hs m k f d).
Proof.
  intros Hacc.
  split; eexists; (split; [unfold init_fields; by lookup_fields|]).
  - apply (lazy_dict_shape _ _ (acc_meta _ _ _ _ _ _ _ Hacc)).
  - apply (lazy_dict_shape _ _ (acc_cb_kwargs _ _ _ _ _ _ _ Hacc)).
Qed.

(** C8: on every constructed Request, after any sequence of uses, the
    [meta] and [cb_kwargs] accessors return a dict, never None; the dict
    is then stored in the instance and the next read returns it again.  A
    Request constructed with [meta=None] and [cb_kwargs=None] reads as two
    empty dicts. *)
Theorem accessors_return_mappings cls args kwargs (h h' : gmap nat instance) l :
  construct cls args kwargs h = (Ret l, h') ->
  exists a d,
    bind_args args kwargs = Ret a /\
    h' !! l = Some (Instance cls d) /\
    (a_meta a = PNone -> (meta d).1 = Ret (PDict [])) /\
    (a_cb_kwargs a = PNone -> (cb_kwargs d).1 = Ret (PDict [])) /\
    forall ops,
      exists m k,
        (meta (run_ops ops d)).1 = Ret (PDict m) /\
        (meta (run_ops ops d)).2 !! "_meta" = Some (PDict m) /\
        (meta (meta (run_ops ops d)).2).1 = Ret (PDict m) /\
        (cb_kwargs (run_ops ops d)).1 = Ret (PDict k) /\
        (cb_kwargs (run_ops ops d)).2 !! "_cb_kwargs" = Some (PDict k) /\
        (cb_kwargs (cb_kwargs (run_ops ops d)).2).1 = Ret (PDict k).
Proof.
  intros H.
  apply construct_inv in H as (a & u & b & hs & m & k & f & Ha & Hacc & _ & ->).
  exists a, (init_fields a u b hs m k f ∅).
  split; [done|]. split; [by rewrite lookup_insert_eq|].
  split; [|split].
  - intros Hm. pose proof (acc_meta _ _ _ _ _ _ _ Hacc) as E.
    rewrite Hm in E. injection E as <-.
    unfold meta, init_fields. run. by lookup_fields.
  - intros Hk. pose proof (acc_cb_kwargs _ _ _ _ _ _ _ Hacc) as E.
    rewrite Hk in E. injection E as <-.
    unfold cb_kwargs, init_fields. run. by lookup_fields.
  - intros ops.
    destruct (run_ops_keeps _ lazy_fields_stable ops _
               (init_lazy_fields a u b hs m k f ∅ Hacc))
      as [(vm & Hvm & Svm) (vk & Hvk & Svk)].
    destruct (accessor_reads_dict "_meta" _ vm Hvm Svm) as (im & E1 & E2 & E3 & _).
    destruct (accessor_reads_dict "_cb_kwargs" _ vk Hvk Svk) as (ik & E4 & E5 & E6 & _).
    exists im, ik. unfold meta, cb_kwargs.
    cbv zeta in E1, E3, E4, E6. rewrite E1, E4. cbn [fst snd].
    by rewrite E3, E6.
Qed.

End Accessors.

Lemma accessors_return_mappings_witness :
  exists a d,
    bind_args [PStr "http://example.com"]
      {["meta" := PNone; "cb_kwargs" := PNone]} = Ret a /\
    (construct (C := demo) Request [PStr "http://example.com"]
       {["meta" := PNone; "cb_kwargs" := PNone]} ∅).2 !! 0
      = Some (Instance Request d) /\
    (a_meta a = PNone -> (meta d).1 = Ret (PDict [])) /\
    (a_cb_kwargs a = PNone -> (cb_kwargs d).1 = Ret (PDict [])) /\
    forall ops,
      exists m k,
        (meta (run_ops (C := demo) ops d)).1 = Ret (PDict m) /\
        (meta (run_ops (C := demo) ops d)).2 !! "_meta" = Some (PDict m) /\
        (meta (meta (run_ops (C := demo) ops d)).2).1 = Ret (PDict m) /\
        (cb_kwargs (run_ops (C := demo) ops d)).1 = Ret (PDict k) /\
        (cb_kwargs (run_ops (C := demo) ops d)).2 !! "_cb_kwargs" = Some (PDict k) /\
        (cb_kwargs (cb_kwargs (run_ops (C := demo) ops d)).2).1 = Ret (PDict k).
Proof.
  apply (@accessors_return_mappings demo Request [PStr "http://example.com"]
           {["meta" := PNone; "cb_kwargs" := PNone]} ∅ _ 0).
  vm_compute. reflexivity.
Defined.

(** ** The invariant of a Request *)

Lemma upper_ascii_idem c : upper_ascii (upper_ascii c) = upper_ascii c.
Proof.
  unfold upper_ascii.
  destruct ((97 <=? nat_of_ascii c)%nat && (nat_of_ascii c <=? 122)%nat) eqn:E.
  - apply andb_true_iff in E as [E1 E2].
    apply Nat.leb_le in E1, E2.
    rewrite nat_ascii_embedding by lia.
    replace ((97 <=? nat_of_ascii c - 32)%nat) with false; [done|].
    symmetry. apply Nat.leb_gt. lia.
  - by rewrite E.
Qed.

Lemma upper_idem s : upper (upper s) = upper s.
Proof. induction s as [|c s IH]; cbn; [done|]. by rewrite upper_ascii_idem, IH. Qed.

Lemma py_or_idem c : py_or (py_or c (PDict [])) (PDict []) = py_or c (PDict []).
Proof. unfold py_or. destruct (truthy c) eqn:E; [by rewrite E | done]. Qed.

Lemma setdefaults_lookup l kw x :
  setdefaults l kw !! x =
    match kw !! x with
    | Some v => Some v
    | None => assoc_first x l
    end.
Proof.
  revert kw. induction l as [|[y v] l IH]; intros kw; cbn.
  - by destruct (kw !! x).
  - unfold setdefaults in IH. rewrite IH. unfold setdefault. cbn [fst snd].
    destruct (String.eqb_spec y x) as [->|Hne].
    + destruct (kw !! x) eqn:E; [by rewrite E | by rewrite lookup_insert_eq].
    + destruct (kw !! y) eqn:E; [done | by rewrite lookup_insert_ne].
Qed.

Lemma assoc_first_names x l v : assoc_first x l = Some v -> x ∈ l.*1.
Proof.
  induction l as [|[y w] l IH]; cbn; [discriminate|].
  destruct (String.eqb_spec y x) as [->|Hne]; intros E.
  - apply elem_of_cons. by left.
  - apply elem_of_cons. right. by apply IH.
Qed.

Section Invariant.
Context {C : Collaborators}.
Local Open Scope py_scope.

(** [__init__] establishes the invariant. *)
Lemma init_establishes_inv a u b hs m k fl d :
  init_accepts a u b hs m k (PList fl) ->
  request_inv (init_fields a u b hs m k (PList fl) d) (fields_of_init a u b hs m k fl).
Proof.
  intros Hacc.
  split; cbn [f_encoding f_method f_url f_body f_priority f_callback f_errback
              f_cookies f_headers f_dont_filter f_meta f_cb_kwargs f_flags
              fields_of_init];
    try (unfold init_fields, fields_to_priority, fields_to_body, fields_to_url,
           fields_to_method; by lookup_fields);
    try apply Hacc.
  - apply upper_idem.
  - apply py_or_idem.
  - apply (lazy_dict_shape _ _ (acc_meta _ _ _ _ _ _ _ Hacc)).
  - apply (lazy_dict_shape _ _ (acc_cb_kwargs _ _ _ _ _ _ _ Hacc)).
Qed.

Lemma materialised_shape v : none_or_dict v -> none_or_dict (materialised v).
Proof. intros [->|[items ->]]; right; eauto. Qed.

Lemma materialised_touch name v (d : gmap string pyval) :
  d !! name = Some v -> touch name v d !! name = Some (materialised v).
Proof.
  unfold touch, materialised. destruct (is_none v); [|done].
  intros _. by rewrite lookup_insert_eq.
Qed.

Lemma touch_other name v (d : gmap string pyval) x :
  x ≠ name -> touch name v d !! x = d !! x.
Proof. intros Hne. unfold touch. destruct (is_none v); [by rewrite lookup_insert_ne|done]. Qed.

(** Reading the accessors keeps the invariant. *)
Lemma touched_inv d r : request_inv d r -> request_inv (touched r d) (fields_touched r).
Proof.
  intros [].
  split; cbn [f_encoding f_method f_url f_body f_priority f_callback f_errback
              f_cookies f_headers f_dont_filter f_meta f_cb_kwargs f_flags
              fields_touched];
    try done; unfold touched;
    try (rewrite !touch_other by done; done).
  - rewrite touch_other by done. by apply materialised_touch.
  - by apply materialised_shape.
  - apply materialised_touch. by rewrite touch_other.
  - by apply materialised_shape.
Qed.

(** The accessors on a Request. *)
Lemma meta_run d r :
  request_inv d r ->
  meta d = (Ret (materialised (f_meta r)), touch "_meta" (f_meta r) d).
Proof.
  intros Hinv.
  destruct (accessor_reads_dict "_meta" d _ (inv_meta _ _ Hinv) (inv_meta_shape _ _ Hinv))
    as (items & E & _ & _ & ->).
  exact E.
Qed.

Lemma cb_kwargs_run d r :
  request_inv d r ->
  cb_kwargs d = (Ret (materialised (f_cb_kwargs r)), touch "_cb_kwargs" (f_cb_kwargs r) d).
Proof.
  intros Hinv.
  destruct (accessor_reads_dict "_cb_kwargs" d _ (inv_cb_kwargs _ _ Hinv)
              (inv_cb_kwargs_shape _ _ Hinv)) as (items & E & _ & _ & ->).
  exact E.
Qed.

Lemma getfield_run (d : gmap string pyval) name v :
  d !! name = Some v -> getfield name d = (Ret v, d).
Proof. intros E. unfold getfield. by rewrite E. Qed.

(** The thirteen reads of the [setdefault] loop. *)
Lemma setdefault_attrs_run d r kw :
  request_inv d r ->
  setdefault_attrs attributes kw d = (Ret (setdefaults (observe r) kw), touched r d).
Proof.
  intros Hinv. pose proof Hinv as [].
  unfold attributes. cbn [setdefault_attrs].
  change (getattr "url") with (getfield "_url").
  change (getattr "callback") with (getfield "callback").
  change (getattr "method") with (getfield "method").
  change (getattr "headers") with (getfield "headers").
  change (getattr "body") with (getfield "_body").
  change (getattr "cookies") with (getfield "cookies").
  change (getattr "meta") with meta.
  change (getattr "encoding") with (getfield "_encoding").
  change (getattr "priority") with (getfield "priority").
  change (getattr "dont_filter") with (getfield "dont_filter").
  change (getattr "errback") with (getfield "errback").
  change (getattr "flags") with (getfield "flags").
  change (getattr "cb_kwargs") with cb_kwargs.
  do 6 (erewrite bind_run by (by apply getfield_run)).
  erewrite bind_run by (by apply meta_run).
  do 5 (erewrite bind_run
          by (apply getfield_run; rewrite touch_other by done; done)).
  erewrite bind_run.
  2:{ apply (cb_kwargs_run _ (Fields (f_encoding r) (f_method r) (f_url r) (f_body r)
               (f_priority r) (f_callback r) (f_errback r) (f_cookies r) (f_headers r)
               (f_dont_filter r) (materialised (f_meta r)) (f_cb_kwargs r) (f_flags r))).
      split; cbn; try done; try (rewrite touch_other by done; done).
      - by apply materialised_touch.
      - by apply materialised_shape. }
  reflexivity.
Qed.

(** [getattr] returns the observed value. *)
Lemma getattr_observe d r x v :
  request_inv d r -> (x, v) ∈ observe r -> (getattr x d).1 = Ret v.
Proof.
  intros Hinv Hin. pose proof Hinv as []. unfold observe in Hin.
  repeat (apply elem_of_cons in Hin as [[= -> ->]|Hin]);
    try (by apply elem_of_nil in Hin).
  - change (getattr "url") with (getfield "_url"). by erewrite getfield_run.
  - change (getattr "callback") with (getfield "callback"). by erewrite getfield_run.
  - change (getattr "method") with (getfield "method"). by erewrite getfield_run.
  - change (getattr "headers") with (getfield "headers"). by erewrite getfield_run.
  - change (getattr "body") with (getfield "_body"). by erewrite getfield_run.
  - change (getattr "cookies") with (getfield "cookies"). by erewrite getfield_run.
  - change (getattr "meta") with meta. by erewrite meta_run.
  - change (getattr "encoding") with (getfield "_encoding"). by erewrite getfield_run.
  - change (getattr "priority") with (getfield "priority"). by erewrite getfield_run.
  - change (getattr "dont_filter") with (getfield "dont_filter"). by erewrite getfield_run.
  - change (getattr "errback") with (getfield "errback"). by erewrite getfield_run.
  - change (getattr "flags") with (getfield "flags"). by erewrite getfield_run.
  - change (getattr "cb_kwargs") with cb_kwargs. by erewrite cb_kwargs_run.
Qed.

Lemma observe_names r : (observe r).*1 = attributes.
Proof. reflexivity. Qed.

Lemma observe_total r x : x ∈ attributes -> exists v, (x, v) ∈ observe r.
Proof.
  rewrite <- (observe_names r). intros Hin.
  apply list_elem_of_fmap in Hin as ([y v] & -> & Hin). eauto.
Qed.

End Invariant.

(** ** Serialisation: [to_dict] and [_find_method] *)

Lemma first_member_Some members recv f name :
  first_member members (PMethod recv f) = Some name ->
  exists recv', (name, PMethod recv' f) ∈ members.
Proof.
  induction members as [|[n v] members IH]; cbn; [discriminate|].
  destruct v; cbn; try (intros E; destruct (IH E) as [x Hx]; exists x;
                        apply elem_of_cons; by right).
  destruct (String.eqb_spec f0 f) as [->|Hne].
  - intros [= ->]. eexists. apply elem_of_cons. by left.
  - intros E. destruct (IH E) as [x Hx]. exists x. apply elem_of_cons. by right.
Qed.

Lemma first_member_None members recv f :
  first_member members (PMethod recv f) = None ->
  forall name recv', (name, PMethod recv' f) ∉ members.
Proof.
  induction members as [|[n v] members IH]; cbn; intros E name recv' Hin.
  - by apply elem_of_nil in Hin.
  - apply elem_of_cons in Hin as [[= <- <-]|Hin].
    + cbn in E. by rewrite String.eqb_refl in E.
    + destruct (same_func v (PMethod recv f)); [discriminate|]. by apply (IH E name recv').
Qed.

Lemma getmembers_ismethod_elem o name recv f :
  (name, PMethod recv f) ∈ getmembers_ismethod o <-> (name, PMethod recv f) ∈ obj_members o.
Proof.
  unfold getmembers_ismethod. rewrite !list_elem_of_In, filter_In. cbn. tauto.
Qed.

Section Serialisation.
Context {C : Collaborators}.
Local Open Scope py_scope.

(** [_find_method] on an instance method and an owner that counts as
    true: the name of the first member with the same function, or the
    ValueError when there is none. *)
Lemma find_method_match o recv f :
  obj_truthy o = true ->
  (exists name recv', (name, PMethod recv' f) ∈ obj_members o) ->
  exists name recv',
    (name, PMethod recv' f) ∈ obj_members o
    /\ _find_method (Some o) (PMethod recv f) = Ret name.
Proof.
  intros Ht (n0 & r0 & Hin). unfold _find_method. rewrite Ht. cbn [has_func andb].
  destruct (first_member (getmembers_ismethod o) (PMethod recv f)) as [name|] eqn:E.
  - apply first_member_Some in E as [recv' Hm].
    exists name, recv'. split; [by apply getmembers_ismethod_elem | done].
  - exfalso. apply (first_member_None _ _ _ E n0 r0).
    by apply getmembers_ismethod_elem.
Qed.

Lemma find_method_no_match o recv f :
  (forall name recv', (name, PMethod recv' f) ∉ obj_members o) ->
  _find_method (Some o) (PMethod recv f)
    = Raise (not_an_instance_method (Some o) (PMethod recv f)).
Proof.
  intros Hno. unfold _find_method.
  destruct (obj_truthy o && has_func (PMethod recv f)); [|done].
  destruct (first_member (getmembers_ismethod o) (PMethod recv f)) as [name|] eqn:E;
    [|done].
  apply first_member_Some in E as [recv' Hm].
  apply getmembers_ismethod_elem in Hm. by destruct (Hno name recv').
Qed.

(** For a callable that is not an instance method, [_find_method] raises,
    with any owner or none. *)
Lemma find_method_plain_function spider f :
  _find_method spider (PFunction f)
    = Raise (not_an_instance_method spider (PFunction f)).
Proof.
  unfold _find_method. destruct spider as [o|]; [|done].
  by rewrite andb_false_r.
Qed.

Lemma on_run {A} (h : gmap nat instance) self cls d (c : Self A) :
  h !! self = Some (Instance cls d) ->
  on self c h = ((c d).1, <[self := Instance cls (c d).2]> h).
Proof. intros Hself. unfold on. by rewrite Hself. Qed.

(** The first part of [to_dict] on a Request. *)
Lemma to_dict_head_eq d r spider :
  request_inv d r ->
  to_dict_head spider d =
    match resolve spider (f_callback r) with
    | Raise e => (Raise e, d)
    | Ret cb' =>
        match resolve spider (f_errback r) with
        | Raise e => (Raise e, d)
        | Ret eb' => (Ret (head_dict r cb' eb'), d)
        end
    end.
Proof.
  intros []. unfold to_dict_head.
  change (getattr "url") with (getfield "_url").
  change (getattr "callback") with (getfield "callback").
  change (getattr "errback") with (getfield "errback").
  change (getattr "headers") with (getfield "headers").
  do 2 (erewrite bind_run by (by apply getfield_run)).
  unfold lift at 1. unfold bind at 1.
  destruct (resolve spider (f_callback r)) as [cb'|e]; [|done].
  erewrite bind_run by (by apply getfield_run).
  unfold lift at 1. unfold bind at 1.
  destruct (resolve spider (f_errback r)) as [eb'|e]; [|done].
  erewrite bind_run by (by apply getfield_run).
  reflexivity.
Qed.

(** [to_dict] on a Request. *)
Lemma to_dict_eq (h : gmap nat instance) self cls d r spider :
  h !! self = Some (Instance cls d) -> request_inv d r ->
  to_dict self spider h =
    match resolve spider (f_callback r) with
    | Raise e => (Raise e, h)
    | Ret cb' =>
        match resolve spider (f_errback r) with
        | Raise e => (Raise e, h)
        | Ret eb' =>
            (Ret (to_dict_class_tag cls (setdefaults (observe r) (head_dict r cb' eb'))),
             <[self := Instance cls (touched r d)]> h)
        end
    end.
Proof.
  intros Hself Hinv. unfold to_dict.
  assert ((d0 <- to_dict_head spider ;; setdefault_attrs attributes d0) d
          = match resolve spider (f_callback r) with
            | Raise e => (Raise e, d)
            | Ret cb' =>
                match resolve spider (f_errback r) with
                | Raise e => (Raise e, d)
                | Ret eb' =>
                    (Ret (setdefaults (observe r) (head_dict r cb' eb')), touched r d)
                end
            end) as E.
  { unfold bind. rewrite (to_dict_head_eq d r spider Hinv).
    destruct (resolve spider (f_callback r)) as [cb'|e]; [|done].
    destruct (resolve spider (f_errback r)) as [eb'|e]; [|done].
    by rewrite (setdefault_attrs_run d r _ Hinv). }
  unfold bind at 1. rewrite (on_run h self cls d _ Hself), E.
  destruct (resolve spider (f_callback r)) as [cb'|e];
    [|cbn [fst snd]; by rewrite insert_id].
  destruct (resolve spider (f_errback r)) as [eb'|e];
    [|cbn [fst snd]; by rewrite insert_id].
  cbn [fst snd]. unfold bind, class_of, ret. by rewrite lookup_insert_eq.
Qed.

Lemma to_dict_entries cls r cb eb :
  to_dict_class_tag cls (setdefaults (observe r) (head_dict r cb eb)) !! "callback"
    = Some cb
  /\ to_dict_class_tag cls (setdefaults (observe r) (head_dict r cb eb)) !! "errback"
    = Some eb.
Proof.
  unfold to_dict_class_tag.
  destruct (decide (cls = Request)); rewrite ?lookup_insert_ne by done;
    rewrite !setdefaults_lookup; unfold head_dict; by lookup_fields.
Qed.

(** Every constructed Request satisfies the invariant. *)
Lemma constructed_inv cls args kwargs (h h' : gmap nat instance) l :
  construct cls args kwargs h = (Ret l, h') ->
  exists a d r,
    bind_args args kwargs = Ret a /\
    h' !! l = Some (Instance cls d) /\ request_inv d r /\
    f_callback r = a_callback a /\ f_errback r = a_errback a /\ h !! l = None.
Proof.
  intros H.
  apply construct_inv in H as (a & u & b & hs & m & k & f & Ha & Hacc & Hfree & ->).
  destruct (flags_list_shape _ _ (acc_flags _ _ _ _ _ _ _ Hacc)) as [fl ->].
  exists a, (init_fields a u b hs m k (PList fl) ∅), (fields_of_init a u b hs m k fl).
  split; [done|]. split; [by rewrite lookup_insert_eq|].
  split; [by apply init_establishes_inv|]. done.
Qed.

(** Storing a dict in [_meta] or [_cb_kwargs] keeps the invariant, and
    so does every use of a Request. *)
Lemma is_request_stable : lazy_stable is_request.
Proof.
  intros d items [r []]. split.
  - exists (Fields (f_encoding r) (f_method r) (f_url r) (f_body r) (f_priority r)
              (f_callback r) (f_errback r) (f_cookies r) (f_headers r)
              (f_dont_filter r) (PDict items) (f_cb_kwargs r) (f_flags r)).
    split; cbn; rewrite ?lookup_insert_ne by done; try done.
    + by rewrite lookup_insert_eq.
    + right; eauto.
  - exists (Fields (f_encoding r) (f_method r) (f_url r) (f_body r) (f_priority r)
              (f_callback r) (f_errback r) (f_cookies r) (f_headers r)
              (f_dont_filter r) (f_meta r) (PDict items) (f_flags r)).
    split; cbn; rewrite ?lookup_insert_ne by done; try done.
    + by rewrite lookup_insert_eq.
    + right; eauto.
Qed.

Lemma used_request_inv cls args kwargs (h h' : gmap nat instance) l :
  construct cls args kwargs h = (Ret l, h') ->
  exists d, h' !! l = Some (Instance cls d)
            /\ forall ops, is_request (run_ops ops d).
Proof.
  intros H. apply constructed_inv in H as (a & d & r & _ & Hl & Hinv & _).
  exists d. split; [done|]. intros ops.
  apply (run_ops_keeps _ is_request_stable). by exists r.
Qed.

(** C1 (as the code has it): without a spider, a callable callback makes
    [to_dict] raise the ValueError of [_find_method]; so does a callable
    errback when the callback is not callable; only values that are not
    callable, which on a Request means None, are stored unchanged. *)
Theorem callable_without_spider_raises (h : gmap nat instance) self cls d r :
  h !! self = Some (Instance cls d) -> request_inv d r ->
  (callable (f_callback r) = true ->
     to_dict self None h = (Raise (not_an_instance_method None (f_callback r)), h))
  /\ (callable (f_callback r) = false -> callable (f_errback r) = true ->
      to_dict self None h = (Raise (not_an_instance_method None (f_errback r)), h))
  /\ (callable (f_callback r) = false -> callable (f_errback r) = false ->
      f_callback r = PNone /\ f_errback r = PNone /\
      exists dct h',
        to_dict self None h = (Ret dct, h')
        /\ dct !! "callback" = Some PNone /\ dct !! "errback" = Some PNone).
Proof.
  intros Hself Hinv. rewrite (to_dict_eq h self cls d r None Hself Hinv).
  unfold resolve. split; [|split].
  - by intros ->.
  - by intros -> ->.
  - intros Hcb Heb. rewrite Hcb, Heb.
    pose proof (inv_callback_ok _ _ Hinv) as Ocb.
    pose proof (inv_errback_ok _ _ Hinv) as Oeb.
    rewrite Hcb in Ocb. rewrite Heb in Oeb. cbn in Ocb, Oeb.
    destruct (f_callback r); try discriminate Ocb.
    destruct (f_errback r); try discriminate Oeb.
    repeat split; try done. eexists _, _. split; [done|]. apply to_dict_entries.
Qed.


(** C3 (as the code has it): [NO_CALLBACK] is an ordinary function, and
    [to_dict] has no case for it: with any spider or none, serialising a
    Request whose callback is [NO_CALLBACK] raises the ValueError of
    [_find_method]. *)
Theorem no_callback_is_not_serialisable (h : gmap nat instance) self cls d r spider :
  h !! self = Some (Instance cls d) -> request_inv d r ->
  f_callback r = NO_CALLBACK ->
  to_dict self spider h = (Raise (not_an_instance_method spider NO_CALLBACK), h).
Proof.
  intros Hself Hinv Hcb.
  rewrite (to_dict_eq h self cls d r spider Hself Hinv). rewrite Hcb.
  unfold resolve, NO_CALLBACK. cbn [callable].
  by rewrite find_method_plain_function.
Qed.

End Serialisation.

(** ** Serialisation on concrete Requests *)

Lemma demo_heap_constructed cb eb :
  callable cb || is_none cb = true -> callable eb || is_none eb = true ->
  construct (C := demo) Request [PStr "http://example.com"]
    {["callback" := cb; "errback" := eb]} ∅ = (Ret 0, demo_heap cb eb).
Proof.
  intros Hcb Heb.
  rewrite (construct_run (C := demo) Request _ _ ∅
             (InitArgs (PStr "http://example.com") cb (PStr "GET") PNone PNone PNone
                PNone (PStr "utf-8") (PInt 0) (PBool false) eb PNone PNone)
             "http://example.com" [] [] PNone PNone (PList [])).
  - vm_compute. reflexivity.
  - vm_compute. reflexivity.
  - split; try done. by exists "http://example.com", "http://example.com".
Qed.

Lemma demo_request_inv cb eb :
  callable cb || is_none cb = true -> callable eb || is_none eb = true ->
  request_inv (demo_attrs cb eb) (demo_fields cb eb).
Proof. intros Hcb Heb. split; try done; by left. Qed.

Lemma callable_without_spider_raises_witness :
  to_dict (C := demo) 0 None (demo_heap (PFunction "parse_page") PNone)
    = (Raise (not_an_instance_method (C := demo) None (PFunction "parse_page")),
       demo_heap (PFunction "parse_page") PNone)
  /\ to_dict (C := demo) 0 None (demo_heap PNone (PMethod 7 "MySpider.on_error"))
    = (Raise (not_an_instance_method (C := demo) None (PMethod 7 "MySpider.on_error")),
       demo_heap PNone (PMethod 7 "MySpider.on_error"))
  /\ (exists dct h',
        to_dict (C := demo) 0 None (demo_heap PNone PNone) = (Ret dct, h')
        /\ dct !! "callback" = Some PNone /\ dct !! "errback" = Some PNone).
Proof.
  split; [|split].
  - apply (proj1 (@callable_without_spider_raises demo
                    (demo_heap (PFunction "parse_page") PNone) 0 Request
                    (demo_attrs (PFunction "parse_page") PNone)
                    (demo_fields (PFunction "parse_page") PNone)
                    eq_refl
                    (demo_request_inv (PFunction "parse_page") PNone eq_refl eq_refl))).
    reflexivity.
  - apply (proj1 (proj2 (@callable_without_spider_raises demo
                    (demo_heap PNone (PMethod 7 "MySpider.on_error")) 0 Request
                    (demo_attrs PNone (PMethod 7 "MySpider.on_error"))
                    (demo_fields PNone (PMethod 7 "MySpider.on_error"))
                    eq_refl
                    (demo_request_inv PNone (PMethod 7 "MySpider.on_error") eq_refl eq_refl)))).
    + reflexivity.
    + reflexivity.
  - apply (proj2 (proj2 (@callable_without_spider_raises demo
                    (demo_heap PNone PNone) 0 Request
                    (demo_attrs PNone PNone) (demo_fields PNone PNone)
                    eq_refl
                    (demo_request_inv PNone PNone eq_refl eq_refl)))).
    + reflexivity.
    + reflexivity.
Defined.

(** Counterexample to C1 as stated: a Request whose callback is a function, or a
    bound method, is not serialised by [to_dict()] without a spider; the
    call raises the ValueError of [_find_method] and returns no mapping. *)
Lemma callable_without_spider_counterexample :
  (to_dict (C := demo) 0 None
     (construct (C := demo) Request [PStr "http://example.com"]
        {["callback" := PFunction "parse_page"]} ∅).2).1
    = Raise (ValueError
        "Function <function parse_page> is not an instance method in: None")
  /\ (to_dict (C := demo) 0 None
        (construct (C := demo) Request [PStr "http://example.com"]
           {["callback" := PMethod 7 "MySpider.parse"]} ∅).2).1
    = Raise (ValueError
        "Function <bound method MySpider.parse> is not an instance method in: None")
  /\ ~ exists dct,
         (to_dict (C := demo) 0 None
            (construct (C := demo) Request [PStr "http://example.com"]
               {["callback" := PFunction "parse_page"]} ∅).2).1 = Ret dct
         /\ dct !! "callback" = Some (PFunction "parse_page").
Proof.
  split; [vm_compute; reflexivity|]. split; [vm_compute; reflexivity|].
  intros (dct & E & _). vm_compute in E. discriminate E.
Qed.


Lemma no_callback_is_not_serialisable_witness :
  to_dict (C := demo) 0 None (demo_heap NO_CALLBACK PNone)
    = (Raise (not_an_instance_method (C := demo) None NO_CALLBACK),
       demo_heap NO_CALLBACK PNone)
  /\ to_dict (C := demo) 0 (Some demo_spider) (demo_heap NO_CALLBACK PNone)
    = (Raise (not_an_instance_method (C := demo) (Some demo_spider) NO_CALLBACK),
       demo_heap NO_CALLBACK PNone).
Proof.
  split.
  - apply (@no_callback_is_not_serialisable demo (demo_heap NO_CALLBACK PNone) 0
             Request (demo_attrs NO_CALLBACK PNone) (demo_fields NO_CALLBACK PNone)
             None eq_refl
             (demo_request_inv NO_CALLBACK PNone eq_refl eq_refl) eq_refl).
  - apply (@no_callback_is_not_serialisable demo (demo_heap NO_CALLBACK PNone) 0
             Request (demo_attrs NO_CALLBACK PNone) (demo_fields NO_CALLBACK PNone)
             (Some demo_spider) eq_refl
             (demo_request_inv NO_CALLBACK PNone eq_refl eq_refl) eq_refl).
Defined.

(** Counterexample to C3 as stated: [Request("http://example.com",
    callback=NO_CALLBACK)] is constructed, and [to_dict] on it raises,
    without a spider and with one; it returns no mapping that holds the
    sentinel. *)
Lemma no_callback_passes_through_counterexample :
  (construct (C := demo) Request [PStr "http://example.com"]
     {["callback" := NO_CALLBACK]} ∅).1 = Ret 0
  /\ (to_dict (C := demo) 0 None
        (construct (C := demo) Request [PStr "http://example.com"]
           {["callback" := NO_CALLBACK]} ∅).2).1
    = Raise (ValueError
        ("Function <function scrapy.http.request.NO_CALLBACK> " +:+
         "is not an instance method in: None"))
  /\ (to_dict (C := demo) 0 (Some demo_spider)
        (construct (C := demo) Request [PStr "http://example.com"]
           {["callback" := NO_CALLBACK]} ∅).2).1
    = Raise (ValueError
        ("Function <function scrapy.http.request.NO_CALLBACK> " +:+
         "is not an instance method in: <MySpider 'demo' at 0x7f>"))
  /\ ~ exists dct,
         (to_dict (C := demo) 0 None
            (construct (C := demo) Request [PStr "http://example.com"]
               {["callback" := NO_CALLBACK]} ∅).2).1 = Ret dct.
Proof.
  split; [vm_compute; reflexivity|]. split; [vm_compute; reflexivity|].
  split; [vm_compute; reflexivity|].
  intros (dct & E). vm_compute in E. discriminate E.
Qed.

(** ** [replace] and [copy] *)

Lemma bind_args_keywords kwargs :
  map_Forall (fun k _ => k ∈ init_params) kwargs ->
  bind_args [] kwargs =
    match kwargs !! "url" with
    | None =>
        Raise (TypeError "__init__() missing 1 required positional argument: 'url'")
    | Some u =>
        Ret (InitArgs u (default PNone (kwargs !! "callback"))
               (default (PStr "GET") (kwargs !! "method"))
               (default PNone (kwargs !! "headers")) (default PNone (kwargs !! "body"))
               (default PNone (kwargs !! "cookies")) (default PNone (kwargs !! "meta"))
               (default (PStr "utf-8") (kwargs !! "encoding"))
               (default (PInt 0) (kwargs !! "priority"))
               (default (PBool false) (kwargs !! "dont_filter"))
               (default PNone (kwargs !! "errback")) (default PNone (kwargs !! "flags"))
               (default PNone (kwargs !! "cb_kwargs")))
    end.
Proof.
  intros Hnames. unfold bind_args, init_params. cbv zeta.
  change (list_to_map (zip _ (@nil pyval))) with (∅ : gmap string pyval).
  rewrite (left_id_L ∅ (∪)).
  destruct (decide _) as [|_]; [cbn in *; lia|].
  destruct (decide _) as [_|Hno]; [|by destruct Hno].
  destruct (decide _) as [_|Hno]; [done|].
  destruct Hno. by intros k v _.
Qed.

Lemma materialised_idem v : materialised (materialised v) = materialised v.
Proof. by destruct v. Qed.

Lemma materialised_relazy v : none_or_dict v -> materialised (relazy v) = materialised v.
Proof. intros [->|[[|x items] ->]]; reflexivity. Qed.

Lemma lazy_dict_materialised v : none_or_dict v -> lazy_dict (materialised v) = Ret (relazy v).
Proof. intros [->|[[|x items] ->]]; reflexivity. Qed.

Lemma relazy_shape v : none_or_dict v -> none_or_dict (relazy v).
Proof. intros [->|[[|x items] ->]]; cbv; eauto. Qed.

Section Replace.
Context {C : Collaborators}.
Local Open Scope py_scope.

(** The arguments that [replace] binds. *)
Lemma replace_args_bound kw r :
  map_Forall (fun k _ => k ∈ attributes) kw ->
  bind_args [] (delete "cls" (setdefaults (observe r) kw)) = Ret (replace_args kw r).
Proof.
  intros Hkw. rewrite bind_args_keywords.
  - rewrite !lookup_delete_ne by done. rewrite !setdefaults_lookup.
    unfold replace_args. cbn [assoc_first observe String.eqb Ascii.eqb Bool.eqb].
    by repeat (destruct (kw !! _)).
  - intros k v Hk. apply lookup_delete_Some in Hk as [_ Hk].
    rewrite setdefaults_lookup in Hk.
    destruct (kw !! k) eqn:E; [by apply (Hkw k p)|].
    apply assoc_first_names in Hk. by rewrite observe_names in Hk.
Qed.

(** [replace] reads the attributes, then instantiates the class of the
    instance with what it read and the overrides. *)
Lemma replace_eq (h : gmap nat instance) self cls d r kw :
  h !! self = Some (Instance cls d) -> request_inv d r ->
  map_Forall (fun k _ => k ∈ attributes) kw ->
  replace self [] kw h =
    (x <- construct cls [] (delete "cls" (setdefaults (observe r) kw)) ;;
     ret (PObject x)) (<[self := Instance cls (touched r d)]> h).
Proof.
  intros Hself Hinv Hkw. unfold replace.
  unfold bind at 1. rewrite (on_run h self cls d _ Hself).
  rewrite (setdefault_attrs_run d r kw Hinv). cbn [fst snd].
  unfold bind at 1, class_of. rewrite lookup_insert_eq. cbn [inst_class].
  assert (setdefaults (observe r) kw !! "cls" = None) as ->; [|done].
  rewrite setdefaults_lookup. destruct (kw !! "cls") eqn:E; [|done].
  apply Hkw in E. unfold attributes in E.
  repeat (apply elem_of_cons in E as [E|E]; [discriminate E|]).
  by apply elem_of_nil in E.
Qed.

(** The constructor accepts what [replace] read from a Request, with or
    without another method. *)
Lemma replace_args_accepted kw r :
  (exists d, request_inv d r) -> renormalises r ->
  (forall name, name ≠ "method" -> kw !! name = None) ->
  init_accepts (replace_args kw r) (f_url r) (f_body r) (f_headers r)
    (relazy (f_meta r)) (relazy (f_cb_kwargs r)) (PList (f_flags r)).
Proof.
  intros [d Hinv] [(s & Hs & Hesc) Hh] Hkw. pose proof Hinv as [].
  unfold replace_args. cbv zeta.
  split; cbn [a_url a_callback a_method a_headers a_body a_cookies a_meta a_encoding
              a_priority a_dont_filter a_errback a_flags a_cb_kwargs];
    rewrite ?Hkw by done; cbn [default from_option]; try done.
  - exists (f_url r), s. cbn [a_url a_encoding]. by rewrite !Hkw.
  - by apply lazy_dict_materialised.
  - by apply lazy_dict_materialised.
Qed.

Lemma replace_run (h : gmap nat instance) self cls d r kw :
  h !! self = Some (Instance cls d) -> request_inv d r -> renormalises r ->
  (forall name, name ≠ "method" -> kw !! name = None) ->
  let mv := upper (py_str interp_repr (default (PStr (f_method r)) (kw !! "method"))) in
  exists l h' d' r',
    replace self [] kw h = (Ret (PObject l), h')
    /\ l ≠ self /\ h !! l = None
    /\ h' !! l = Some (Instance cls d')
    /\ h' !! self = Some (Instance cls (touched r d))
    /\ request_inv d' r'
    /\ observe r' = observe (fields_with_method mv r).
Proof.
  intros Hself Hinv Hstable Hkw mv.
  assert (map_Forall (fun k (_ : pyval) => k ∈ attributes) kw) as Hnames.
  { intros k v Hk. destruct (decide (k = "method")) as [->|Hne].
    - unfold attributes. do 2 (apply elem_of_cons; right). apply elem_of_cons. by left.
    - by rewrite Hkw in Hk. }
  pose proof (replace_args_accepted kw r (ex_intro _ d Hinv) Hstable Hkw) as Hacc.
  set (h1 := <[self := Instance cls (touched r d)]> h).
  assert (fresh (dom h1) ≠ self) as Hfresh.
  { intros E. apply (is_fresh (dom h1)). rewrite E. unfold h1.
    apply elem_of_dom. rewrite lookup_insert_eq. by eexists. }
  exists (fresh (dom h1)),
    (<[fresh (dom h1) :=
         Instance cls (init_fields (replace_args kw r) (f_url r) (f_body r) (f_headers r)
                         (relazy (f_meta r)) (relazy (f_cb_kwargs r))
                         (PList (f_flags r)) ∅)]> h1),
    (init_fields (replace_args kw r) (f_url r) (f_body r) (f_headers r)
       (relazy (f_meta r)) (relazy (f_cb_kwargs r)) (PList (f_flags r)) ∅),
    (fields_of_init (replace_args kw r) (f_url r) (f_body r) (f_headers r)
       (relazy (f_meta r)) (relazy (f_cb_kwargs r)) (f_flags r)).
  split.
  { rewrite (replace_eq h self cls d r kw Hself Hinv Hnames). fold h1.
    unfold bind.
    rewrite (construct_run cls [] _ h1 _ _ _ _ _ _ _ (replace_args_bound kw r Hnames) Hacc).
    reflexivity. }
  split; [done|]. split.
  { assert (dom h1 = dom h) as Hdom.
    { unfold h1. apply dom_insert_lookup_L. by eexists. }
    apply not_elem_of_dom. rewrite <- Hdom. apply is_fresh. }
  split; [by rewrite lookup_insert_eq|].
  split; [rewrite lookup_insert_ne by done; unfold h1; by rewrite lookup_insert_eq|].
  split; [by apply init_establishes_inv|].
  pose proof Hinv as [].
  unfold observe, fields_of_init, fields_with_method, replace_args. cbv zeta.
  cbn [f_encoding f_method f_url f_body f_priority f_callback f_errback
       f_cookies f_headers f_dont_filter f_meta f_cb_kwargs f_flags
       a_url a_callback a_method a_headers a_body a_cookies a_meta a_encoding
       a_priority a_dont_filter a_errback a_flags a_cb_kwargs].
  rewrite !(Hkw "encoding"), !(Hkw "priority"), !(Hkw "callback"), !(Hkw "errback"),
    !(Hkw "cookies"), !(Hkw "dont_filter") by done.
  cbn [default from_option].
  rewrite inv_cookies_or0, !materialised_relazy by done. reflexivity.
Qed.

(** C6: on a Request whose url and headers the collaborators give back
    unchanged, [replace()] returns a new instance at an address that was
    free, distinct from the original, and every declared attribute reads
    the same on both; [replace(method="POST")] returns a new instance whose
    method is "POST" and whose other declared attributes read as on the
    original; [copy()] is [replace()]. *)
Theorem replace_keeps_declared_attributes (h : gmap nat instance) self cls d r :
  h !! self = Some (Instance cls d) -> request_inv d r -> renormalises r ->
  (exists l h',
     replace self [] ∅ h = (Ret (PObject l), h')
     /\ l ≠ self /\ h !! l = None /\ is_Some (h' !! l)
     /\ forall x, x ∈ attributes ->
          exists v, (on self (getattr x) h).1 = Ret v
                    /\ (on self (getattr x) h').1 = Ret v
                    /\ (on l (getattr x) h').1 = Ret v)
  /\ (exists l h',
        replace self [] {["method" := PStr "POST"]} h = (Ret (PObject l), h')
        /\ l ≠ self /\ h !! l = None /\ is_Some (h' !! l)
        /\ (on l (getattr "method") h').1 = Ret (PStr "POST")
        /\ forall x, x ∈ attributes -> x ≠ "method" ->
             exists v, (on self (getattr x) h).1 = Ret v
                       /\ (on self (getattr x) h').1 = Ret v
                       /\ (on l (getattr x) h').1 = Ret v)
  /\ copy self h = replace self [] ∅ h.
Proof.
  intros Hself Hinv Hstable. split; [|split; [|reflexivity]].
  - destruct (replace_run h self cls d r ∅ Hself Hinv Hstable)
      as (l & h' & d' & r' & E & Hne & Hfree & Hl & Hs & Hinv' & Hobs);
      [intros name _; apply lookup_empty|].
    exists l, h'. repeat (split; [done || by eexists|]).
    intros x Hx. destruct (observe_total r x Hx) as [v Hv]. exists v.
    rewrite (on_run h self cls d _ Hself), (on_run h' self cls _ _ Hs),
      (on_run h' l cls d' _ Hl). cbn [fst].
    split; [by apply (getattr_observe d r)|]. split.
    + apply (getattr_observe _ _ x v (touched_inv d r Hinv)).
      unfold observe, fields_touched in *.
      cbn [f_encoding f_method f_url f_body f_priority f_callback f_errback
           f_cookies f_headers f_dont_filter f_meta f_cb_kwargs f_flags].
      by rewrite !materialised_idem.
    + apply (getattr_observe d' r' x v Hinv'). rewrite Hobs.
      rewrite lookup_empty. cbn [default from_option py_str].
      rewrite (inv_method_upper _ _ Hinv).
      by destruct r.
  - destruct (replace_run h self cls d r {["method" := PStr "POST"]} Hself Hinv Hstable)
      as (l & h' & d' & r' & E & Hne & Hfree & Hl & Hs & Hinv' & Hobs);
      [intros name Hname; by apply lookup_singleton_ne|].
    rewrite lookup_singleton_eq in Hobs. cbn [default from_option py_str] in Hobs.
    change (upper "POST") with "POST" in Hobs.
    exists l, h'. repeat (split; [done || by eexists|]).
    split.
    + rewrite (on_run h' l cls d' _ Hl). cbn [fst].
      apply (getattr_observe d' r' "method" _ Hinv'). rewrite Hobs.
      unfold observe. do 2 (apply elem_of_cons; right). apply elem_of_cons. by left.
    + intros x Hx Hxm. destruct (observe_total r x Hx) as [v Hv]. exists v.
      rewrite (on_run h self cls d _ Hself), (on_run h' self cls _ _ Hs),
        (on_run h' l cls d' _ Hl). cbn [fst].
      split; [by apply (getattr_observe d r)|]. split.
      * apply (getattr_observe _ _ x v (touched_inv d r Hinv)).
        unfold observe, fields_touched in *.
        cbn [f_encoding f_method f_url f_body f_priority f_callback f_errback
             f_cookies f_headers f_dont_filter f_meta f_cb_kwargs f_flags].
        by rewrite !materialised_idem.
      * apply (getattr_observe d' r' x v Hinv'). rewrite Hobs.
        unfold observe, fields_with_method in *.
        cbn [f_encoding f_method f_url f_body f_priority f_callback f_errback
             f_cookies f_headers f_dont_filter f_meta f_cb_kwargs f_flags].
        repeat (apply elem_of_cons in Hv as [Hv|Hv];
                [injection Hv as -> ->;
                 first [ by destruct Hxm
                       | repeat (first [ apply elem_of_cons; by left
                                       | apply elem_of_cons; right ]) ]|]).
        by apply elem_of_nil in Hv.
Qed.

End Replace.

Lemma demo_renormalises cb eb : renormalises (C := demo) (demo_fields cb eb).
Proof. split; [by exists "http://example.com" | reflexivity]. Qed.

Lemma replace_keeps_declared_attributes_witness :
  (exists l h',
     replace (C := demo) 0 [] ∅ (demo_heap PNone PNone) = (Ret (PObject l), h')
     /\ l ≠ 0 /\ demo_heap PNone PNone !! l = None /\ is_Some (h' !! l)
     /\ forall x, x ∈ attributes ->
          exists v, (on 0 (getattr x) (demo_heap PNone PNone)).1 = Ret v
                    /\ (on 0 (getattr x) h').1 = Ret v
                    /\ (on l (getattr x) h').1 = Ret v)
  /\ (exists l h',
        replace (C := demo) 0 [] {["method" := PStr "POST"]} (demo_heap PNone PNone)
          = (Ret (PObject l), h')
        /\ l ≠ 0 /\ demo_heap PNone PNone !! l = None /\ is_Some (h' !! l)
        /\ (on l (getattr "method") h').1 = Ret (PStr "POST")
        /\ forall x, x ∈ attributes -> x ≠ "method" ->
             exists v, (on 0 (getattr x) (demo_heap PNone PNone)).1 = Ret v
                       /\ (on 0 (getattr x) h').1 = Ret v
                       /\ (on l (getattr x) h').1 = Ret v)
  /\ copy (C := demo) 0 (demo_heap PNone PNone)
     = replace (C := demo) 0 [] ∅ (demo_heap PNone PNone).
Proof.
  apply (@replace_keeps_declared_attributes demo (demo_heap PNone PNone) 0 Request
           (demo_attrs PNone PNone) (demo_fields PNone PNone)
           eq_refl (demo_request_inv PNone PNone eq_refl eq_refl)
           (demo_renormalises PNone PNone)).
Defined.

(** [replace()] and [replace(method="POST")] on the demo Request, run. *)
Example replace_demo_runs :
  (replace (C := demo) 0 [] ∅ (demo_heap PNone PNone)).1 = Ret (PObject 1)
  /\ (inst_attrs <$>
        (replace (C := demo) 0 [] {["method" := PStr "POST"]}
           (demo_heap PNone PNone)).2 !! 1)
     = Some (<["method" := PStr "POST"]> (demo_attrs PNone PNone)).
Proof. split; vm_compute; reflexivity. Qed.

(** * Further properties of the module *)

(** ** The constructor *)

Section ConstructorExtras.
Context {C : Collaborators}.
Local Open Scope py_scope.

Lemma construct_verdict cls args kwargs (h : gmap nat instance) a :
  bind_args args kwargs = Ret a ->
  (construct cls args kwargs h).1 =
    match init_verdict a with
    | Ret _ => Ret (fresh (dom h))
    | Raise e => Raise e
    end.
Proof.
  intros Ha. rewrite construct_eq, Ha. cbv zeta. cbn [fst].
  by rewrite init_verdict_eq.
Qed.

(** X1: instantiation succeeds exactly when every check and conversion
    of [__init__] goes through; the new instance then sits at the first
    free address and holds the thirteen fields. *)
Theorem construct_succeeds_iff cls args kwargs (h : gmap nat instance) a :
  bind_args args kwargs = Ret a ->
  forall l h',
    construct cls args kwargs h = (Ret l, h') <->
    exists u b hs m k f,
      init_accepts a u b hs m k f
      /\ l = fresh (dom h)
      /\ h' = <[l := Instance cls (init_fields a u b hs m k f ∅)]> h.
Proof.
  intros Ha l h'. split.
  - intros H. pose proof H as H0.
    apply construct_inv in H as (a' & u & b & hs & m & k & f & Ha' & Hacc & _ & ->).
    rewrite Ha in Ha'. injection Ha' as <-.
    rewrite (construct_run cls args kwargs h a u b hs m k f Ha Hacc) in H0.
    injection H0 as <- _. by exists u, b, hs, m, k, f.
  - intros (u & b & hs & m & k & f & Hacc & -> & ->).
    by apply construct_run.
Qed.

(** X2: the outcome of instantiation is that of the first check that
    fails, in the order of the constructor: url type, url normaliser,
    scheme, body, priority, callback, errback, headers, meta, cb_kwargs,
    flags. *)
Theorem construct_reports_first_failure cls args kwargs (h : gmap nat instance) a :
  bind_args args kwargs = Ret a ->
  (construct cls args kwargs h).1 =
    match init_verdict a with
    | Ret _ => Ret (fresh (dom h))
    | Raise e => Raise e
    end.
Proof. apply construct_verdict. Qed.

Lemma construct_keeps cls args kwargs (h : gmap nat instance) l inst :
  h !! l = Some inst -> (construct cls args kwargs h).2 !! l = Some inst.
Proof.
  intros Hl. rewrite construct_eq. cbv zeta.
  assert (fresh (dom h) ≠ l) as Hne.
  { intros E. pose proof (fresh_loc_unused h) as Hf. rewrite E, Hl in Hf. discriminate. }
  destruct (bind_args args kwargs); cbn [snd]; by rewrite lookup_insert_ne.
Qed.

(** X3: instantiation, finished or not, leaves every instance that was
    on the heap as it was. *)
Theorem construct_frame cls args kwargs (h : gmap nat instance) l inst :
  h !! l = Some inst -> (construct cls args kwargs h).2 !! l = Some inst.
Proof. apply construct_keeps. Qed.

(** X4: encoding, priority, callback, errback and dont_filter are stored
    as they were passed; on a Request the priority is an int or a bool, and
    callback and errback are callable or None. *)
Theorem constructed_fields_stored_unchanged cls args kwargs (h h' : gmap nat instance) l :
  construct cls args kwargs h = (Ret l, h') ->
  exists a,
    bind_args args kwargs = Ret a
    /\ (on l (getattr "encoding") h').1 = Ret (a_encoding a)
    /\ (on l (getattr "priority") h').1 = Ret (a_priority a)
    /\ (on l (getattr "callback") h').1 = Ret (a_callback a)
    /\ (on l (getattr "errback") h').1 = Ret (a_errback a)
    /\ (on l (getattr "dont_filter") h').1 = Ret (a_dont_filter a)
    /\ isinstance_int (a_priority a) = true
    /\ callable (a_callback a) || is_none (a_callback a) = true
    /\ callable (a_errback a) || is_none (a_errback a) = true.
Proof.
  intros H.
  apply constructed_field in H as (a & u & b & hs & m & k & f & Ha & Hacc & Hget).
  exists a. split; [done|].
  change (getattr "encoding") with (getfield "_encoding").
  change (getattr "priority") with (getfield "priority").
  change (getattr "callback") with (getfield "callback").
  change (getattr "errback") with (getfield "errback").
  change (getattr "dont_filter") with (getfield "dont_filter").
  rewrite !Hget.
  unfold getfield, init_fields, fields_to_priority, fields_to_body, fields_to_url,
    fields_to_method.
  lookup_fields. repeat split; try done; apply Hacc.
Qed.

(** X5: [cookies or {}] and [Headers(headers or {}, encoding=encoding)]:
    the cookies of a Request are the argument when it counts as true and
    an empty dict otherwise, never None; the headers are what [Headers]
    builds, with the request's encoding, from the argument or from an
    empty dict. *)
Theorem constructed_cookies_and_headers cls args kwargs (h h' : gmap nat instance) l :
  construct cls args kwargs h = (Ret l, h') ->
  exists a c hs,
    bind_args args kwargs = Ret a
    /\ (on l (getattr "cookies") h').1 = Ret c
    /\ (truthy (a_cookies a) = true -> c = a_cookies a)
    /\ (truthy (a_cookies a) = false -> c = PDict [])
    /\ c ≠ PNone
    /\ (on l (getattr "headers") h').1 = Ret (PHeaders hs)
    /\ (truthy (a_headers a) = true ->
          new_Headers (a_headers a) (a_encoding a) = Ret hs)
    /\ (truthy (a_headers a) = false ->
          new_Headers (PDict []) (a_encoding a) = Ret hs).
Proof.
  intros H.
  apply constructed_field in H as (a & u & b & hs & m & k & f & Ha & Hacc & Hget).
  exists a, (py_or (a_cookies a) (PDict [])), hs. split; [done|].
  change (getattr "cookies") with (getfield "cookies").
  change (getattr "headers") with (getfield "headers").
  rewrite !Hget. unfold getfield, init_fields. lookup_fields.
  pose proof (acc_headers _ _ _ _ _ _ _ Hacc) as Hh. unfold py_or in *.
  repeat split; try done.
  - by intros ->.
  - by intros ->.
  - destruct (truthy (a_cookies a)) eqn:E; [|done]. intros Heq. by rewrite Heq in E.
  - intros E. by rewrite E in Hh.
  - intros E. by rewrite E in Hh.
Qed.

(** X6: [flags] is always a list on a Request: empty for None, the
    elements of a list argument, and for a string argument its characters
    one by one. *)
Theorem constructed_flags_is_list cls args kwargs (h h' : gmap nat instance) l :
  construct cls args kwargs h = (Ret l, h') ->
  exists a fl,
    bind_args args kwargs = Ret a
    /\ (on l (getattr "flags") h').1 = Ret (PList fl)
    /\ (a_flags a = PNone -> fl = [])
    /\ (forall x, a_flags a = PList x -> fl = x)
    /\ (forall s, a_flags a = PStr s ->
          fl = map (fun c => PStr (String c EmptyString)) (list_ascii_of_string s)).
Proof.
  intros H.
  apply constructed_field in H as (a & u & b & hs & m & k & f & Ha & Hacc & Hget).
  pose proof (acc_flags _ _ _ _ _ _ _ Hacc) as Hf.
  destruct (flags_list_shape _ _ Hf) as [fl ->].
  exists a, fl. split; [done|].
  change (getattr "flags") with (getfield "flags").
  rewrite Hget. unfold getfield, init_fields. lookup_fields.
  repeat split; try done.
  - intros E. rewrite E in Hf. by injection Hf.
  - intros x E. rewrite E in Hf. by injection Hf.
  - intros s E. rewrite E in Hf. by injection Hf.
Qed.

(** X7: a flags argument that is not None and cannot be iterated (an
    int, a bool, a function, a class) makes instantiation raise the
    TypeError of [list()], when every earlier check has passed. *)
Theorem flags_not_iterable_raises cls args kwargs (h : gmap nat instance) a u b hs m k :
  bind_args args kwargs = Ret a ->
  url_normalises a u -> has_scheme u = true ->
  body_bytes (a_body a) (a_encoding a) = Ret b ->
  isinstance_int (a_priority a) = true ->
  callable (a_callback a) || is_none (a_callback a) = true ->
  callable (a_errback a) || is_none (a_errback a) = true ->
  new_Headers (py_or (a_headers a) (PDict [])) (a_encoding a) = Ret hs ->
  lazy_dict (a_meta a) = Ret m -> lazy_dict (a_cb_kwargs a) = Ret k ->
  is_none (a_flags a) = false ->
  match a_flags a with
  | PInt _ | PBool _ | PFunction _ | PMethod _ _ | PClass _ | PObject _ => True
  | _ => False
  end ->
  (construct cls args kwargs h).1 =
    Raise (TypeError ("'" +:+ type_name (a_flags a) +:+ "' object is not iterable")).
Proof.
  intros Ha (x & s & Hu & Hs & ->) Hsch Hb Hp Hcb Heb Hh Hm Hk Hn Hit.
  rewrite (construct_verdict cls args kwargs h a Ha).
  unfold init_verdict. rewrite Hu, Hs, Hsch, Hb, Hp, Hcb, Heb, Hh, Hm, Hk. cbn [negb].
  unfold flags_list, py_list. rewrite Hn.
  by destruct (a_flags a).
Qed.

(** X8: [dict(meta) if meta else None], and the same for [cb_kwargs]: on
    a Request the accessor returns the items of a dict argument, and an
    empty dict for every argument that counts as false (None, an empty
    dict, 0, an empty string). *)
Theorem constructed_meta_from_argument cls args kwargs (h h' : gmap nat instance) l :
  construct cls args kwargs h = (Ret l, h') ->
  exists a m k,
    bind_args args kwargs = Ret a
    /\ (on l meta h').1 = Ret (PDict m)
    /\ (on l cb_kwargs h').1 = Ret (PDict k)
    /\ (truthy (a_meta a) = false -> m = [])
    /\ (forall items, a_meta a = PDict items -> m = items)
    /\ (truthy (a_cb_kwargs a) = false -> k = [])
    /\ (forall items, a_cb_kwargs a = PDict items -> k = items).
Proof.
  intros H.
  apply construct_inv in H as (a & u & b & hs & vm & vk & f & Ha & Hacc & _ & ->).
  pose proof (acc_meta _ _ _ _ _ _ _ Hacc) as Hm.
  pose proof (acc_cb_kwargs _ _ _ _ _ _ _ Hacc) as Hk.
  destruct (accessor_reads_dict "_meta" (init_fields a u b hs vm vk f ∅) vm)
    as (m & Em & _ & _ & Mm);
    [unfold init_fields; by lookup_fields | by apply (lazy_dict_shape (a_meta a)) |].
  destruct (accessor_reads_dict "_cb_kwargs" (init_fields a u b hs vm vk f ∅) vk)
    as (k & Ek & _ & _ & Mk);
    [unfold init_fields; by lookup_fields | by apply (lazy_dict_shape (a_cb_kwargs a)) |].
  exists a, m, k. split; [done|]. unfold on. rewrite lookup_insert_eq.
  cbn [inst_attrs]. unfold meta, cb_kwargs. cbv zeta in Em, Ek. rewrite Em, Ek.
  cbn [fst]. unfold lazy_dict in Hm, Hk.
  repeat split; try done.
  - intros E. rewrite E in Hm. injection Hm as <-. by injection Mm.
  - intros items E. rewrite E in Hm. destruct items as [|x items]; cbn in Hm;
      injection Hm as <-; by injection Mm.
  - intros E. rewrite E in Hk. injection Hk as <-. by injection Mk.
  - intros items E. rewrite E in Hk. destruct items as [|x items]; cbn in Hk;
      injection Hk as <-; by injection Mk.
Qed.

Lemma upper_ascii_not_lower c : is_lower (upper_ascii c) = false.
Proof.
  unfold upper_ascii, is_lower.
  destruct ((97 <=? nat_of_ascii c)%nat && (nat_of_ascii c <=? 122)%nat) eqn:E; [|done].
  apply andb_true_iff in E as [E1 E2]. apply Nat.leb_le in E1, E2.
  rewrite nat_ascii_embedding by lia.
  apply andb_false_iff. left. apply Nat.leb_gt. lia.
Qed.

Lemma upper_no_lower s c : c ∈ list_ascii_of_string (upper s) -> is_lower c = false.
Proof.
  induction s as [|x s IH]; cbn; intros Hin.
  - by apply elem_of_nil in Hin.
  - apply elem_of_cons in Hin as [->|Hin]; [apply upper_ascii_not_lower | by apply IH].
Qed.

(** X9: the method of a Request holds no lower-case ASCII letter, and
    [upper] leaves it as it is. *)
Theorem constructed_method_is_upper_case cls args kwargs (h h' : gmap nat instance) l :
  construct cls args kwargs h = (Ret l, h') ->
  exists m,
    (on l (getattr "method") h').1 = Ret (PStr m)
    /\ upper m = m
    /\ forall c, c ∈ list_ascii_of_string m -> is_lower c = false.
Proof.
  intros H.
  apply constructed_field in H as (a & u & b & hs & m & k & f & Ha & Hacc & Hget).
  exists (upper (py_str interp_repr (a_method a))).
  change (getattr "method") with (getfield "method"). rewrite Hget.
  unfold getfield, init_fields, fields_to_priority, fields_to_body, fields_to_url,
    fields_to_method.
  lookup_fields. split; [done|]. split; [apply upper_idem | apply upper_no_lower].
Qed.

(** X10: [repr()] of a Request is its method and its url between angle
    brackets, and reading it changes nothing. *)
Theorem constructed_repr cls args kwargs (h h' : gmap nat instance) l :
  construct cls args kwargs h = (Ret l, h') ->
  exists a u,
    bind_args args kwargs = Ret a /\ url_normalises a u
    /\ on l __repr__ h' =
         (Ret ("<" +:+ upper (py_str interp_repr (a_method a)) +:+ " " +:+ u +:+ ">"), h').
Proof.
  intros H.
  apply construct_inv in H as (a & u & b & hs & m & k & f & Ha & Hacc & _ & ->).
  exists a, u. split; [done|]. split; [apply Hacc|].
  unfold on. rewrite lookup_insert_eq. cbn [inst_attrs inst_class].
  unfold __repr__. run. unfold init_fields, fields_to_priority, fields_to_body,
    fields_to_url, fields_to_method.
  lookup_fields. cbn [fst snd py_str]. by rewrite insert_insert_eq.
Qed.

(** X11: what [from_curl] was passed explicitly is what the Request
    shows: the method in upper case, and encoding, priority, callback,
    errback and dont_filter as passed, whatever the parser produced for
    them. *)
Theorem from_curl_explicit_kwargs_on_request cls cmd ign kwargs
    (h h' : gmap nat instance) l :
  from_curl cls cmd ign kwargs h = (Ret l, h') ->
  (forall v, kwargs !! "method" = Some v ->
     (on l (getattr "method") h').1 = Ret (PStr (upper (py_str interp_repr v))))
  /\ (forall name v,
        name ∈ ["encoding"; "priority"; "callback"; "errback"; "dont_filter"] ->
        kwargs !! name = Some v -> (on l (getattr name) h').1 = Ret v).
Proof.
  unfold from_curl. intros H. apply bind_Ret_inv in H as (parsed & h1 & Hp & H).
  apply lift_inv in Hp as [Hp ->].
  apply constructed_field in H as (a & u & b & hs & m & k & f & Ha & Hacc & Hget).
  assert (forall name v, kwargs !! name = Some v -> arg_of a name = Some v) as Harg.
  { intros name v Hv. apply (bind_args_keyword _ _ _ _ Ha). by apply lookup_union_Some_l. }
  split.
  - intros v Hv. apply Harg in Hv. injection Hv as <-.
    change (getattr "method") with (getfield "method"). rewrite Hget.
    unfold getfield, init_fields, fields_to_priority, fields_to_body, fields_to_url,
      fields_to_method.
    by lookup_fields.
  - intros name v Hin Hv. apply Harg in Hv.
    repeat (apply elem_of_cons in Hin as [->|Hin]);
      try (by apply elem_of_nil in Hin); injection Hv as <-.
    + change (getattr "encoding") with (getfield "_encoding"). rewrite Hget.
      unfold getfield, init_fields, fields_to_priority, fields_to_body, fields_to_url,
        fields_to_method. by lookup_fields.
    + change (getattr "priority") with (getfield "priority"). rewrite Hget.
      unfold getfield, init_fields, fields_to_priority. by lookup_fields.
    + change (getattr "callback") with (getfield "callback"). rewrite Hget.
      unfold getfield, init_fields. by lookup_fields.
    + change (getattr "errback") with (getfield "errback"). rewrite Hget.
      unfold getfield, init_fields. by lookup_fields.
    + change (getattr "dont_filter") with (getfield "dont_filter"). rewrite Hget.
      unfold getfield, init_fields. by lookup_fields.
Qed.

End ConstructorExtras.

(** ** The constructor's further properties on concrete inputs *)

Lemma construct_succeeds_iff_witness :
  construct (C := demo) Request [PStr "http://example.com"] ∅ ∅
    = (Ret 0, demo_heap PNone PNone)
  <-> exists u b hs m k f,
        init_accepts (C := demo) (demo_args PNone PNone) u b hs m k f
        /\ 0 = fresh (dom (∅ : gmap nat instance))
        /\ demo_heap PNone PNone
           = <[0 := Instance Request
                      (init_fields (C := demo) (demo_args PNone PNone) u b hs m k f ∅)]>
               (∅ : gmap nat instance).
Proof.
  apply (@construct_succeeds_iff demo Request [PStr "http://example.com"] ∅ ∅
           (demo_args PNone PNone)).
  vm_compute. reflexivity.
Defined.

Lemma construct_reports_first_failure_witness :
  (construct (C := demo) Request [PStr "not-a-url"]
     {["priority" := PStr "1"; "callback" := PInt 3]} ∅).1
  = match init_verdict (C := demo)
            (InitArgs (PStr "not-a-url") (PInt 3) (PStr "GET") PNone PNone PNone PNone
               (PStr "utf-8") (PStr "1") (PBool false) PNone PNone PNone) with
    | Ret _ => Ret (fresh (dom (∅ : gmap nat instance)))
    | Raise e => Raise e
    end.
Proof.
  apply (@construct_reports_first_failure demo Request [PStr "not-a-url"]
           {["priority" := PStr "1"; "callback" := PInt 3]} ∅).
  vm_compute. reflexivity.
Defined.

(** The url's error comes before the priority's, and the priority's
    before the callback's. *)
Example first_failure_order :
  (construct (C := demo) Request [PStr "not-a-url"]
     {["priority" := PStr "1"; "callback" := PInt 3]} ∅).1
  = Raise (ValueError "Missing scheme in request url: not-a-url")
  /\ (construct (C := demo) Request [PStr "http://example.com"]
        {["priority" := PStr "1"; "callback" := PInt 3]} ∅).1
     = Raise (TypeError "Request priority not an integer: '1'").
Proof. split; vm_compute; reflexivity. Qed.

Lemma construct_frame_witness :
  (construct (C := demo) Request [PStr "not-a-url"] ∅ (demo_heap PNone PNone)).2 !! 0
    = Some (Instance Request (demo_attrs PNone PNone))
  /\ (construct (C := demo) Request [PStr "http://example.org"] ∅
        (demo_heap PNone PNone)).2 !! 0
    = Some (Instance Request (demo_attrs PNone PNone)).
Proof.
  split.
  - apply (@construct_frame demo Request [PStr "not-a-url"] ∅ (demo_heap PNone PNone) 0).
    reflexivity.
  - apply (@construct_frame demo Request [PStr "http://example.org"] ∅
             (demo_heap PNone PNone) 0).
    reflexivity.
Defined.

Lemma constructed_fields_stored_unchanged_witness :
  exists a,
    bind_args [PStr "http://example.com"]
      {["priority" := PBool true; "dont_filter" := PInt 1;
        "callback" := PFunction "parse_page"]} = Ret a
    /\ (on 0 (getattr "encoding")
          (construct (C := demo) Request [PStr "http://example.com"]
             {["priority" := PBool true; "dont_filter" := PInt 1;
               "callback" := PFunction "parse_page"]} ∅).2).1 = Ret (a_encoding a)
    /\ (on 0 (getattr "priority")
          (construct (C := demo) Request [PStr "http://example.com"]
             {["priority" := PBool true; "dont_filter" := PInt 1;
               "callback" := PFunction "parse_page"]} ∅).2).1 = Ret (a_priority a)
    /\ (on 0 (getattr "callback")
          (construct (C := demo) Request [PStr "http://example.com"]
             {["priority" := PBool true; "dont_filter" := PInt 1;
               "callback" := PFunction "parse_page"]} ∅).2).1 = Ret (a_callback a)
    /\ (on 0 (getattr "errback")
          (construct (C := demo) Request [PStr "http://example.com"]
             {["priority" := PBool true; "dont_filter" := PInt 1;
               "callback" := PFunction "parse_page"]} ∅).2).1 = Ret (a_errback a)
    /\ (on 0 (getattr "dont_filter")
          (construct (C := demo) Request [PStr "http://example.com"]
             {["priority" := PBool true; "dont_filter" := PInt 1;
               "callback" := PFunction "parse_page"]} ∅).2).1 = Ret (a_dont_filter a)
    /\ isinstance_int (a_priority a) = true
    /\ callable (a_callback a) || is_none (a_callback a) = true
    /\ callable (a_errback a) || is_none (a_errback a) = true.
Proof.
  apply (@constructed_fields_stored_unchanged demo Request [PStr "http://example.com"]
           {["priority" := PBool true; "dont_filter" := PInt 1;
             "callback" := PFunction "parse_page"]} ∅ _ 0).
  vm_compute. reflexivity.
Defined.

Lemma constructed_cookies_and_headers_witness :
  exists a c hs,
    bind_args [PStr "http://example.com"] {["cookies" := PList []]} = Ret a
    /\ (on 0 (getattr "cookies")
          (construct (C := demo) Request [PStr "http://example.com"]
             {["cookies" := PList []]} ∅).2).1 = Ret c
    /\ (truthy (a_cookies a) = true -> c = a_cookies a)
    /\ (truthy (a_cookies a) = false -> c = PDict [])
    /\ c ≠ PNone
    /\ (on 0 (getattr "headers")
          (construct (C := demo) Request [PStr "http://example.com"]
             {["cookies" := PList []]} ∅).2).1 = Ret (PHeaders hs)
    /\ (truthy (a_headers a) = true ->
          new_Headers (Collaborators := demo) (a_headers a) (a_encoding a) = Ret hs)
    /\ (truthy (a_headers a) = false ->
          new_Headers (Collaborators := demo) (PDict []) (a_encoding a) = Ret hs).
Proof.
  apply (@constructed_cookies_and_headers demo Request [PStr "http://example.com"]
           {["cookies" := PList []]} ∅ _ 0).
  vm_compute. reflexivity.
Defined.

Lemma constructed_flags_is_list_witness :
  exists a fl,
    bind_args [PStr "http://example.com"] {["flags" := PStr "ab"]} = Ret a
    /\ (on 0 (getattr "flags")
          (construct (C := demo) Request [PStr "http://example.com"]
             {["flags" := PStr "ab"]} ∅).2).1 = Ret (PList fl)
    /\ (a_flags a = PNone -> fl = [])
    /\ (forall x, a_flags a = PList x -> fl = x)
    /\ (forall s, a_flags a = PStr s ->
          fl = map (fun c => PStr (String c EmptyString)) (list_ascii_of_string s)).
Proof.
  apply (@constructed_flags_is_list demo Request [PStr "http://example.com"]
           {["flags" := PStr "ab"]} ∅ _ 0).
  vm_compute. reflexivity.
Defined.

(** [flags="ab"] is stored as the list of its characters. *)
Example flags_string_is_split :
  (on 0 (getattr "flags")
     (construct (C := demo) Request [PStr "http://example.com"]
        {["flags" := PStr "ab"]} ∅).2).1 = Ret (PList [PStr "a"; PStr "b"]).
Proof. vm_compute. reflexivity. Qed.

Lemma flags_not_iterable_raises_witness :
  (construct (C := demo) Request [PStr "http://example.com"] {["flags" := PInt 3]} ∅).1
  = Raise (TypeError "'int' object is not iterable").
Proof.
  apply (@flags_not_iterable_raises demo Request [PStr "http://example.com"]
           {["flags" := PInt 3]} ∅
           (InitArgs (PStr "http://example.com") PNone (PStr "GET") PNone PNone PNone
              PNone (PStr "utf-8") (PInt 0) (PBool false) PNone (PInt 3) PNone)
           "http://example.com" [] [] PNone PNone).
  - vm_compute. reflexivity.
  - by exists "http://example.com", "http://example.com".
  - reflexivity.
  - reflexivity.
  - reflexivity.
  - reflexivity.
  - reflexivity.
  - reflexivity.
  - reflexivity.
  - reflexivity.
  - reflexivity.
  - exact I.
Defined.

Lemma constructed_meta_from_argument_witness :
  exists a m k,
    bind_args [PStr "http://example.com"]
      {["meta" := PDict [(PStr "depth", PInt 2)]; "cb_kwargs" := PInt 0]} = Ret a
    /\ (on 0 meta
          (construct (C := demo) Request [PStr "http://example.com"]
             {["meta" := PDict [(PStr "depth", PInt 2)]; "cb_kwargs" := PInt 0]} ∅).2).1
       = Ret (PDict m)
    /\ (on 0 cb_kwargs
          (construct (C := demo) Request [PStr "http://example.com"]
             {["meta" := PDict [(PStr "depth", PInt 2)]; "cb_kwargs" := PInt 0]} ∅).2).1
       = Ret (PDict k)
    /\ (truthy (a_meta a) = false -> m = [])
    /\ (forall items, a_meta a = PDict items -> m = items)
    /\ (truthy (a_cb_kwargs a) = false -> k = [])
    /\ (forall items, a_cb_kwargs a = PDict items -> k = items).
Proof.
  apply (@constructed_meta_from_argument demo Request [PStr "http://example.com"]
           {["meta" := PDict [(PStr "depth", PInt 2)]; "cb_kwargs" := PInt 0]} ∅ _ 0).
  vm_compute. reflexivity.
Defined.

Lemma constructed_method_is_upper_case_witness :
  exists m,
    (on 0 (getattr "method")
       (construct (C := demo) Request [PStr "http://example.com"]
          {["method" := PStr "Patch"]} ∅).2).1 = Ret (PStr m)
    /\ upper m = m
    /\ forall c, c ∈ list_ascii_of_string m -> is_lower c = false.
Proof.
  apply (@constructed_method_is_upper_case demo Request [PStr "http://example.com"]
           {["method" := PStr "Patch"]} ∅ _ 0).
  vm_compute. reflexivity.
Defined.

Lemma constructed_repr_witness :
  exists a u,
    bind_args [PStr "http://example.com"] {["method" := PStr "post"]} = Ret a
    /\ url_normalises (C := demo) a u
    /\ on 0 (__repr__ (C := demo))
         (construct (C := demo) Request [PStr "http://example.com"]
            {["method" := PStr "post"]} ∅).2
       = (Ret ("<" +:+ upper (py_str demo_repr (a_method a)) +:+ " " +:+ u +:+ ">"),
          (construct (C := demo) Request [PStr "http://example.com"]
             {["method" := PStr "post"]} ∅).2).
Proof.
  apply (@constructed_repr demo Request [PStr "http://example.com"]
           {["method" := PStr "post"]} ∅ _ 0).
  vm_compute. reflexivity.
Defined.

(** [repr(Request("http://example.com", method="post"))]. *)
Example repr_demo :
  (on 0 (__repr__ (C := demo))
     (construct (C := demo) Request [PStr "http://example.com"]
        {["method" := PStr "post"]} ∅).2).1 = Ret "<POST http://example.com>".
Proof. vm_compute. reflexivity. Qed.

Lemma from_curl_explicit_kwargs_on_request_witness :
  (forall v,
     ({["method" := PStr "post"; "priority" := PInt 5]} : gmap string pyval) !! "method"
       = Some v ->
     (on 0 (getattr "method")
        (from_curl (C := demo) Request "curl http://example.com" true
           {["method" := PStr "post"; "priority" := PInt 5]} ∅).2).1
       = Ret (PStr (upper (py_str demo_repr v))))
  /\ (forall name v,
        name ∈ ["encoding"; "priority"; "callback"; "errback"; "dont_filter"] ->
        ({["method" := PStr "post"; "priority" := PInt 5]} : gmap string pyval) !! name
          = Some v ->
        (on 0 (getattr name)
           (from_curl (C := demo) Request "curl http://example.com" true
              {["method" := PStr "post"; "priority" := PInt 5]} ∅).2).1 = Ret v).
Proof.
  apply (@from_curl_explicit_kwargs_on_request demo Request "curl http://example.com"
           true {["method" := PStr "post"; "priority" := PInt 5]} ∅ _ 0).
  vm_compute. reflexivity.
Defined.

(** ** [replace], further *)

Lemma bind_args_positional_url x args kwargs u :
  kwargs !! "url" = Some u ->
  exists msg, bind_args (x :: args) kwargs = Raise (TypeError msg).
Proof.
  intros Hu. unfold bind_args. cbv zeta.
  destruct (decide _) as [|_]; [eauto|].
  destruct (decide _) as [_|_]; [|eauto].
  destruct (decide _) as [Hno|_]; [|eauto].
  exfalso. specialize (Hno "url" u Hu). cbn beta in Hno.
  unfold init_params in Hno. cbn [zip_with list_to_map foldr fst snd] in Hno.
  by rewrite lookup_insert_eq in Hno.
Qed.

Lemma bind_args_unknown_keyword kwargs k v :
  kwargs !! k = Some v -> k ∉ init_params ->
  bind_args [] kwargs = Raise (TypeError "__init__() got an unexpected keyword argument").
Proof.
  intros Hk Hnot. unfold bind_args. cbv zeta.
  destruct (decide _) as [Hlen|_]; [cbn in Hlen; lia|].
  destruct (decide _) as [Hall|_]; [|done].
  by destruct (Hnot (Hall k v Hk)).
Qed.

Section ReplaceExtras.
Context {C : Collaborators}.
Local Open Scope py_scope.

(** [replace] in general: the attributes are read, then [cls], or the
    class of the instance, is called. *)
Lemma replace_call_eq (h : gmap nat instance) self cls d r args kw :
  h !! self = Some (Instance cls d) -> request_inv d r ->
  replace self args kw h =
    call (default (PClass cls) (kw !! "cls")) args
      (delete "cls" (setdefaults (observe r) kw))
      (<[self := Instance cls (touched r d)]> h).
Proof.
  intros Hself Hinv. unfold replace.
  unfold bind at 1. rewrite (on_run h self cls d _ Hself).
  rewrite (setdefault_attrs_run d r kw Hinv). cbn [fst snd].
  unfold bind at 1, class_of. rewrite lookup_insert_eq. cbn [inst_class].
  rewrite setdefaults_lookup. by destruct (kw !! "cls").
Qed.

Lemma call_keeps f args kwargs (h : gmap nat instance) l inst :
  h !! l = Some inst -> (call f args kwargs h).2 !! l = Some inst.
Proof.
  intros Hl. unfold call.
  destruct f; try (by destruct (callable _)); try done.
  unfold bind. pose proof (construct_keeps c args kwargs h l inst Hl) as Hk.
  by destruct (construct c args kwargs h) as [[x|e] h1].
Qed.

Lemma touched_dom (h : gmap nat instance) self cls d d' :
  h !! self = Some (Instance cls d) -> dom (<[self := Instance cls d']> h) = dom h.
Proof. intros Hself. apply dom_insert_lookup_L. by eexists. Qed.

(** X12: [replace], whatever its arguments and whether it returns or
    raises, leaves the original where it was and every declared attribute
    reading as before; the only fields it may write are [_meta] and
    [_cb_kwargs], from None to an empty dict. *)
Theorem replace_leaves_original (h : gmap nat instance) self cls d r args kw :
  h !! self = Some (Instance cls d) -> request_inv d r ->
  (replace self args kw h).2 !! self = Some (Instance cls (touched r d))
  /\ (forall name, name ≠ "_meta" -> name ≠ "_cb_kwargs" ->
        touched r d !! name = d !! name)
  /\ (forall x, x ∈ attributes ->
        (on self (getattr x) (replace self args kw h).2).1
          = (on self (getattr x) h).1).
Proof.
  intros Hself Hinv.
  assert ((replace self args kw h).2 !! self = Some (Instance cls (touched r d))) as Hs.
  { rewrite (replace_call_eq h self cls d r args kw Hself Hinv).
    apply call_keeps. by rewrite lookup_insert_eq. }
  split; [done|]. split.
  - intros name H1 H2. unfold touched. by rewrite !touch_other.
  - intros x Hx. destruct (observe_total r x Hx) as [v Hv].
    rewrite (on_run _ self cls _ _ Hs), (on_run h self cls d _ Hself). cbn [fst].
    rewrite (getattr_observe d r x v Hinv Hv).
    apply (getattr_observe _ _ x v (touched_inv d r Hinv)).
    unfold observe, fields_touched in *.
    cbn [f_encoding f_method f_url f_body f_priority f_callback f_errback
         f_cookies f_headers f_dont_filter f_meta f_cb_kwargs f_flags].
    by rewrite !materialised_idem.
Qed.

(** X13: [replace] with a positional argument raises a TypeError: the
    keyword arguments it hands to the class always hold [url], the first
    parameter. *)
Theorem replace_positional_raises (h : gmap nat instance) self cls d r x args kw :
  h !! self = Some (Instance cls d) -> request_inv d r ->
  (kw !! "cls" = None \/ exists c, kw !! "cls" = Some (PClass c)) ->
  exists msg, (replace self (x :: args) kw h).1 = Raise (TypeError msg).
Proof.
  intros Hself Hinv Hcls.
  rewrite (replace_call_eq h self cls d r (x :: args) kw Hself Hinv).
  assert (exists c, default (PClass cls) (kw !! "cls") = PClass c) as [c ->].
  { destruct Hcls as [->|[c ->]]; eauto. }
  unfold call, bind. rewrite construct_eq. cbv zeta.
  assert (exists u, delete "cls" (setdefaults (observe r) kw) !! "url" = Some u) as [u Hu].
  { rewrite lookup_delete_ne by done. rewrite setdefaults_lookup.
    destruct (kw !! "url"); eauto. }
  destruct (bind_args_positional_url x args _ u Hu) as [msg ->]. eauto.
Qed.

(** X14: [replace] with a keyword that is neither a declared attribute
    nor [cls] raises the TypeError of an unexpected keyword argument. *)
Theorem replace_unknown_keyword_raises (h : gmap nat instance) self cls d r kw k v :
  h !! self = Some (Instance cls d) -> request_inv d r ->
  (kw !! "cls" = None \/ exists c, kw !! "cls" = Some (PClass c)) ->
  kw !! k = Some v -> k ∉ attributes -> k ≠ "cls" ->
  (replace self [] kw h).1
    = Raise (TypeError "__init__() got an unexpected keyword argument").
Proof.
  intros Hself Hinv Hcls Hk Hnot Hne.
  rewrite (replace_call_eq h self cls d r [] kw Hself Hinv).
  assert (exists c, default (PClass cls) (kw !! "cls") = PClass c) as [c ->].
  { destruct Hcls as [->|[c ->]]; eauto. }
  unfold call, bind. rewrite construct_eq. cbv zeta.
  rewrite (bind_args_unknown_keyword _ k v); [done| |done].
  rewrite lookup_delete_ne by done. rewrite setdefaults_lookup. by rewrite Hk.
Qed.

(** X15: [replace] with overrides of declared attributes runs the
    constructor on the overrides and, for the rest, on what [getattr]
    reads, and it returns or raises as the constructor's checks decide on
    those arguments. *)
Theorem replace_validates_overrides (h : gmap nat instance) self cls d r kw :
  h !! self = Some (Instance cls d) -> request_inv d r ->
  map_Forall (fun k _ => k ∈ attributes) kw ->
  exists a,
    (forall name v, kw !! name = Some v -> arg_of a name = Some v)
    /\ (forall name, name ∈ attributes -> kw !! name = None ->
          exists v, (on self (getattr name) h).1 = Ret v /\ arg_of a name = Some v)
    /\ (replace self [] kw h).1 =
         match init_verdict a with
         | Ret _ => Ret (PObject (fresh (dom h)))
         | Raise e => Raise e
         end.
Proof.
  intros Hself Hinv Hkw. exists (replace_args kw r).
  pose proof (replace_args_bound kw r Hkw) as Hbound.
  split; [|split].
  - intros name v Hv. apply (bind_args_keyword _ _ _ _ Hbound).
    rewrite lookup_delete_ne; [rewrite setdefaults_lookup; by rewrite Hv|].
    intros <-. apply Hkw in Hv. unfold attributes in Hv.
    repeat (apply elem_of_cons in Hv as [Hv|Hv]; [discriminate Hv|]).
    by apply elem_of_nil in Hv.
  - intros name Hin Hnone. destruct (observe_total r name Hin) as [v Hv].
    exists v. rewrite (on_run h self cls d _ Hself). cbn [fst].
    split; [by apply (getattr_observe d r)|].
    apply (bind_args_keyword _ _ _ _ Hbound).
    rewrite lookup_delete_ne.
    + rewrite setdefaults_lookup, Hnone. unfold observe in *.
      repeat (apply elem_of_cons in Hv as [[= -> ->]|Hv]; [reflexivity|]).
      by apply elem_of_nil in Hv.
    + intros <-. unfold attributes in Hin.
      repeat (apply elem_of_cons in Hin as [Hin|Hin]; [discriminate Hin|]).
      by apply elem_of_nil in Hin.
  - rewrite (replace_eq h self cls d r kw Hself Hinv Hkw). unfold bind.
    pose proof (construct_verdict cls [] _ (<[self := Instance cls (touched r d)]> h)
                  _ Hbound) as Hv.
    rewrite (touched_dom h self cls d _ Hself) in Hv.
    destruct (construct cls [] _ _) as [[l|e] h1]; cbn [fst] in *;
      destruct (init_verdict (replace_args kw r)); by simplify_eq.
Qed.

(** X16: [replace(cls=K)] returns a new instance of the class [K], on
    which every declared attribute reads as on the original. *)
Theorem replace_into_class (h : gmap nat instance) self cls d r K :
  h !! self = Some (Instance cls d) -> request_inv d r -> renormalises r ->
  exists l h' d',
    replace self [] {["cls" := PClass K]} h = (Ret (PObject l), h')
    /\ l ≠ self /\ h !! l = None
    /\ h' !! l = Some (Instance K d')
    /\ forall x, x ∈ attributes ->
         exists v, (on self (getattr x) h).1 = Ret v
                   /\ (on l (getattr x) h').1 = Ret v.
Proof.
  intros Hself Hinv Hstable.
  assert (forall name : string, name ≠ "method" -> (∅ : gmap string pyval) !! name = None)
    as Hempty by (intros; apply lookup_empty).
  pose proof (replace_args_accepted ∅ r (ex_intro _ d Hinv) Hstable Hempty) as Hacc.
  assert (delete "cls" (setdefaults (observe r) {["cls" := PClass K]})
          = delete "cls" (setdefaults (observe r) ∅)) as Hdel.
  { apply map_eq. intros k. destruct (decide (k = "cls")) as [->|Hne].
    - by rewrite !lookup_delete_eq.
    - rewrite !lookup_delete_ne by done. rewrite !setdefaults_lookup.
      by rewrite lookup_singleton_ne, lookup_empty. }
  assert (bind_args [] (delete "cls" (setdefaults (observe r) {["cls" := PClass K]}))
          = Ret (replace_args ∅ r)) as Hbound.
  { rewrite Hdel. apply replace_args_bound. apply map_Forall_empty. }
  set (h1 := <[self := Instance cls (touched r d)]> h).
  assert (dom h1 = dom h) as Hdom by apply (touched_dom h self cls d _ Hself).
  assert (fresh (dom h1) ≠ self) as Hfresh.
  { intros E. apply (is_fresh (dom h1)). rewrite E. unfold h1.
    apply elem_of_dom. rewrite lookup_insert_eq. by eexists. }
  exists (fresh (dom h1)),
    (<[fresh (dom h1) :=
         Instance K (init_fields (replace_args ∅ r) (f_url r) (f_body r) (f_headers r)
                       (relazy (f_meta r)) (relazy (f_cb_kwargs r))
                       (PList (f_flags r)) ∅)]> h1),
    (init_fields (replace_args ∅ r) (f_url r) (f_body r) (f_headers r)
       (relazy (f_meta r)) (relazy (f_cb_kwargs r)) (PList (f_flags r)) ∅).
  split.
  { rewrite (replace_call_eq h self cls d r [] _ Hself Hinv).
    rewrite lookup_singleton_eq. cbn [from_option id]. fold h1.
    unfold call, bind.
    by rewrite (construct_run K [] _ h1 _ _ _ _ _ _ _ Hbound Hacc). }
  split; [done|]. split.
  { apply not_elem_of_dom. rewrite <- Hdom. apply is_fresh. }
  split; [by rewrite lookup_insert_eq|].
  intros x Hx. destruct (observe_total r x Hx) as [v Hv]. exists v.
  rewrite (on_run h self cls d _ Hself). cbn [fst].
  split; [by apply (getattr_observe d r)|].
  unfold on. rewrite lookup_insert_eq. cbn [inst_attrs fst].
  apply (getattr_observe _ _ x v (init_establishes_inv _ _ _ _ _ _ _ ∅ Hacc)).
  pose proof Hinv as [].
  unfold observe, fields_of_init, replace_args in *. cbv zeta.
  cbn [f_encoding f_method f_url f_body f_priority f_callback f_errback
       f_cookies f_headers f_dont_filter f_meta f_cb_kwargs f_flags
       a_url a_callback a_method a_headers a_body a_cookies a_meta a_encoding
       a_priority a_dont_filter a_errback a_flags a_cb_kwargs].
  rewrite !lookup_empty. cbn [default from_option py_str].
  by rewrite inv_cookies_or0, inv_method_upper0, !materialised_relazy.
Qed.

End ReplaceExtras.

(** ** [to_dict] and [_find_method], further *)

Lemma assoc_first_is_Some x l : x ∈ l.*1 -> is_Some (assoc_first x l).
Proof.
  induction l as [|[y w] l IH]; cbn; intros Hin.
  - by apply elem_of_nil in Hin.
  - destruct (String.eqb_spec y x) as [->|Hne]; [by eexists|].
    apply elem_of_cons in Hin as [->|Hin]; [done | by apply IH].
Qed.

Lemma setdefaults_is_Some l kw k :
  is_Some (setdefaults l kw !! k) <-> is_Some (kw !! k) \/ k ∈ l.*1.
Proof.
  rewrite setdefaults_lookup. destruct (kw !! k) eqn:E.
  - split; [by left | by eexists].
  - split.
    + intros [v Hv]. right. by apply (assoc_first_names _ _ v).
    + intros [[v Hv]|Hin]; [discriminate | by apply assoc_first_is_Some].
Qed.

Lemma first_member_split members func name :
  first_member members func = Some name ->
  exists pre m post,
    members = (pre ++ (name, m) :: post)%list
    /\ same_func m func = true
    /\ Forall (fun nv => same_func nv.2 func = false) pre.
Proof.
  induction members as [|[n v] members IH]; cbn; [discriminate|].
  destruct (same_func v func) eqn:E.
  - intros [= ->]. by exists [], v, members.
  - intros H. destruct (IH H) as (pre & m & post & -> & Hm & Hpre).
    exists ((n, v) :: pre), m, post. split; [done|]. split; [done|].
    by constructor.
Qed.

Section SerialisationExtras.
Context {C : Collaborators}.
Local Open Scope py_scope.

Lemma observe_assoc_first r x v :
  (x, v) ∈ observe r -> assoc_first x (observe r) = Some v.
Proof.
  unfold observe. intros Hin.
  repeat (apply elem_of_cons in Hin as [[= -> ->]|Hin]; [reflexivity|]).
  by apply elem_of_nil in Hin.
Qed.

(** A returned [to_dict]: both handlers were resolved, the dict is the
    one of the [setdefault] loop, and the accessors have been read. *)
Lemma to_dict_inv (h h' : gmap nat instance) self cls d r spider dct :
  h !! self = Some (Instance cls d) -> request_inv d r ->
  to_dict self spider h = (Ret dct, h') ->
  exists cb' eb',
    resolve spider (f_callback r) = Ret cb'
    /\ resolve spider (f_errback r) = Ret eb'
    /\ dct = to_dict_class_tag cls (setdefaults (observe r) (head_dict r cb' eb'))
    /\ h' = <[self := Instance cls (touched r d)]> h.
Proof.
  intros Hself Hinv. rewrite (to_dict_eq h self cls d r spider Hself Hinv).
  destruct (resolve spider (f_callback r)) as [cb'|e]; [|discriminate].
  destruct (resolve spider (f_errback r)) as [eb'|e]; [|discriminate].
  intros [= <- <-]. by exists cb', eb'.
Qed.

(** X17: the keys of the dict that [to_dict] returns are the declared
    attributes, and [_class] exactly when the instance is not of the class
    [Request] itself; [_class] then holds the module and the name of the
    class, joined by a dot. *)
Theorem to_dict_keys (h h' : gmap nat instance) self cls d r spider dct :
  h !! self = Some (Instance cls d) -> request_inv d r ->
  to_dict self spider h = (Ret dct, h') ->
  (forall k, is_Some (dct !! k) <-> k ∈ attributes \/ (cls ≠ Request /\ k = "_class"))
  /\ (cls ≠ Request ->
      dct !! "_class" = Some (PStr (cls_module cls +:+ "." +:+ cls_name cls))).
Proof.
  intros Hself Hinv H.
  destruct (to_dict_inv h h' self cls d r spider dct Hself Hinv H)
    as (cb' & eb' & _ & _ & -> & _).
  assert (forall k, is_Some (setdefaults (observe r) (head_dict r cb' eb') !! k)
                    <-> k ∈ attributes) as Hkeys.
  { intros k. rewrite setdefaults_is_Some, observe_names. split; [|by right].
    intros [[v Hv]|Hin]; [|done]. unfold head_dict in Hv.
    repeat (apply lookup_insert_Some in Hv as [[<- _]|[_ Hv]];
            [unfold attributes; repeat (first [ apply elem_of_cons; by left
                                              | apply elem_of_cons; right ])|]).
    apply lookup_singleton_Some in Hv as [<- _].
    unfold attributes. apply elem_of_cons. by left. }
  assert ("_class" ∉ attributes) as Hnot.
  { unfold attributes. intros Hin.
    repeat (apply elem_of_cons in Hin as [Hin|Hin]; [discriminate Hin|]).
    by apply elem_of_nil in Hin. }
  unfold to_dict_class_tag. destruct (decide (cls = Request)) as [->|Hne].
  - split; [|done]. intros k. rewrite Hkeys. split; [by left|].
    intros [Hin|[Hc _]]; [done | by destruct Hc].
  - split; [|intros _; by rewrite lookup_insert_eq].
    intros k. destruct (decide (k = "_class")) as [->|Hk].
    + rewrite lookup_insert_eq. split; [by right | by eexists].
    + rewrite lookup_insert_ne by done. rewrite Hkeys. split; [by left|].
      intros [Hin|[_ Hc]]; [done | by destruct Hk].
Qed.

(** X18: in the dict that [to_dict] returns, every declared attribute
    other than callback, errback and headers holds what [getattr] reads on
    the instance; headers holds the items of the Headers object as a plain
    dict; meta and cb_kwargs hold dicts, never None. *)
Theorem to_dict_values (h h' : gmap nat instance) self cls d r spider dct :
  h !! self = Some (Instance cls d) -> request_inv d r ->
  to_dict self spider h = (Ret dct, h') ->
  (forall x, x ∈ attributes -> x ≠ "callback" -> x ≠ "errback" -> x ≠ "headers" ->
     exists v, (on self (getattr x) h).1 = Ret v /\ dct !! x = Some v)
  /\ (exists hs, (on self (getattr "headers") h).1 = Ret (PHeaders hs)
                 /\ dct !! "headers" = Some (PDict (headers_items hs)))
  /\ (exists m k, dct !! "meta" = Some (PDict m) /\ dct !! "cb_kwargs" = Some (PDict k)).
Proof.
  intros Hself Hinv H.
  destruct (to_dict_inv h h' self cls d r spider dct Hself Hinv H)
    as (cb' & eb' & _ & _ & -> & _).
  assert (forall x, x ∈ attributes ->
            to_dict_class_tag cls (setdefaults (observe r) (head_dict r cb' eb')) !! x
            = setdefaults (observe r) (head_dict r cb' eb') !! x) as Htag.
  { intros x Hin. unfold to_dict_class_tag. destruct (decide _); [done|].
    apply lookup_insert_ne. intros <-. unfold attributes in Hin.
    repeat (apply elem_of_cons in Hin as [Hin|Hin]; [discriminate Hin|]).
    by apply elem_of_nil in Hin. }
  assert (forall x v, (x, v) ∈ observe r ->
            x ≠ "callback" -> x ≠ "errback" -> x ≠ "headers" ->
            setdefaults (observe r) (head_dict r cb' eb') !! x = Some v) as Hval.
  { intros x v Hv H1 H2 H3. rewrite setdefaults_lookup. unfold head_dict.
    rewrite !lookup_insert_ne by done.
    destruct (decide (x = "url")) as [->|Hu].
    - rewrite lookup_singleton_eq. apply observe_assoc_first in Hv.
      cbn in Hv. by injection Hv as <-.
    - rewrite lookup_singleton_ne by done. by apply observe_assoc_first. }
  split; [|split].
  - intros x Hx H1 H2 H3. destruct (observe_total r x Hx) as [v Hv]. exists v.
    rewrite (on_run h self cls d _ Hself). cbn [fst].
    split; [by apply (getattr_observe d r)|]. rewrite Htag by done. by apply Hval.
  - exists (f_headers r). rewrite (on_run h self cls d _ Hself). cbn [fst].
    split.
    + apply (getattr_observe d r "headers" _ Hinv). unfold observe.
      do 3 (apply elem_of_cons; right). apply elem_of_cons. by left.
    + rewrite Htag; [|unfold attributes; do 3 (apply elem_of_cons; right);
                       apply elem_of_cons; by left].
      rewrite setdefaults_lookup. unfold head_dict. by rewrite lookup_insert_eq.
  - destruct (materialised_shape _ (inv_meta_shape _ _ Hinv)) as [E|[m Em]];
      [by destruct (f_meta r)|].
    destruct (materialised_shape _ (inv_cb_kwargs_shape _ _ Hinv)) as [E|[k Ek]];
      [by destruct (f_cb_kwargs r)|].
    exists m, k. split.
    + rewrite Htag; [|unfold attributes; do 6 (apply elem_of_cons; right);
                       apply elem_of_cons; by left].
      rewrite <- Em. apply Hval; try done. unfold observe.
      do 6 (apply elem_of_cons; right). apply elem_of_cons. by left.
    + rewrite Htag; [|unfold attributes; do 12 (apply elem_of_cons; right);
                       apply elem_of_cons; by left].
      rewrite <- Ek. apply Hval; try done. unfold observe.
      do 12 (apply elem_of_cons; right). apply elem_of_cons. by left.
Qed.

(** X19: [to_dict] touches no other instance and changes no declared
    attribute of its own; when it raises, the heap is as it was; when it
    returns, the only fields it may have written are [_meta] and
    [_cb_kwargs], from None to an empty dict. *)
Theorem to_dict_effect (h : gmap nat instance) self cls d r spider :
  h !! self = Some (Instance cls d) -> request_inv d r ->
  (forall l, l ≠ self -> (to_dict self spider h).2 !! l = h !! l)
  /\ (forall e, (to_dict self spider h).1 = Raise e -> (to_dict self spider h).2 = h)
  /\ (forall dct, (to_dict self spider h).1 = Ret dct ->
        (to_dict self spider h).2 !! self = Some (Instance cls (touched r d)))
  /\ (forall x, x ∈ attributes ->
        (on self (getattr x) (to_dict self spider h).2).1 = (on self (getattr x) h).1).
Proof.
  intros Hself Hinv. rewrite (to_dict_eq h self cls d r spider Hself Hinv).
  assert (forall x, x ∈ attributes ->
            (on self (getattr x) (<[self := Instance cls (touched r d)]> h)).1
            = (on self (getattr x) h).1) as Hsame.
  { intros x Hx. destruct (observe_total r x Hx) as [v Hv].
    unfold on. rewrite lookup_insert_eq, Hself. cbn [inst_attrs fst].
    rewrite (getattr_observe d r x v Hinv Hv).
    apply (getattr_observe _ _ x v (touched_inv d r Hinv)).
    unfold observe, fields_touched in *.
    cbn [f_encoding f_method f_url f_body f_priority f_callback f_errback
         f_cookies f_headers f_dont_filter f_meta f_cb_kwargs f_flags].
    by rewrite !materialised_idem. }
  destruct (resolve spider (f_callback r)) as [cb'|e]; [|by repeat split].
  destruct (resolve spider (f_errback r)) as [eb'|e]; [|by repeat split].
  cbn [fst snd]. split; [|split; [|split]]; try done.
  - intros l Hl. by rewrite lookup_insert_ne.
  - intros dct _. by rewrite lookup_insert_eq.
Qed.

(** X20: [to_dict] returns exactly when each of callback and errback
    that is callable is found by [_find_method]; and when the callback is
    not found, its error is the one raised, whatever the errback. *)
Theorem to_dict_succeeds_iff (h : gmap nat instance) self cls d r spider :
  h !! self = Some (Instance cls d) -> request_inv d r ->
  ((exists dct h', to_dict self spider h = (Ret dct, h')) <->
     (callable (f_callback r) = true ->
        exists n, _find_method spider (f_callback r) = Ret n)
     /\ (callable (f_errback r) = true ->
        exists n, _find_method spider (f_errback r) = Ret n))
  /\ (forall e, callable (f_callback r) = true ->
        _find_method spider (f_callback r) = Raise e ->
        to_dict self spider h = (Raise e, h)).
Proof.
  intros Hself Hinv. rewrite (to_dict_eq h self cls d r spider Hself Hinv).
  unfold resolve. split.
  - split.
    + intros (dct & h' & H). split; intros Hc; rewrite ?Hc in H.
      * destruct (_find_method spider (f_callback r)); [eauto | discriminate].
      * destruct (callable (f_callback r)).
        -- destruct (_find_method spider (f_callback r)); [|discriminate].
           cbn in H. destruct (_find_method spider (f_errback r)); [eauto | discriminate].
        -- destruct (_find_method spider (f_errback r)); [eauto | discriminate].
    + intros [H1 H2].
      destruct (callable (f_callback r)); [destruct H1 as [n ->]; [done|]|];
        (destruct (callable (f_errback r)); [destruct H2 as [n' ->]; [done|]|]);
        cbn; eauto.
  - intros e -> ->. reflexivity.
Qed.

(** X21: an errback that is an instance method is resolved as a
    callback is: with an owner that counts as true and a member with the
    same [__func__], [to_dict] stores the name of such a member under
    [errback] whenever the callback resolves; with no such member it raises
    the ValueError for the errback. *)
Theorem bound_method_errback_resolves (h : gmap nat instance) self cls d r o recv f cb' :
  h !! self = Some (Instance cls d) -> request_inv d r ->
  f_errback r = PMethod recv f -> obj_truthy o = true ->
  resolve (Some o) (f_callback r) = Ret cb' ->
  ((exists name recv', (name, PMethod recv' f) ∈ obj_members o) ->
     exists name recv' dct h',
       (name, PMethod recv' f) ∈ obj_members o
       /\ to_dict self (Some o) h = (Ret dct, h')
       /\ dct !! "errback" = Some (PStr name)
       /\ dct !! "callback" = Some cb')
  /\ ((forall name recv', (name, PMethod recv' f) ∉ obj_members o) ->
      to_dict self (Some o) h
        = (Raise (not_an_instance_method (Some o) (PMethod recv f)), h)).
Proof.
  intros Hself Hinv Heb Ht Hcb.
  rewrite (to_dict_eq h self cls d r (Some o) Hself Hinv). rewrite Hcb, Heb. split.
  - intros Hex. destruct (find_method_match o recv f Ht Hex) as (name & recv' & Hin & E).
    unfold resolve. cbn [callable]. rewrite E. cbn [omap_outcome].
    eexists name, recv', _, _. split; [done|]. split; [done|].
    destruct (to_dict_entries cls r cb' (PStr name)) as [E1 E2]. by split.
  - intros Hno. unfold resolve. cbn [callable].
    by rewrite (find_method_no_match o recv f Hno).
Qed.

(** X22: the name that [_find_method] returns is that of the first
    member, in the order of [inspect.getmembers], whose function is the
    function of the callback; the owner counts as true. *)
Theorem find_method_returns_first obj func name :
  _find_method obj func = Ret name ->
  exists o pre m post,
    obj = Some o /\ obj_truthy o = true /\ has_func func = true
    /\ getmembers_ismethod o = (pre ++ (name, m) :: post)%list
    /\ same_func m func = true
    /\ Forall (fun nv => same_func nv.2 func = false) pre.
Proof.
  unfold _find_method. destruct obj as [o|]; [|discriminate].
  destruct (obj_truthy o) eqn:Ht; [|discriminate].
  destruct (has_func func) eqn:Hf; [|discriminate]. cbn [andb].
  destruct (first_member (getmembers_ismethod o) func) as [n|] eqn:E; [|discriminate].
  intros [= ->]. destruct (first_member_split _ _ _ E) as (pre & m & post & Hs & Hm & Hp).
  by exists o, pre, m, post.
Qed.

(** X23: an owner that counts as false is treated as no owner: a
    Request whose callback is an instance method is not serialised with it,
    whether or not the owner has the method. *)
Theorem falsy_owner_is_no_owner (h : gmap nat instance) self cls d r o recv f :
  h !! self = Some (Instance cls d) -> request_inv d r ->
  f_callback r = PMethod recv f -> obj_truthy o = false ->
  to_dict self (Some o) h
    = (Raise (not_an_instance_method (Some o) (PMethod recv f)), h).
Proof.
  intros Hself Hinv Hcb Ht.
  rewrite (to_dict_eq h self cls d r (Some o) Hself Hinv). rewrite Hcb.
  unfold resolve, _find_method. cbn [callable]. by rewrite Ht.
Qed.

(** X24: a callback that is callable but is not an instance method (a
    function, a lambda, a class) makes [to_dict] raise, with any spider or
    none. *)
Theorem plain_callable_not_serialisable (h : gmap nat instance) self cls d r spider :
  h !! self = Some (Instance cls d) -> request_inv d r ->
  callable (f_callback r) = true -> has_func (f_callback r) = false ->
  to_dict self spider h
    = (Raise (not_an_instance_method spider (f_callback r)), h).
Proof.
  intros Hself Hinv Hc Hf.
  rewrite (to_dict_eq h self cls d r spider Hself Hinv).
  unfold resolve, _find_method. rewrite Hc, Hf.
  destruct spider as [o|]; [|done]. by rewrite andb_false_r.
Qed.

(** X25: [NO_CALLBACK] is a callable like any other to the constructor,
    which accepts it where it accepts no callback at all and never calls it;
    calling it raises a RuntimeError whatever the arguments. *)
Theorem no_callback_accepted_never_called :
  (forall a d,
     (__init__ (with_callback NO_CALLBACK a) d).1
       = (__init__ (with_callback PNone a) d).1)
  /\ (forall cls args kwargs (h h' : gmap nat instance) l a,
        construct cls args kwargs h = (Ret l, h') ->
        bind_args args kwargs = Ret a -> a_callback a = NO_CALLBACK ->
        (on l (getattr "callback") h').1 = Ret NO_CALLBACK)
  /\ (forall args kwargs, exists msg, NO_CALLBACK_call args kwargs = Raise (RuntimeError msg)).
Proof.
  split; [|split].
  - intros a d. by rewrite !init_verdict_eq.
  - intros cls args kwargs h h' l a H Ha Hcb.
    apply constructed_field in H as (a' & u & b & hs & m & k & f & Ha' & Hacc & Hget).
    rewrite Ha in Ha'. injection Ha' as <-.
    change (getattr "callback") with (getfield "callback"). rewrite Hget.
    unfold getfield, init_fields. lookup_fields. by rewrite Hcb.
  - intros args kwargs. unfold NO_CALLBACK_call. eauto.
Qed.

End SerialisationExtras.

(** ** [replace], [to_dict] and [_find_method] on concrete Requests *)

Lemma replace_leaves_original_witness :
  (replace (C := demo) 0 [PInt 1] {["priority" := PStr "1"]} (demo_heap PNone PNone)).2 !! 0
    = Some (Instance Request
              (touched (demo_fields PNone PNone) (demo_attrs PNone PNone)))
  /\ (forall name, name ≠ "_meta" -> name ≠ "_cb_kwargs" ->
        touched (demo_fields PNone PNone) (demo_attrs PNone PNone) !! name
          = demo_attrs PNone PNone !! name)
  /\ (forall x, x ∈ attributes ->
        (on 0 (getattr x)
           (replace (C := demo) 0 [PInt 1] {["priority" := PStr "1"]}
              (demo_heap PNone PNone)).2).1
          = (on 0 (getattr x) (demo_heap PNone PNone)).1).
Proof.
  apply (@replace_leaves_original demo (demo_heap PNone PNone) 0 Request
           (demo_attrs PNone PNone) (demo_fields PNone PNone)
           [PInt 1] {["priority" := PStr "1"]}
           eq_refl (demo_request_inv PNone PNone eq_refl eq_refl)).
Defined.

Lemma replace_positional_raises_witness :
  exists msg,
    (replace (C := demo) 0 [PStr "http://example.org"] ∅ (demo_heap PNone PNone)).1
      = Raise (TypeError msg).
Proof.
  apply (@replace_positional_raises demo (demo_heap PNone PNone) 0 Request
           (demo_attrs PNone PNone) (demo_fields PNone PNone)
           (PStr "http://example.org") [] ∅
           eq_refl (demo_request_inv PNone PNone eq_refl eq_refl)).
  left. reflexivity.
Defined.

Lemma replace_unknown_keyword_raises_witness :
  (replace (C := demo) 0 [] {["timeout" := PInt 3]} (demo_heap PNone PNone)).1
    = Raise (TypeError "__init__() got an unexpected keyword argument").
Proof.
  apply (@replace_unknown_keyword_raises demo (demo_heap PNone PNone) 0 Request
           (demo_attrs PNone PNone) (demo_fields PNone PNone)
           {["timeout" := PInt 3]} "timeout" (PInt 3)
           eq_refl (demo_request_inv PNone PNone eq_refl eq_refl)).
  - left. reflexivity.
  - reflexivity.
  - unfold attributes. intros Hin.
    repeat (apply elem_of_cons in Hin as [Hin|Hin]; [discriminate Hin|]).
    by apply elem_of_nil in Hin.
  - discriminate.
Defined.

Lemma replace_validates_overrides_witness :
  exists a,
    (forall name v,
       ({["url" := PStr "not-a-url"]} : gmap string pyval) !! name = Some v ->
       arg_of a name = Some v)
    /\ (forall name, name ∈ attributes ->
          ({["url" := PStr "not-a-url"]} : gmap string pyval) !! name = None ->
          exists v, (on 0 (getattr name) (demo_heap PNone PNone)).1 = Ret v
                    /\ arg_of a name = Some v)
    /\ (replace (C := demo) 0 [] {["url" := PStr "not-a-url"]}
          (demo_heap PNone PNone)).1 =
         match init_verdict (C := demo) a with
         | Ret _ => Ret (PObject (fresh (dom (demo_heap PNone PNone))))
         | Raise e => Raise e
         end.
Proof.
  apply (@replace_validates_overrides demo (demo_heap PNone PNone) 0 Request
           (demo_attrs PNone PNone) (demo_fields PNone PNone)
           {["url" := PStr "not-a-url"]}
           eq_refl (demo_request_inv PNone PNone eq_refl eq_refl)).
  apply map_Forall_singleton. unfold attributes. apply elem_of_cons. by left.
Defined.

(** [replace] runs the checks of the constructor on its overrides. *)
Example replace_checks_overrides :
  (replace (C := demo) 0 [] {["url" := PStr "not-a-url"]} (demo_heap PNone PNone)).1
    = Raise (ValueError "Missing scheme in request url: not-a-url")
  /\ (replace (C := demo) 0 [] {["priority" := PStr "1"]} (demo_heap PNone PNone)).1
    = Raise (TypeError "Request priority not an integer: '1'")
  /\ (replace (C := demo) 0 [] {["cls" := PInt 5]} (demo_heap PNone PNone)).1
    = Raise (TypeError "'int' object is not callable").
Proof. repeat split; vm_compute; reflexivity. Qed.

Lemma replace_into_class_witness :
  exists l h' d',
    replace (C := demo) 0 [] {["cls" := PClass demo_subclass]} (demo_heap PNone PNone)
      = (Ret (PObject l), h')
    /\ l ≠ 0 /\ demo_heap PNone PNone !! l = None
    /\ h' !! l = Some (Instance demo_subclass d')
    /\ forall x, x ∈ attributes ->
         exists v, (on 0 (getattr x) (demo_heap PNone PNone)).1 = Ret v
                   /\ (on l (getattr x) h').1 = Ret v.
Proof.
  apply (@replace_into_class demo (demo_heap PNone PNone) 0 Request
           (demo_attrs PNone PNone) (demo_fields PNone PNone) demo_subclass
           eq_refl (demo_request_inv PNone PNone eq_refl eq_refl)
           (demo_renormalises PNone PNone)).
Defined.

Lemma to_dict_keys_witness :
  exists dct h',
    to_dict (C := demo) 0 None demo_sub_heap = (Ret dct, h')
    /\ (forall k, is_Some (dct !! k)
                  <-> k ∈ attributes \/ (demo_subclass ≠ Request /\ k = "_class"))
    /\ (demo_subclass ≠ Request ->
        dct !! "_class"
          = Some (PStr (cls_module demo_subclass +:+ "." +:+ cls_name demo_subclass))).
Proof.
  eexists _, (to_dict (C := demo) 0 None demo_sub_heap).2.
  split; [vm_compute; reflexivity|].
  apply (@to_dict_keys demo demo_sub_heap
           (to_dict (C := demo) 0 None demo_sub_heap).2 0 demo_subclass
           (demo_attrs PNone PNone) (demo_fields PNone PNone) None _
           eq_refl (demo_request_inv PNone PNone eq_refl eq_refl)).
  vm_compute. reflexivity.
Defined.

(** The tag of the subclass, and no tag on a plain Request. *)
Example to_dict_class_tag_demo :
  omap_outcome (fun dct => dct !! "_class") (to_dict (C := demo) 0 None demo_sub_heap).1
    = Ret (Some (PStr "myproject.http.ApiRequest"))
  /\ omap_outcome (fun dct => dct !! "_class")
       (to_dict (C := demo) 0 None (demo_heap PNone PNone)).1 = Ret None.
Proof. split; vm_compute; reflexivity. Qed.

Lemma to_dict_values_witness :
  exists dct h',
    to_dict (C := demo) 0 None (demo_heap PNone PNone) = (Ret dct, h')
    /\ (forall x, x ∈ attributes ->
          x ≠ "callback" -> x ≠ "errback" -> x ≠ "headers" ->
          exists v, (on 0 (getattr x) (demo_heap PNone PNone)).1 = Ret v
                    /\ dct !! x = Some v)
    /\ (exists hs, (on 0 (getattr "headers") (demo_heap PNone PNone)).1
                     = Ret (PHeaders hs)
                   /\ dct !! "headers" = Some (PDict (headers_items hs)))
    /\ (exists m k, dct !! "meta" = Some (PDict m)
                    /\ dct !! "cb_kwargs" = Some (PDict k)).
Proof.
  eexists _, (to_dict (C := demo) 0 None (demo_heap PNone PNone)).2.
  split; [vm_compute; reflexivity|].
  apply (@to_dict_values demo (demo_heap PNone PNone)
           (to_dict (C := demo) 0 None (demo_heap PNone PNone)).2 0 Request
           (demo_attrs PNone PNone) (demo_fields PNone PNone) None _
           eq_refl (demo_request_inv PNone PNone eq_refl eq_refl)).
  vm_compute. reflexivity.
Defined.

Lemma to_dict_effect_witness :
  (forall l, l ≠ 0 ->
     (to_dict (C := demo) 0 None (demo_heap (PFunction "parse_page") PNone)).2 !! l
       = demo_heap (PFunction "parse_page") PNone !! l)
  /\ (forall e,
        (to_dict (C := demo) 0 None (demo_heap (PFunction "parse_page") PNone)).1
          = Raise e ->
        (to_dict (C := demo) 0 None (demo_heap (PFunction "parse_page") PNone)).2
          = demo_heap (PFunction "parse_page") PNone)
  /\ (forall dct,
        (to_dict (C := demo) 0 None (demo_heap (PFunction "parse_page") PNone)).1
          = Ret dct ->
        (to_dict (C := demo) 0 None (demo_heap (PFunction "parse_page") PNone)).2 !! 0
          = Some (Instance Request
                    (touched (demo_fields (PFunction "parse_page") PNone)
                       (demo_attrs (PFunction "parse_page") PNone))))
  /\ (forall x, x ∈ attributes ->
        (on 0 (getattr x)
           (to_dict (C := demo) 0 None (demo_heap (PFunction "parse_page") PNone)).2).1
          = (on 0 (getattr x) (demo_heap (PFunction "parse_page") PNone)).1).
Proof.
  apply (@to_dict_effect demo (demo_heap (PFunction "parse_page") PNone) 0 Request
           (demo_attrs (PFunction "parse_page") PNone)
           (demo_fields (PFunction "parse_page") PNone) None
           eq_refl (demo_request_inv (PFunction "parse_page") PNone eq_refl eq_refl)).
Defined.

Lemma to_dict_succeeds_iff_witness :
  ((exists dct h',
      to_dict (C := demo) 0 (Some demo_spider)
        (demo_heap (PMethod 7 "MySpider.parse") PNone) = (Ret dct, h')) <->
     (callable (f_callback (demo_fields (PMethod 7 "MySpider.parse") PNone)) = true ->
        exists n, _find_method (C := demo) (Some demo_spider)
                    (f_callback (demo_fields (PMethod 7 "MySpider.parse") PNone)) = Ret n)
     /\ (callable (f_errback (demo_fields (PMethod 7 "MySpider.parse") PNone)) = true ->
        exists n, _find_method (C := demo) (Some demo_spider)
                    (f_errback (demo_fields (PMethod 7 "MySpider.parse") PNone)) = Ret n))
  /\ (forall e,
        callable (f_callback (demo_fields (PMethod 7 "MySpider.parse") PNone)) = true ->
        _find_method (C := demo) (Some demo_spider)
          (f_callback (demo_fields (PMethod 7 "MySpider.parse") PNone)) = Raise e ->
        to_dict (C := demo) 0 (Some demo_spider)
          (demo_heap (PMethod 7 "MySpider.parse") PNone)
          = (Raise e, demo_heap (PMethod 7 "MySpider.parse") PNone)).
Proof.
  apply (@to_dict_succeeds_iff demo (demo_heap (PMethod 7 "MySpider.parse") PNone) 0
           Request (demo_attrs (PMethod 7 "MySpider.parse") PNone)
           (demo_fields (PMethod 7 "MySpider.parse") PNone) (Some demo_spider)
           eq_refl (demo_request_inv (PMethod 7 "MySpider.parse") PNone eq_refl eq_refl)).
Defined.

Lemma bound_method_errback_resolves_witness :
  (exists name recv' dct h',
     (name, PMethod recv' "MySpider.parse_item") ∈ obj_members demo_spider
     /\ to_dict (C := demo) 0 (Some demo_spider)
          (demo_heap PNone (PMethod 7 "MySpider.parse_item")) = (Ret dct, h')
     /\ dct !! "errback" = Some (PStr name)
     /\ dct !! "callback" = Some PNone)
  /\ to_dict (C := demo) 0 (Some demo_spider) (demo_heap PNone (PMethod 9 "Other.handle"))
     = (Raise (not_an_instance_method (C := demo) (Some demo_spider)
                 (PMethod 9 "Other.handle")),
        demo_heap PNone (PMethod 9 "Other.handle")).
Proof.
  split.
  - apply (proj1 (@bound_method_errback_resolves demo
                    (demo_heap PNone (PMethod 7 "MySpider.parse_item")) 0 Request
                    (demo_attrs PNone (PMethod 7 "MySpider.parse_item"))
                    (demo_fields PNone (PMethod 7 "MySpider.parse_item"))
                    demo_spider 7 "MySpider.parse_item" PNone
                    eq_refl
                    (demo_request_inv PNone (PMethod 7 "MySpider.parse_item")
                       eq_refl eq_refl)
                    eq_refl eq_refl eq_refl)).
    exists "parse_item", 7. unfold demo_spider. cbn [obj_members].
    do 3 (apply elem_of_cons; right). apply elem_of_cons. by left.
  - apply (proj2 (@bound_method_errback_resolves demo
                    (demo_heap PNone (PMethod 9 "Other.handle")) 0 Request
                    (demo_attrs PNone (PMethod 9 "Other.handle"))
                    (demo_fields PNone (PMethod 9 "Other.handle"))
                    demo_spider 9 "Other.handle" PNone
                    eq_refl
                    (demo_request_inv PNone (PMethod 9 "Other.handle") eq_refl eq_refl)
                    eq_refl eq_refl eq_refl)).
    intros name recv' Hin. unfold demo_spider in Hin. cbn [obj_members] in Hin.
    repeat (apply elem_of_cons in Hin as [Hin|Hin]; [discriminate Hin|]).
    by apply elem_of_nil in Hin.
Defined.

Lemma find_method_returns_first_witness :
  exists o pre m post,
    Some demo_spider = Some o /\ obj_truthy o = true
    /\ has_func (PMethod 3 "MySpider.parse") = true
    /\ getmembers_ismethod o = (pre ++ ("parse", m) :: post)%list
    /\ same_func m (PMethod 3 "MySpider.parse") = true
    /\ Forall (fun nv => same_func nv.2 (PMethod 3 "MySpider.parse") = false) pre.
Proof.
  apply (@find_method_returns_first demo (Some demo_spider) (PMethod 3 "MySpider.parse")
           "parse").
  vm_compute. reflexivity.
Defined.

Lemma falsy_owner_is_no_owner_witness :
  to_dict (C := demo) 0 (Some demo_empty_spider) (demo_heap (PMethod 8 "MySpider.parse") PNone)
  = (Raise (not_an_instance_method (C := demo) (Some demo_empty_spider)
              (PMethod 8 "MySpider.parse")),
     demo_heap (PMethod 8 "MySpider.parse") PNone).
Proof.
  apply (@falsy_owner_is_no_owner demo (demo_heap (PMethod 8 "MySpider.parse") PNone) 0
           Request (demo_attrs (PMethod 8 "MySpider.parse") PNone)
           (demo_fields (PMethod 8 "MySpider.parse") PNone)
           demo_empty_spider 8 "MySpider.parse"
           eq_refl (demo_request_inv (PMethod 8 "MySpider.parse") PNone eq_refl eq_refl)
           eq_refl eq_refl).
Defined.

Lemma plain_callable_not_serialisable_witness :
  to_dict (C := demo) 0 (Some demo_spider) (demo_heap (PClass demo_subclass) PNone)
  = (Raise (not_an_instance_method (C := demo) (Some demo_spider) (PClass demo_subclass)),
     demo_heap (PClass demo_subclass) PNone).
Proof.
  apply (@plain_callable_not_serialisable demo (demo_heap (PClass demo_subclass) PNone) 0
           Request (demo_attrs (PClass demo_subclass) PNone)
           (demo_fields (PClass demo_subclass) PNone) (Some demo_spider)
           eq_refl (demo_request_inv (PClass demo_subclass) PNone eq_refl eq_refl)
           eq_refl eq_refl).
Defined.

Lemma no_callback_accepted_never_called_witness :
  (on 0 (getattr "callback")
     (construct (C := demo) Request [PStr "http://example.com"]
        {["callback" := NO_CALLBACK]} ∅).2).1 = Ret NO_CALLBACK.
Proof.
  apply (proj1 (proj2 (@no_callback_accepted_never_called demo)) Request
           [PStr "http://example.com"] {["callback" := NO_CALLBACK]} ∅ _ 0
           (demo_args NO_CALLBACK PNone)).
  - vm_compute. reflexivity.
  - vm_compute. reflexivity.
  - reflexivity.
Defined.
